(** * The adaptive scoring and weight-learning pipeline

    A shallow embedding of the Python modules [features.py], [evaluate.py],
    [learn.py], [predict_adaptive.py], [main_loop.py] and [run_learning.py].

    Conventions of the embedding:
    - Python [int] is [Z]; lengths and counts that come from [len] are [nat].
    - Python [float] is idealised as an exact rational ([Q], compared with
      [==]); rounding is not modelled, except in the two tests of the hot
      and cold numbers, whose operands are commonly equal in exact
      arithmetic.
    - A raised exception is a value [Raise e] of the [result] type.
    - [dict]s that are only read and written by key are [gmap]s; the weight
      dictionary, which the code iterates over, is an insertion-ordered
      association list.
    - [print] and file writes are recorded in the state that the method
      threads through. *)

From Stdlib Require Import QArith Qminmax Qabs Lqa.
From stdpp Require Import gmap strings list sorting.

Local Open Scope Z_scope.

(** ** Exceptions *)

Inductive exn := KeyError | ZeroDivisionError | ValueError.

Inductive result (A : Type) :=
  | Ok (a : A)
  | Raise (e : exn).
Arguments Ok {A} a.
Arguments Raise {A} e.

Definition bind {A B} (m : result A) (k : A -> result B) : result B :=
  match m with
  | Ok a => k a
  | Raise e => Raise e
  end.

Notation "'do' x <- m ; k" := (bind m (fun x => k))
  (at level 10, x pattern, m at level 100, k at level 200).

Definition is_ok {A} (m : result A) : bool :=
  match m with Ok _ => true | Raise _ => false end.

(** What the caller of a method without a [return] value receives: [None],
    here [tt], or the exception. *)
Definition returned {A} (m : result A) : result unit :=
  match m with Ok _ => Ok tt | Raise e => Raise e end.

(** ** Python built-ins *)

Module Py.

(** [a / b] on two [int]s: true division, raising on a zero divisor. *)
Definition truediv (a b : Z) : result Q :=
  if b =? 0 then Raise ZeroDivisionError else Ok (inject_Z a / inject_Z b)%Q.

(** [sum] of a list of floats. *)
Definition sum (l : list Q) : Q := foldr Qplus 0%Q l.

(** [max(0.01, min(0.5, x))]. *)
Definition clamp (lo hi x : Q) : Q := Qmax lo (Qmin hi x).

(** Stable insertion sort; [leb x y] says that [x] may stand before [y].
    With [leb] true on ties an element never overtakes an equal one that
    came before it, which is the order [sorted] and [list.sort] produce. *)
Fixpoint insert {A} (leb : A -> A -> bool) (x : A) (l : list A) : list A :=
  match l with
  | [] => [x]
  | y :: l' => if leb x y then x :: y :: l' else y :: insert leb x l'
  end.

Definition sort_by {A} (leb : A -> A -> bool) (l : list A) : list A :=
  foldr (insert leb) [] l.

(** [sorted(l)] on ints. *)
Definition sorted (l : list Z) : list Z := sort_by Z.leb l.

(** [sorted(l, key=k, reverse=True)] / [l.sort(key=k, reverse=True)]. *)
Definition sorted_desc {A} (key : A -> Q) (l : list A) : list A :=
  sort_by (fun x y => Qle_bool (key y) (key x)) l.

(** [l[:n]] for a possibly negative [n]. *)
Definition slice_to {A} (n : Z) (l : list A) : list A :=
  if 0 <=? n then take (Z.to_nat n) l
  else take (length l - Z.to_nat (- n))%nat l.

(** [set(l)]. *)
Definition set (l : list Z) : gset Z := list_to_set l.

(** [range(a, b)]. *)
Definition range (a b : Z) : list Z := seqZ a (b - a).

End Py.

(** ** evaluate.py *)

Module Evaluate.

(** One entry of [evaluation['predictions']]. The three [list(set(...))]
    fields are lists in the iteration order of a Python set; they are kept
    as the sets they enumerate. *)
Record prediction_eval := {
  index : Z;
  predicted_numbers : list Z;
  confidence_score : Q;
  hit_count : nat;
  hit_numbers : gset Z;
  missed_numbers : gset Z;
  extra_numbers : gset Z
}.

Record evaluation_summary := {
  best_hit_count : nat;
  best_prediction_index : Z;
  average_hit_count : Q;
  hit_distribution : gmap nat nat
}.

Record evaluation := {
  draw_date : string;
  actual_result : list Z;
  total_predictions : nat;
  predictions : list prediction_eval;
  summary : evaluation_summary
}.

(** The evaluator object: [self.results] and the contents of the
    evaluation file as last written by [save_evaluation_results]. *)
Record evaluator := {
  results : gmap string evaluation;
  evaluation_file : gmap string evaluation
}.

Definition save_evaluation_results (ev : evaluator) : evaluator :=
  {| results := results ev; evaluation_file := results ev |}.

(** [{0: 0, 1: 0, 2: 0, 3: 0, 4: 0, 5: 0, 6: 0}] *)
Definition empty_distribution : gmap nat nat :=
  list_to_map ((fun h => (h, 0%nat)) <$> seq 0 7).

(** The local variables the [for] loop of [evaluate_predictions] updates. *)
Record loop_state := {
  acc_predictions : list prediction_eval;
  acc_distribution : gmap nat nat;
  total_hits : nat;
  best_hits : nat;
  best_index : Z
}.

Definition loop_init : loop_state :=
  {| acc_predictions := [];
     acc_distribution := empty_distribution;
     total_hits := 0;
     best_hits := 0;
     best_index := -1 |}.

Definition hits_of (numbers actual_sorted : list Z) : nat :=
  size (Py.set (Py.sorted numbers) ∩ Py.set actual_sorted).

(** One iteration of the loop, for the [i]-th pair [(numbers, score)]. *)
Definition loop_body (actual_sorted : list Z) (i : nat)
    (p : list Z * Q) (st : loop_state) : result loop_state :=
  let sorted_numbers := Py.sorted p.1 in
  let hits := hits_of p.1 actual_sorted in
  let prediction_eval := {|
    index := Z.of_nat i + 1;
    predicted_numbers := sorted_numbers;
    confidence_score := p.2;
    hit_count := hits;
    hit_numbers := Py.set sorted_numbers ∩ Py.set actual_sorted;
    missed_numbers := Py.set actual_sorted ∖ Py.set sorted_numbers;
    extra_numbers := Py.set sorted_numbers ∖ Py.set actual_sorted |} in
  match acc_distribution st !! hits with
  | None => Raise KeyError
  | Some c =>
      Ok {| acc_predictions := acc_predictions st ++ [prediction_eval];
            acc_distribution := <[hits := S c]> (acc_distribution st);
            total_hits := total_hits st + hits;
            best_hits := if (best_hits st <? hits)%nat then hits else best_hits st;
            best_index := if (best_hits st <? hits)%nat then Z.of_nat i else best_index st |}
  end.

(** [for i, (numbers, score) in enumerate(predictions)], from index [i]. *)
Fixpoint loop (actual_sorted : list Z) (i : nat)
    (ps : list (list Z * Q)) (st : loop_state) : result loop_state :=
  match ps with
  | [] => Ok st
  | p :: ps' =>
      do st' <- loop_body actual_sorted i p st;
      loop actual_sorted (S i) ps' st'
  end.

Definition evaluate_predictions (ev : evaluator) (date : string)
    (preds : list (list Z * Q)) (actual : list Z)
    : result (evaluation * evaluator) :=
  let actual_sorted := Py.sorted actual in
  do st <- loop actual_sorted 0 preds loop_init;
  do avg <- Py.truediv (Z.of_nat (total_hits st)) (Z.of_nat (length preds));
  let evaluation := {|
    draw_date := date;
    actual_result := actual_sorted;
    total_predictions := length preds;
    predictions := acc_predictions st;
    summary := {|
      best_hit_count := best_hits st;
      best_prediction_index := best_index st + 1;
      average_hit_count := avg;
      hit_distribution := acc_distribution st |} |} in
  Ok (evaluation,
      save_evaluation_results
        {| results := <[date := evaluation]> (results ev);
           evaluation_file := evaluation_file ev |}).

Definition empty_evaluator : evaluator :=
  {| results := ∅; evaluation_file := ∅ |}.

End Evaluate.

(** ** features.py *)

Module Features.

(** One line of the CSV file; bonus numbers and other columns are not
    read by the feature functions. *)
Record row := {
  DrawDate : string;
  Number1 : Z; Number2 : Z; Number3 : Z;
  Number4 : Z; Number5 : Z; Number6 : Z
}.

(** [row[number_columns].values] *)
Definition numbers_of (r : row) : list Z :=
  [Number1 r; Number2 r; Number3 r; Number4 r; Number5 r; Number6 r].

(** [self.data] is the list of rows in file order, indexed from 0;
    [self.all_numbers] is the flattened array computed by [load_data]. *)
Definition all_numbers (data : list row) : list Z :=
  concat (numbers_of <$> data).

(** [Counter(l)] *)
Definition Counter (l : list Z) : gmap Z Z :=
  foldl (fun c x => <[x := default 0 (c !! x) + 1]> c) ∅ l.

Definition get_total_appearances (data : list row) : gmap Z Z :=
  Counter (all_numbers data).

(** [a[-n:]] on an array, for [n] of either sign. *)
Definition slice_from {A} (n : Z) (l : list A) : list A :=
  if n <? 0 then drop (length l - Z.to_nat (- n))%nat l
  else drop (Z.to_nat n) l.

Definition get_recent_appearances (data : list row) (recent_count : Z)
    : gmap Z Z :=
  Counter (slice_from (- recent_count * 6) (all_numbers data)).

(** The inner loop of [get_missing_intervals]: the value of the variable
    [last_appearance] once the [for] over [iterrows()] is left, scanning
    from row [i]. *)
Fixpoint last_appearance (num : Z) (i : Z) (rows : list row) : Z :=
  match rows with
  | [] => -1
  | r :: rows' =>
      if bool_decide (num ∈ numbers_of r) then i
      else last_appearance num (i + 1) rows'
  end.

Definition missing_interval (data : list row) (num : Z) : Z :=
  let la := last_appearance num 0 data in
  if la =? -1 then Z.of_nat (length data)
  else Z.of_nat (length data) - 1 - la.

Definition get_missing_intervals (data : list row) : gmap Z Z :=
  foldl (fun m num => <[num := missing_interval data num]> m)
        ∅ (Py.range 1 50).

(** [for i in range(len(numbers)-1): if numbers[i+1] - numbers[i] == 1] *)
Fixpoint count_consecutive (numbers : list Z) : Z :=
  match numbers with
  | x :: (y :: _) as rest =>
      (if y - x =? 1 then 1 else 0) + count_consecutive rest
  | _ => 0
  end.

(** The double loop over [i < j] counting [abs(numbers[j] - numbers[i]) <= 2]. *)
Fixpoint count_pairs (numbers : list Z) : Z :=
  match numbers with
  | [] => 0
  | x :: rest =>
      Z.of_nat (length (filter (fun y => Z.abs (y - x) <= 2) rest))
      + count_pairs rest
  end.

Record pairs_frequency := {
  consecutive_rate : Q;
  pair_rate : Q
}.

Definition get_consecutive_pairs_frequency (data : list row)
    : result pairs_frequency :=
  let total_draws := Z.of_nat (length data) in
  let counts :=
    foldl (fun acc r =>
             let numbers := Py.sorted (numbers_of r) in
             (acc.1 + count_consecutive numbers, acc.2 + count_pairs numbers))
          (0, 0) data in
  do cr <- Py.truediv counts.1 total_draws;
  do pr <- Py.truediv counts.2 (total_draws * 15);
  Ok {| consecutive_rate := cr; pair_rate := pr |}.

Definition get_odd_even_ratio (data : list row) : result Q :=
  let odd_count :=
    Z.of_nat (length (filter (fun num => num mod 2 = 1) (all_numbers data))) in
  Py.truediv odd_count (Z.of_nat (length (all_numbers data))).

(** A row from a date and six numbers. *)
Definition draw (date : string) (n1 n2 n3 n4 n5 n6 : Z) : row :=
  {| DrawDate := date;
     Number1 := n1; Number2 := n2; Number3 := n3;
     Number4 := n4; Number5 := n5; Number6 := n6 |}.

End Features.

(** ** learn.py *)

Module Learn.

Import Evaluate.

(** The weight dictionary, in insertion order. *)
Definition weight_dict := list (string * Q).

(** [d[k]], [None] standing for the [KeyError]. *)
Fixpoint dict_get {V} (k : string) (d : list (string * V)) : option V :=
  match d with
  | [] => None
  | (k', v) :: d' => if String.eqb k k' then Some v else dict_get k d'
  end.

(** [d[k] = v]: an existing key keeps its place, a new one goes last. *)
Fixpoint dict_set {V} (k : string) (v : V) (d : list (string * V))
    : list (string * V) :=
  match d with
  | [] => [(k, v)]
  | (k', v') :: d' =>
      if String.eqb k k' then (k', v) :: d' else (k', v') :: dict_set k v d'
  end.

Definition keys {V} (d : list (string * V)) : list string := d.*1.
Definition values {V} (d : list (string * V)) : list V := d.*2.

Definition default_weights : weight_dict :=
  [ ("total_appearances", 15 # 100); ("recent_appearances", 20 # 100);
    ("missing_intervals", 15 # 100); ("hot_cold", 10 # 100);
    ("periodicity", 10 # 100); ("regression_trend", 8 # 100);
    ("moving_average", 8 # 100); ("attraction_effect", 5 # 100);
    ("distribution", 5 # 100); ("adjacent_correlation", 4 # 100) ]%Q.

(** What the learner prints, one constructor per [print] site that
    carries data; decorative rules are part of the neighbouring message. *)
Inductive message :=
  | LearningStarted (date : string)
  | EvaluationNotFound
  | AdjustmentHeader
  | WeightChanged (feature_name : string) (old_weight new_weight adjustment : Q)
  | AdjustmentDone
  | LearningSummary (best : nat) (average : Q) (effectiveness : list (string * Q)).

(** The learner object together with its environment: the weights file
    ([None] until [save_weights] writes it) and the console. *)
Record learner := {
  weights_file : option weight_dict;
  learning_rate : Q;
  weights : weight_dict;
  evaluator : Evaluate.evaluator;
  console : list message
}.

Definition print (m : message) (s : learner) : learner :=
  {| weights_file := weights_file s; learning_rate := learning_rate s;
     weights := weights s; evaluator := evaluator s;
     console := console s ++ [m] |}.

Definition set_weights (w : weight_dict) (s : learner) : learner :=
  {| weights_file := weights_file s; learning_rate := learning_rate s;
     weights := w; evaluator := evaluator s; console := console s |}.

Definition save_weights (s : learner) : learner :=
  {| weights_file := Some (weights s); learning_rate := learning_rate s;
     weights := weights s; evaluator := evaluator s; console := console s |}.

(** The per-number entries of the features dictionary. The learner reads
    no other entry. *)
Definition feature_table := gmap string (gmap Z Q).

(** [features.get(name, {}).get(num, 0)] *)
Definition feature_get (features : feature_table) (name : string) (num : Z) : Q :=
  default 0%Q (default ∅ (features !! name) !! num).

(** The [if]/[elif] chain that fills [actual_feature_values] and
    [predicted_feature_values] for one number. *)
Definition record_value (feature_name : string) (features : feature_table)
    (vals : gmap Z Q) (num : Z) : gmap Z Q :=
  if String.eqb feature_name "total_appearances" then
    <[num := feature_get features "total_appearances" num]> vals
  else if String.eqb feature_name "recent_appearances" then
    <[num := feature_get features "recent_appearances" num]> vals
  else if String.eqb feature_name "missing_intervals" then
    <[num := feature_get features "missing_intervals" num]> vals
  else vals.

(** [statistics.mean(list(d.values())) if d else 0]. The exact sum does not
    depend on the order in which the values are listed. *)
Definition mean_or_zero (d : gmap Z Q) : Q :=
  match (map_to_list d).*2 with
  | [] => 0
  | vs => Py.sum vs / inject_Z (Z.of_nat (length vs))
  end%Q.

Record performance := {
  actual_average : Q;
  predicted_average : Q;
  effectiveness : Q;
  contribution_score : Q
}.

Definition analyze_single_feature (feature_name : string)
    (features : feature_table) (actual_result : list Z)
    (predictions : list prediction_eval) : performance :=
  let actual_feature_values :=
    foldl (record_value feature_name features) ∅ actual_result in
  let predicted_feature_values :=
    foldl (fun vals pred =>
             if (2 <=? hit_count pred)%nat
             then foldl (record_value feature_name features) vals
                        (predicted_numbers pred)
             else vals)
          ∅ predictions in
  let actual_avg := mean_or_zero actual_feature_values in
  let predicted_avg := mean_or_zero predicted_feature_values in
  let effectiveness :=
    (1 - Qabs (actual_avg - predicted_avg)
         / Qmax (Qmax actual_avg predicted_avg) 1)%Q in
  {| actual_average := actual_avg;
     predicted_average := predicted_avg;
     effectiveness := Qmax 0 effectiveness;
     contribution_score := 0 |}.

Definition analyze_feature_performance (s : learner) (date : string)
    (features : feature_table) : list (string * performance) :=
  match results (evaluator s) !! date with
  | None => []
  | Some evaluation =>
      foldl (fun fp feature_name =>
               dict_set feature_name
                 (analyze_single_feature feature_name features
                    (actual_result evaluation) (predictions evaluation))
                 fp)
            [] (keys (weights s))
  end.

Definition adjustment_for (learning_rate overall_performance eff : Q) : Q :=
  (if Qlt_le_dec (6 # 10) eff then
     if Qlt_le_dec (5 # 10) overall_performance
     then learning_rate * eff
     else - learning_rate * eff * (5 # 10)
   else
     if Qlt_le_dec (5 # 10) overall_performance
     then - learning_rate * (1 - eff) * (3 # 10)
     else - learning_rate * (1 - eff))%Q.

Definition calculate_weight_adjustments (s : learner)
    (feature_performance : list (string * performance))
    (evaluation : Evaluate.evaluation) : list (string * Q) :=
  let best_hit_count := best_hit_count (summary evaluation) in
  let avg_hit_count := average_hit_count (summary evaluation) in
  let overall_performance :=
    (inject_Z (Z.of_nat best_hit_count) / 6 * (7 # 10)
     + avg_hit_count / 6 * (3 # 10))%Q in
  foldl (fun adjustments fp =>
           dict_set fp.1
             (adjustment_for (learning_rate s) overall_performance
                (effectiveness fp.2))
             adjustments)
        [] feature_performance.

(** The first loop of [apply_weight_adjustments]. *)
Fixpoint clamp_loop (adjustments : list (string * Q)) (s : learner)
    : result learner :=
  match adjustments with
  | [] => Ok s
  | (feature_name, adjustment) :: rest =>
      match dict_get feature_name (weights s) with
      | None => Raise KeyError
      | Some old_weight =>
          let new_weight :=
            Py.clamp (1 # 100) (5 # 10) (old_weight + adjustment)%Q in
          let s := set_weights (dict_set feature_name new_weight (weights s)) s in
          let s :=
            if Qlt_le_dec (1 # 1000) (Qabs adjustment)
            then print (WeightChanged feature_name old_weight new_weight adjustment) s
            else s in
          clamp_loop rest s
      end
  end.

(** The second loop: every weight divided by the total. Dividing a float
    by a zero total raises; with no weights the loop body never runs. *)
Definition normalize (w : weight_dict) : result weight_dict :=
  let total_weight := Py.sum (values w) in
  match w with
  | [] => Ok []
  | _ =>
      if Qeq_bool total_weight 0 then Raise ZeroDivisionError
      else Ok ((fun kv => (kv.1, (kv.2 / total_weight)%Q)) <$> w)
  end.

Definition apply_weight_adjustments (adjustments : list (string * Q))
    (s : learner) : result learner :=
  let s := print AdjustmentHeader s in
  do s <- clamp_loop adjustments s;
  do w <- normalize (weights s);
  Ok (print AdjustmentDone (set_weights w s)).

Definition print_learning_summary
    (feature_performance : list (string * performance))
    (evaluation : Evaluate.evaluation) (s : learner) : learner :=
  print (LearningSummary (best_hit_count (summary evaluation))
           (average_hit_count (summary evaluation))
           ((fun fp => (fp.1, effectiveness fp.2)) <$> feature_performance))
        s.

Definition learn_from_evaluation (date : string) (features : feature_table)
    (s : learner) : result learner :=
  let s := print (LearningStarted date) s in
  let feature_performance := analyze_feature_performance s date features in
  match results (evaluator s) !! date with
  | None => Ok (print EvaluationNotFound s)
  | Some evaluation =>
      let adjustments :=
        calculate_weight_adjustments s feature_performance evaluation in
      do s <- apply_weight_adjustments adjustments s;
      let s := save_weights s in
      Ok (print_learning_summary feature_performance evaluation s)
  end.

(** [TotoLearner()] when neither file exists. *)
Definition fresh_learner : learner :=
  {| weights_file := None;
     learning_rate := 1 # 10;
     weights := default_weights;
     evaluator := Evaluate.empty_evaluator;
     console := [] |}.

End Learn.

(** ** predict_adaptive.py *)

Module PredictAdaptive.

Definition is_prime (n : Z) : bool :=
  if n <? 2 then false
  else forallb (fun i => negb (n mod i =? 0)) (Py.range 2 (Z.sqrt n + 1)).

(** [int(n**0.5)] is the integer square root on the non-negative numbers
    the generator works with. *)
Definition is_square (n : Z) : bool :=
  let root := Z.sqrt n in
  root * root =? n.

(** The index of the range bucket a number is counted in; everything
    outside 1..40 falls through to the last [else]. *)
Definition interval_of (num : Z) : nat :=
  if (1 <=? num) && (num <=? 10) then 0
  else if (11 <=? num) && (num <=? 20) then 1
  else if (21 <=? num) && (num <=? 30) then 2
  else if (31 <=? num) && (num <=? 40) then 3
  else 4.

Definition count_if {A} (f : A -> bool) (l : list A) : Z :=
  Z.of_nat (length (List.filter f l)).

Definition interval_counts (numbers : list Z) : list Z :=
  (fun b => count_if (fun num => Nat.eqb (interval_of num) b) numbers)
    <$> seq 0 5.

Definition interval_points (count : Z) : Q :=
  if (1 <=? count) && (count <=? 2) then 1
  else if count =? 0 then 3 # 10
  else 5 # 10.

Definition calculate_combination_score (numbers : list Z) : Q :=
  if negb (Nat.eqb (length numbers) 6) then 0%Q
  else
    let total := foldr Z.add 0 numbers in
    let optimal_total := 147 in
    let total_score :=
      (1 - inject_Z (Z.abs (total - optimal_total)) / inject_Z optimal_total)%Q in
    let odd_count := count_if (fun num => num mod 2 =? 1) numbers in
    let even_count := 6 - odd_count in
    let balance_score :=
      (1 - inject_Z (Z.abs (odd_count - even_count)) / 6)%Q in
    let distribution_score :=
      (Py.sum (interval_points <$> interval_counts numbers) / 5)%Q in
    let sorted_numbers := Py.sorted numbers in
    let consecutive_count := Features.count_consecutive sorted_numbers in
    let consecutive_score := (1 - inject_Z consecutive_count / 3)%Q in
    let prime_count := count_if is_prime numbers in
    let prime_score := (1 - inject_Z (Z.abs (prime_count - 2)) / 6)%Q in
    let square_count := count_if is_square numbers in
    let square_score := (1 - inject_Z (Z.abs (square_count - 1)) / 6)%Q in
    (0 + (2 # 10) * total_score + (15 # 100) * balance_score
     + (15 # 100) * distribution_score + (1 # 10) * consecutive_score
     + (1 # 10) * prime_score + (1 # 10) * square_score)%Q.

(** [random.sample(population, k)]: [k] elements drawn without
    replacement. The [i]-th draw takes the element at position
    [raw i mod n] of the [n] elements still left, so any supply [raw] of
    random naturals yields a selection of [k] distinct positions, and every
    such selection comes from some supply. *)
Fixpoint draw_distinct (pool : list Z) (k : nat) (raw : nat -> nat) (i : nat)
    : list Z :=
  match k with
  | O => []
  | S k' =>
      let j := (raw i mod length pool)%nat in
      match pool !! j with
      | Some x => x :: draw_distinct (delete j pool) k' raw (S i)
      | None => []
      end
  end.

Definition random_sample (population : list Z) (k : nat) (raw : nat -> nat)
    : result (list Z) :=
  if (length population <? k)%nat then Raise ValueError
  else Ok (draw_distinct population k raw 0).

(** [while cond: body], with [fuel] bounding the number of times the
    condition is tested; [None] when the bound is hit. *)
Fixpoint while {S} (fuel : nat) (cond : S -> bool) (body : S -> result S)
    (s : S) : option (result S) :=
  match fuel with
  | O => None
  | Datatypes.S fuel' =>
      if cond s then
        match body s with
        | Ok s' => while fuel' cond body s'
        | Raise e => Some (Raise e)
        end
      else Some (Ok s)
  end.

(** The variables of the sampling loop. *)
Record sampling := {
  predictions : list (list Z * Q);
  attempts : Z
}.

Section Predictor.

(** The per-number score is a weighted sum of ten statistics computed
    with pandas, numpy and scipy. The generator and the confidence
    value only use the number it returns. *)
Variable calculate_number_score : Z -> Q.

(** The random source: [rng c i] is the [i]-th random natural consumed
    by the [c]-th call of [random.sample]. *)
Variable rng : nat -> nat -> nat.

(** [sorted(number_scores.items(), key=score, reverse=True)[:num_candidates]] *)
Definition candidates (num_candidates : Z) : list Z :=
  let number_scores :=
    (fun num => (num, calculate_number_score num)) <$> Py.range 1 50 in
  let sorted_numbers := Py.sorted_desc snd number_scores in
  fst <$> Py.slice_to num_candidates sorted_numbers.

Definition sampling_cond (num_predictions max_attempts : Z) (st : sampling)
    : bool :=
  (Z.of_nat (length (predictions st)) <? num_predictions)
  && (attempts st <? max_attempts).

Definition sampling_body (pool : list Z) (st : sampling) : result sampling :=
  do selected <- random_sample pool 6 (rng (Z.to_nat (attempts st)));
  let combination_score := calculate_combination_score selected in
  let is_duplicate :=
    existsb (fun existing => bool_decide (Py.set selected = Py.set existing.1))
            (predictions st) in
  Ok {| predictions :=
          if is_duplicate then predictions st
          else predictions st ++ [(selected, combination_score)];
        attempts := attempts st + 1 |}.

Definition sampling_loop (fuel : nat) (pool : list Z) (num_predictions : Z)
    : option (result sampling) :=
  while fuel (sampling_cond num_predictions (num_predictions * 100))
        (sampling_body pool)
        {| predictions := []; attempts := 0 |}.

Definition predict_numbers (fuel : nat) (num_candidates num_predictions : Z)
    : option (result (list (list Z * Q))) :=
  match sampling_loop fuel (candidates num_candidates) num_predictions with
  | None => None
  | Some (Raise e) => Some (Raise e)
  | Some (Ok st) =>
      Some (Ok (Py.slice_to num_predictions
                  (Py.sorted_desc snd (predictions st))))
  end.

(** [np.mean]; [None] stands for the [nan] numpy yields on no data. *)
Definition np_mean (l : list Q) : option Q :=
  match l with
  | [] => None
  | _ => Some (Py.sum l / inject_Z (Z.of_nat (length l)))%Q
  end.

Definition calculate_confidence_score (numbers : list Z)
    (combination_score : Q) : option Q :=
  let individual_scores := calculate_number_score <$> numbers in
  match np_mean individual_scores with
  | None => None
  | Some avg_individual_score =>
      let combo_score := combination_score in
      let confidence :=
        (avg_individual_score * (6 # 10) + combo_score * (4 # 10))%Q in
      Some (confidence * 100)%Q
  end.

End Predictor.

End PredictAdaptive.

(** * Specification vocabulary

    Invariants of the loops, the spec's formulas written out on their own
    (prefixed [spec_]), and the concrete inputs used below. *)

(** ** Evaluator *)

(** What the loop of [Evaluate.evaluate_predictions] maintains once the
    pairs of [seen] have been evaluated against [actual_sorted]. *)
Record loop_inv (actual_sorted : list Z) (seen : list (list Z * Q))
    (st : Evaluate.loop_state) : Prop := {
  inv_hits :
    Evaluate.hit_count <$> Evaluate.acc_predictions st
    = (fun p => Evaluate.hits_of p.1 actual_sorted) <$> seen;
  inv_total :
    Evaluate.total_hits st
    = sum_list (Evaluate.hit_count <$> Evaluate.acc_predictions st);
  inv_best :
    Evaluate.best_hits st
    = max_list (Evaluate.hit_count <$> Evaluate.acc_predictions st);
  inv_none : Evaluate.best_hits st = 0%nat -> Evaluate.best_index st = -1;
  inv_first :
    (0 < Evaluate.best_hits st)%nat ->
    exists i pe,
      Evaluate.best_index st = Z.of_nat i
      /\ Evaluate.acc_predictions st !! i = Some pe
      /\ Evaluate.hit_count pe = Evaluate.best_hits st
      /\ forall j pe', (j < i)%nat ->
            Evaluate.acc_predictions st !! j = Some pe' ->
            (Evaluate.hit_count pe' < Evaluate.best_hits st)%nat;
  inv_dist :
    forall h, (h <= 6)%nat -> is_Some (Evaluate.acc_distribution st !! h)
}.

(** ** Feature extractor *)

(** A history of 30 draws that all contain the number 7. *)
Definition history_with_7 : list Features.row :=
  replicate 30 (Features.draw "2023-09-07" 1 2 3 4 5 7).

(** ** Weight learner *)

(** The weights after the first loop of [Learn.apply_weight_adjustments]:
    an adjusted entry is clamped, any other entry is left as it is. *)
Definition clamp_adjusted (w adjustments : list (string * Q)) : list (string * Q) :=
  (fun kv =>
     (kv.1, match Learn.dict_get kv.1 adjustments with
            | Some adjustment =>
                Py.clamp (1 # 100) (5 # 10) (kv.2 + adjustment)%Q
            | None => kv.2
            end))
    <$> w.

(** The weight update of section 4.5, step 4, in one pass: every weight
    plus its delta clamped to [0.01, 0.5], then every clamped value divided
    by the sum of the clamped values. *)
Definition spec_clamped (w adjustments : list (string * Q)) : list (string * Q) :=
  (fun kv =>
     (kv.1, Py.clamp (1 # 100) (5 # 10)
              (kv.2 + default 0 (Learn.dict_get kv.1 adjustments))%Q))
    <$> w.

Definition spec_updated_weights (w adjustments : list (string * Q))
    : list (string * Q) :=
  let clamped := spec_clamped w adjustments in
  let total := Py.sum (Learn.values clamped) in
  (fun kv => (kv.1, (kv.2 / total)%Q)) <$> clamped.

(** Adjustments that push the first default weight up and all others down. *)
Definition skewed_adjustments : list (string * Q) :=
  [ ("total_appearances", 5 # 10); ("recent_appearances", - (5 # 10));
    ("missing_intervals", - (5 # 10)); ("hot_cold", - (5 # 10));
    ("periodicity", - (5 # 10)); ("regression_trend", - (5 # 10));
    ("moving_average", - (5 # 10)); ("attraction_effect", - (5 # 10));
    ("distribution", - (5 # 10)); ("adjacent_correlation", - (5 # 10)) ]%Q.

(** The features whose per-number values the learner gathers. *)
Definition analysed (feature_name : string) : bool :=
  String.eqb feature_name "total_appearances"
  || String.eqb feature_name "recent_appearances"
  || String.eqb feature_name "missing_intervals".

(** The average of a feature over the distinct numbers of a group; 0 for a
    feature that is not analysed and for an empty group. *)
Definition spec_group_average (feature_name : string)
    (features : Learn.feature_table) (group : list Z) : Q :=
  if analysed feature_name then
    match remove_dups group with
    | [] => 0
    | nums =>
        Py.sum (Learn.feature_get features feature_name <$> nums)
        / inject_Z (Z.of_nat (length nums))
    end%Q
  else 0%Q.

(** The numbers appearing in predictions with at least 2 hits. *)
Definition spec_predicted_group (predictions : list Evaluate.prediction_eval)
    : list Z :=
  concat (Evaluate.predicted_numbers
            <$> List.filter (fun pred => (2 <=? Evaluate.hit_count pred)%nat)
                            predictions).

(** The effectiveness formula of section 4.5, step 1. *)
Definition spec_effectiveness (actual_avg predicted_avg : Q) : Q :=
  Qmax 0 (1 - Qabs (actual_avg - predicted_avg)
              / Qmax (Qmax actual_avg predicted_avg) 1)%Q.

(** ** Combination generator *)

(** What the sampling loop of [PredictAdaptive.predict_numbers] maintains:
    the attempt counter stays within the budget, the accepted combinations
    are 6-element selections from the pool with pairwise different number
    sets, never more than requested, and there is one as soon as a sample
    has been drawn. *)
Record sampling_inv (pool : list Z) (num_predictions : Z)
    (st : PredictAdaptive.sampling) : Prop := {
  inv_attempts :
    0 <= PredictAdaptive.attempts st <= Z.max 0 (num_predictions * 100);
  inv_count :
    Z.of_nat (length (PredictAdaptive.predictions st)) <= Z.max 0 num_predictions;
  inv_selected :
    Forall (fun c =>
              c.1 ⊆+ pool /\ length c.1 = 6%nat
              /\ c.2 = PredictAdaptive.calculate_combination_score c.1)
           (PredictAdaptive.predictions st);
  inv_unique :
    NoDup ((fun c => Py.set c.1) <$> PredictAdaptive.predictions st);
  inv_started :
    0 < PredictAdaptive.attempts st -> PredictAdaptive.predictions st <> []
}.

(** A score that ranks the numbers 1..49 in their natural order, and a
    random source that always returns 0. *)
Definition flat_score (num : Z) : Q := 0%Q.
Definition zero_rng (call i : nat) : nat := 0%nat.

(** A per-number score of one half for every number. *)
Definition half_score (num : Z) : Q := (1 # 2)%Q.


(** * More of the modules *)

(** ** evaluate.py: performance trends *)

Module EvaluateMore.

Import Evaluate.

Record performance_record := {
  date : string;
  hits : nat
}.

Record trends := {
  total_draws : nat;
  average_best_hits : Q;
  average_average_hits : Q;
  best_performance : performance_record;
  worst_performance : performance_record
}.

(** The variables the loop of [get_performance_trends] updates. *)
Record trend_state := {
  total_best_hits : nat;
  total_average_hits : Q;
  best_so_far : performance_record;
  worst_so_far : performance_record
}.

Definition trend_step (st : trend_state) (item : string * evaluation)
    : trend_state :=
  let best_hits := best_hit_count (summary item.2) in
  let avg_hits := average_hit_count (summary item.2) in
  {| total_best_hits := total_best_hits st + best_hits;
     total_average_hits := (total_average_hits st + avg_hits)%Q;
     best_so_far :=
       if (hits (best_so_far st) <? best_hits)%nat
       then {| date := item.1; hits := best_hits |}
       else best_so_far st;
     worst_so_far :=
       if (best_hits <? hits (worst_so_far st))%nat
       then {| date := item.1; hits := best_hits |}
       else worst_so_far st |}.

(** [get_performance_trends], on [items = list(self.results.items())] in
    the dictionary's own order; [None] is the empty dictionary returned
    when there are no results. *)
Definition get_performance_trends (items : list (string * evaluation))
    : option trends :=
  match items with
  | [] => None
  | _ =>
      let st :=
        foldl trend_step
          {| total_best_hits := 0;
             total_average_hits := 0;
             best_so_far := {| date := ""; hits := 0 |};
             worst_so_far := {| date := ""; hits := 6 |} |}
          items in
      let n := inject_Z (Z.of_nat (length items)) in
      Some {| total_draws := length items;
              average_best_hits :=
                (inject_Z (Z.of_nat (total_best_hits st)) / n)%Q;
              average_average_hits := (total_average_hits st / n)%Q;
              best_performance := best_so_far st;
              worst_performance := worst_so_far st |}
  end.

End EvaluateMore.

(** The entry [evaluate_predictions] appends for the pair [p] at position
    [i] of the batch. *)
Definition annotate (actual_sorted : list Z) (i : nat) (p : list Z * Q)
    : Evaluate.prediction_eval :=
  {| Evaluate.index := Z.of_nat i + 1;
     Evaluate.predicted_numbers := Py.sorted p.1;
     Evaluate.confidence_score := p.2;
     Evaluate.hit_count := Evaluate.hits_of p.1 actual_sorted;
     Evaluate.hit_numbers := Py.set (Py.sorted p.1) ∩ Py.set actual_sorted;
     Evaluate.missed_numbers := Py.set actual_sorted ∖ Py.set (Py.sorted p.1);
     Evaluate.extra_numbers := Py.set (Py.sorted p.1) ∖ Py.set actual_sorted |}.

(** How many of the hit counts [hs] equal [h]. *)
Definition count_hits (h : nat) (hs : list nat) : nat :=
  length (List.filter (Nat.eqb h) hs).

(** A stored evaluation with two predictions, the better one with 4 hits. *)
Definition sample_evaluation : Evaluate.evaluation :=
  {| Evaluate.draw_date := "2023-09-07";
     Evaluate.actual_result := [7; 12; 19; 23; 30; 44];
     Evaluate.total_predictions := 2;
     Evaluate.predictions :=
       [ annotate [7; 12; 19; 23; 30; 44] 0 ([12; 7; 30; 41; 2; 19], 50%Q);
         annotate [7; 12; 19; 23; 30; 44] 1 ([1; 2; 3; 4; 5; 6], 40%Q) ];
     Evaluate.summary :=
       {| Evaluate.best_hit_count := 4;
          Evaluate.best_prediction_index := 1;
          Evaluate.average_hit_count := 2;
          Evaluate.hit_distribution :=
            <[4%nat := 1%nat]> (<[0%nat := 1%nat]> Evaluate.empty_distribution) |} |}.

(** ** learn.py: loading the weights *)

Module LearnMore.

Import Learn.

(** What [open] and [json.load] find at [self.weights_file]. *)
Inductive stored_file :=
  | FileMissing
  | FileUnreadable
  | FileContent (loaded_weights : weight_dict).

(** [for key, value in default_weights.items():
       if key not in loaded_weights: loaded_weights[key] = value] *)
Definition fill_defaults (loaded_weights : weight_dict) : weight_dict :=
  foldl (fun loaded kv =>
           match dict_get kv.1 loaded with
           | Some _ => loaded
           | None => dict_set kv.1 kv.2 loaded
           end)
        loaded_weights default_weights.

(** [load_weights]: a missing file and any other failure both yield the
    default weights. *)
Definition load_weights (file : stored_file) : weight_dict :=
  match file with
  | FileContent loaded_weights => fill_defaults loaded_weights
  | FileMissing | FileUnreadable => default_weights
  end.

(** The weights file as the next [TotoLearner()] finds it. *)
Definition stored (s : learner) : stored_file :=
  match weights_file s with
  | Some w => FileContent w
  | None => FileMissing
  end.

End LearnMore.

(** The overall performance scalar of [calculate_weight_adjustments]. *)
Definition overall_performance (evaluation : Evaluate.evaluation) : Q :=
  (inject_Z (Z.of_nat (Evaluate.best_hit_count (Evaluate.summary evaluation)))
   / 6 * (7 # 10)
   + Evaluate.average_hit_count (Evaluate.summary evaluation) / 6 * (3 # 10))%Q.

(** A learner that holds [sample_evaluation] for its date. *)
Definition learner_with_evaluation : Learn.learner :=
  {| Learn.weights_file := None;
     Learn.learning_rate := 1 # 10;
     Learn.weights := Learn.default_weights;
     Learn.evaluator :=
       {| Evaluate.results := {[ "2023-09-07"%string := sample_evaluation ]};
          Evaluate.evaluation_file :=
            {[ "2023-09-07"%string := sample_evaluation ]} |};
     Learn.console := [] |}.

(** Appearance counts for a few numbers. *)
Definition sample_features : Learn.feature_table :=
  {[ "total_appearances"%string :=
       ({[ 7 := 12%Q ]} : gmap Z Q) ∪ {[ 12 := 9%Q ]} ∪ {[ 1 := 15%Q ]};
     "missing_intervals"%string := ({[ 7 := 3%Q ]} : gmap Z Q) ]}.

(** ** features.py: distribution, hot and cold numbers *)

Module FeaturesMore.

Import Features.

(** The [intervals] dictionary of [get_distribution_patterns], in order. *)
Definition intervals : list (string * (Z * Z)) :=
  [ ("1-10", (1, 10)); ("11-20", (11, 20)); ("21-30", (21, 30));
    ("31-40", (31, 40)); ("41-49", (41, 49)) ].

Definition in_interval (bounds : Z * Z) (num : Z) : bool :=
  (bounds.1 <=? num) && (num <=? bounds.2).

(** The loop over [intervals.items()], filling [distribution]. *)
Fixpoint distribution_loop (todo : list (string * (Z * Z)))
    (numbers : list Z) (distribution : list (string * Q))
    : result (list (string * Q)) :=
  match todo with
  | [] => Ok distribution
  | (name, bounds) :: todo' =>
      let count := Z.of_nat (length (List.filter (in_interval bounds) numbers)) in
      do rate <- Py.truediv count (Z.of_nat (length numbers));
      distribution_loop todo' numbers (Learn.dict_set name rate distribution)
  end.

Definition get_distribution_patterns (data : list row)
    : result (list (string * Q)) :=
  distribution_loop intervals (all_numbers data) [].

Record hot_cold := {
  hot : list Z;
  cold : list Z
}.

Section Floats.

(** [round x] is the double a float operation returns when its exact
    result is [x]. The two tests of [get_hot_cold_numbers] compare values
    that are often equal in exact arithmetic (with seven draws and the
    threshold 0.7, a tenth against a seventh times 0.7), so here the
    rounding of every operation is kept. *)
Variable round : Q -> Q.

(** [a / b] on two [int]s, as a double. *)
Definition float_div (a b : Z) : result Q :=
  if b =? 0 then Raise ZeroDivisionError
  else Ok (round (inject_Z a / inject_Z b)).

(** The loop over [range(1, 50)] of [get_hot_cold_numbers], from the
    numbers still to visit. *)
Fixpoint hot_cold_loop (threshold : Q) (data : list row)
    (total_appearances recent_appearances : gmap Z Z)
    (todo : list Z) (acc : hot_cold) : result hot_cold :=
  match todo with
  | [] => Ok acc
  | num :: todo' =>
      do total_freq <-
         float_div (default 0 (total_appearances !! num))
                   (Z.of_nat (length data));
      do recent_freq <-
         float_div (default 0 (recent_appearances !! num)) 10;
      let acc :=
        if Qlt_le_dec (round (total_freq * threshold)) recent_freq
        then {| hot := hot acc ++ [num]; cold := cold acc |}
        else if Qlt_le_dec recent_freq
                  (round (total_freq * round (1 - threshold)))
        then {| hot := hot acc; cold := cold acc ++ [num] |}
        else acc in
      hot_cold_loop threshold data total_appearances recent_appearances
        todo' acc
  end.

Definition get_hot_cold_numbers (data : list row) (threshold : Q)
    : result hot_cold :=
  hot_cold_loop threshold data
    (get_total_appearances data) (get_recent_appearances data 10)
    (Py.range 1 50) {| hot := []; cold := [] |}.

End Floats.

End FeaturesMore.

(** How often [x] occurs in [l]. *)
Definition occurrences (x : Z) (l : list Z) : Z :=
  Z.of_nat (length (List.filter (Z.eqb x) l)).

(** A history of three draws. *)
Definition three_draws : list Features.row :=
  [ Features.draw "2023-08-24" 7 1 22 33 44 5;
    Features.draw "2023-08-31" 8 11 2 30 41 15;
    Features.draw "2023-09-07" 9 7 21 3 49 35 ].

(** The two frequencies [get_hot_cold_numbers] compares for a number: its
    share of all draws, and a tenth of its count in the last ten draws. *)
Definition total_freq (data : list Features.row) (num : Z) : Q :=
  (inject_Z (occurrences num (Features.all_numbers data))
   / inject_Z (Z.of_nat (length data)))%Q.

Definition recent_freq (data : list Features.row) (num : Z) : Q :=
  (inject_Z (occurrences num
               (Features.all_numbers (drop (length data - 10) data)))
   / 10)%Q.

(** Rounding to the nearest double: the relative error of a result is at
    most 2^-53 (no overflow or underflow arises for the frequencies at
    hand). [slack] is the factor 1 + 2^-50 by which a comparison of two
    such results may be off. *)
Definition unit_roundoff : Q := 1 # 9007199254740992.

Definition rounds_to_nearest (round : Q -> Q) : Prop :=
  forall x, (Qabs (round x - x) <= unit_roundoff * Qabs x)%Q.

Definition slack : Q := 1 + (1 # 1125899906842624).

(** In a stable sort by [leb], [x] stands rightly before [y]: it may stand
    there, and on a tie it came first in the input order [before]. *)
Definition stably {A} (leb : A -> A -> bool) (before : A -> A -> Prop)
    (x y : A) : Prop :=
  leb x y = true /\ (leb y x = true -> before x y).

(** ** main_loop.py *)

Module MainLoop.





Section System.

(** The predictor's per-number score under given weights, and the features
    it computed when it was created. *)
Variable calculate_number_score : Learn.weight_dict -> Z -> Q.
Variable all_features : Learn.feature_table.


End System.

End MainLoop.



(** ** predict_adaptive.py: the per-number score *)

Module PredictAdaptiveMore.

(** [a / b] on floats, raising on a zero divisor. *)
Definition fdiv (a b : Q) : result Q :=
  if Qeq_bool b 0 then Raise ZeroDivisionError else Ok (a / b)%Q.

(** An entry of the periodicity dictionary; [None] stands for
    [float('inf')]. The feature functions always set every key of an entry,
    so the defaults of the inner [.get] calls are never used. *)
Record periodicity_entry := {
  avg_interval : option Q;
  std_interval : Q
}.

Record trend_entry := {
  slope : Q;
  r_squared : Q
}.

Inductive direction := up | down | stable.

(** The entries of [self.all_features] the score reads. *)
Record all_features := {
  total_appearances : gmap Z Z;
  recent_appearances : gmap Z Z;
  missing_intervals : gmap Z Z;
  hot_cold : FeaturesMore.hot_cold;
  periodicity : gmap Z periodicity_entry;
  regression_trend : gmap Z trend_entry;
  moving_average : gmap Z direction;
  attraction_effect : gmap Z Z;
  distribution : list (string * Q);
  adjacent_correlation : gmap Z Q
}.

(** [self.weights[name]] *)
Definition weight (weights : Learn.weight_dict) (name : string) : result Q :=
  match Learn.dict_get name weights with
  | Some w => Ok w
  | None => Raise KeyError
  end.

Definition interval_name (number : Z) : string :=
  if (1 <=? number) && (number <=? 10) then "1-10"
  else if (11 <=? number) && (number <=? 20) then "11-20"
  else if (21 <=? number) && (number <=? 30) then "21-30"
  else if (31 <=? number) && (number <=? 40) then "31-40"
  else "41-49".

(** [calculate_number_score], with [data_len] for [len(self.features.data)];
    the statements run in the order of the source. *)
Definition calculate_number_score (data_len : nat) (features : all_features)
    (weights : Learn.weight_dict) (number : Z) : result Q :=
  let score := 0%Q in
  (* 1 *)
  let total_appearances := default 0 (total_appearances features !! number) in
  let expected_appearances := (inject_Z (Z.of_nat data_len * 6) / 49)%Q in
  do ratio <- fdiv (Qabs (inject_Z total_appearances - expected_appearances))
                   expected_appearances;
  let appearance_score := (1 - ratio)%Q in
  do w <- weight weights "total_appearances";
  let score := (score + w * appearance_score)%Q in
  (* 2 *)
  let recent_appearances := default 0 (recent_appearances features !! number) in
  let recent_score := Qmin (inject_Z recent_appearances / 3) 1 in
  do w <- weight weights "recent_appearances";
  let score := (score + w * recent_score)%Q in
  (* 3 *)
  let missing_interval := default 0 (missing_intervals features !! number) in
  let avg_interval := (inject_Z (Z.of_nat data_len * 6) / 49)%Q in
  do interval_score <-
     (if Qlt_le_dec (avg_interval * (15 # 10)) (inject_Z missing_interval)
      then do r <- fdiv (inject_Z missing_interval) (avg_interval * 2);
           Ok (Qmin r 1)
      else Ok (3 # 10)%Q);
  do w <- weight weights "missing_intervals";
  let score := (score + w * interval_score)%Q in
  (* 4 *)
  let hot_cold_score :=
    if bool_decide (number ∈ FeaturesMore.hot (hot_cold features))
    then (7 # 10)%Q
    else if bool_decide (number ∈ FeaturesMore.cold (hot_cold features))
    then (8 # 10)%Q
    else (5 # 10)%Q in
  do w <- weight weights "hot_cold";
  let score := (score + w * hot_cold_score)%Q in
  (* 5 *)
  let periodicity_score :=
    match periodicity features !! number with
    | Some {| avg_interval := Some expected_interval;
              std_interval := std_interval |} =>
        let current_interval :=
          default 0 (missing_intervals features !! number) in
        if Qle_bool (Qabs (inject_Z current_interval - expected_interval))
                    std_interval
        then (9 # 10)%Q else (3 # 10)%Q
    | _ => (5 # 10)%Q
    end in
  do w <- weight weights "periodicity";
  let score := (score + w * periodicity_score)%Q in
  (* 6 *)
  let trend_score :=
    match regression_trend features !! number with
    | Some trend =>
        if Qlt_le_dec (3 # 10) (r_squared trend) then
          if Qlt_le_dec 0 (slope trend) then (8 # 10)%Q else (6 # 10)%Q
        else (5 # 10)%Q
    | None => (5 # 10)%Q
    end in
  do w <- weight weights "regression_trend";
  let score := (score + w * trend_score)%Q in
  (* 7 *)
  let ma_score :=
    match moving_average features !! number with
    | Some up => (7 # 10)%Q
    | Some down => (8 # 10)%Q
    | _ => (5 # 10)%Q
    end in
  do w <- weight weights "moving_average";
  let score := (score + w * ma_score)%Q in
  (* 8 *)
  let attraction_score :=
    if 2 <? default 0 (attraction_effect features !! number)
    then (8 # 10)%Q else (5 # 10)%Q in
  do w <- weight weights "attraction_effect";
  let score := (score + w * attraction_score)%Q in
  (* 9 *)
  let interval_rate :=
    default (2 # 10)%Q
      (Learn.dict_get (interval_name number) (distribution features)) in
  let distribution_score :=
    if Qlt_le_dec interval_rate (15 # 100) then (8 # 10)%Q
    else if Qlt_le_dec (25 # 100) interval_rate then (3 # 10)%Q
    else (5 # 10)%Q in
  do w <- weight weights "distribution";
  let score := (score + w * distribution_score)%Q in
  (* 10 *)
  let adjacent_score :=
    if Qlt_le_dec (1 # 10) (default 0%Q (adjacent_correlation features !! 1))
    then (6 # 10)%Q
    else if Qlt_le_dec (1 # 10)
              (default 0%Q (adjacent_correlation features !! 2))
    then (6 # 10)%Q
    else (5 # 10)%Q in
  do w <- weight weights "adjacent_correlation";
  let score := (score + w * adjacent_score)%Q in
  Ok score.

End PredictAdaptiveMore.

(** The ten part scores of [calculate_number_score] on their own, and the
    list of them under the names of the weights they are multiplied with. *)
Definition expected_appearances (data_len : nat) : Q :=
  (inject_Z (Z.of_nat data_len * 6) / 49)%Q.

Definition appearance_score (data_len : nat)
    (features : PredictAdaptiveMore.all_features) (number : Z) : Q :=
  (1 - Qabs (inject_Z (default 0%Z (PredictAdaptiveMore.total_appearances
                                    features !! number))
             - expected_appearances data_len)
       / expected_appearances data_len)%Q.

Definition recent_score (features : PredictAdaptiveMore.all_features)
    (number : Z) : Q :=
  Qmin (inject_Z (default 0%Z (PredictAdaptiveMore.recent_appearances
                               features !! number)) / 3) 1.

Definition interval_score (data_len : nat)
    (features : PredictAdaptiveMore.all_features) (number : Z) : Q :=
  let missing_interval :=
    inject_Z (default 0%Z (PredictAdaptiveMore.missing_intervals
                           features !! number)) in
  if Qlt_le_dec (expected_appearances data_len * (15 # 10)) missing_interval
  then Qmin (missing_interval / (expected_appearances data_len * 2)) 1
  else (3 # 10)%Q.

Definition hot_cold_score (features : PredictAdaptiveMore.all_features)
    (number : Z) : Q :=
  if bool_decide (number ∈ FeaturesMore.hot
                    (PredictAdaptiveMore.hot_cold features))
  then (7 # 10)%Q
  else if bool_decide (number ∈ FeaturesMore.cold
                         (PredictAdaptiveMore.hot_cold features))
  then (8 # 10)%Q
  else (5 # 10)%Q.

Definition periodicity_score (features : PredictAdaptiveMore.all_features)
    (number : Z) : Q :=
  match PredictAdaptiveMore.periodicity features !! number with
  | Some {| PredictAdaptiveMore.avg_interval := Some expected_interval;
            PredictAdaptiveMore.std_interval := std_interval |} =>
      if Qle_bool
           (Qabs (inject_Z (default 0%Z (PredictAdaptiveMore.missing_intervals
                                         features !! number))
                  - expected_interval))
           std_interval
      then (9 # 10)%Q else (3 # 10)%Q
  | _ => (5 # 10)%Q
  end.

Definition trend_score (features : PredictAdaptiveMore.all_features)
    (number : Z) : Q :=
  match PredictAdaptiveMore.regression_trend features !! number with
  | Some trend =>
      if Qlt_le_dec (3 # 10) (PredictAdaptiveMore.r_squared trend) then
        if Qlt_le_dec 0 (PredictAdaptiveMore.slope trend)
        then (8 # 10)%Q else (6 # 10)%Q
      else (5 # 10)%Q
  | None => (5 # 10)%Q
  end.

Definition ma_score (features : PredictAdaptiveMore.all_features)
    (number : Z) : Q :=
  match PredictAdaptiveMore.moving_average features !! number with
  | Some PredictAdaptiveMore.up => (7 # 10)%Q
  | Some PredictAdaptiveMore.down => (8 # 10)%Q
  | _ => (5 # 10)%Q
  end.

Definition attraction_score (features : PredictAdaptiveMore.all_features)
    (number : Z) : Q :=
  if 2 <? default 0 (PredictAdaptiveMore.attraction_effect features !! number)
  then (8 # 10)%Q else (5 # 10)%Q.

Definition distribution_score (features : PredictAdaptiveMore.all_features)
    (number : Z) : Q :=
  let interval_rate :=
    default (2 # 10)%Q
      (Learn.dict_get (PredictAdaptiveMore.interval_name number)
         (PredictAdaptiveMore.distribution features)) in
  if Qlt_le_dec interval_rate (15 # 100) then (8 # 10)%Q
  else if Qlt_le_dec (25 # 100) interval_rate then (3 # 10)%Q
  else (5 # 10)%Q.

Definition adjacent_score (features : PredictAdaptiveMore.all_features) : Q :=
  if Qlt_le_dec (1 # 10)
       (default 0%Q (PredictAdaptiveMore.adjacent_correlation features !! 1))
  then (6 # 10)%Q
  else if Qlt_le_dec (1 # 10)
            (default 0%Q (PredictAdaptiveMore.adjacent_correlation features !! 2))
  then (6 # 10)%Q
  else (5 # 10)%Q.

Definition part_scores (data_len : nat)
    (features : PredictAdaptiveMore.all_features) (number : Z)
    : list (string * Q) :=
  [ ("total_appearances", appearance_score data_len features number);
    ("recent_appearances", recent_score features number);
    ("missing_intervals", interval_score data_len features number);
    ("hot_cold", hot_cold_score features number);
    ("periodicity", periodicity_score features number);
    ("regression_trend", trend_score features number);
    ("moving_average", ma_score features number);
    ("attraction_effect", attraction_score features number);
    ("distribution", distribution_score features number);
    ("adjacent_correlation", adjacent_score features) ].

(** The weighted sum of the part scores, added up in the order of the
    source; a feature without a weight counts with weight 0 here. *)
Definition weighted_sum (weights : Learn.weight_dict)
    (parts : list (string * Q)) : Q :=
  foldl (fun score part =>
           (score + default 0 (Learn.dict_get part.1 weights) * part.2)%Q)
        0%Q parts.

(** Feature values of a number that was drawn twice in ten draws. *)
Definition sample_all_features : PredictAdaptiveMore.all_features :=
  {| PredictAdaptiveMore.total_appearances := {[ 7 := 2 ]};
     PredictAdaptiveMore.recent_appearances := {[ 7 := 2 ]};
     PredictAdaptiveMore.missing_intervals := {[ 7 := 3 ]};
     PredictAdaptiveMore.hot_cold :=
       {| FeaturesMore.hot := [7]; FeaturesMore.cold := [] |};
     PredictAdaptiveMore.periodicity :=
       {[ 7 := {| PredictAdaptiveMore.avg_interval := Some 4%Q;
                  PredictAdaptiveMore.std_interval := 1%Q |} ]};
     PredictAdaptiveMore.regression_trend :=
       {[ 7 := {| PredictAdaptiveMore.slope := 0%Q;
                  PredictAdaptiveMore.r_squared := 0%Q |} ]};
     PredictAdaptiveMore.moving_average := {[ 7 := PredictAdaptiveMore.down ]};
     PredictAdaptiveMore.attraction_effect := {[ 7 := 3 ]};
     PredictAdaptiveMore.distribution := [("1-10", 3 # 10)];
     PredictAdaptiveMore.adjacent_correlation := {[ 1 := (2 # 10)%Q ]} |}.

(** ** run_learning.py *)

Module RunLearning.

(** [old = learner.weights[name]; learner.weights[name] = max(0.01, old - delta)] *)
Definition lower (name : string) (delta : Q) (weights : Learn.weight_dict)
    : result Learn.weight_dict :=
  match Learn.dict_get name weights with
  | None => Raise KeyError
  | Some old_weight =>
      Ok (Learn.dict_set name (Qmax (1 # 100) (old_weight - delta)) weights)
  end.

(** [old = learner.weights[name]; learner.weights[name] = min(0.5, old + delta)] *)
Definition lift (name : string) (delta : Q) (weights : Learn.weight_dict)
    : result Learn.weight_dict :=
  match Learn.dict_get name weights with
  | None => Raise KeyError
  | Some old_weight =>
      Ok (Learn.dict_set name (Qmin (5 # 10) (old_weight + delta)) weights)
  end.

(** [main]: the weights the script hands to [save_weights], for the weights
    file it finds. What it prints is left out. *)
Definition main (file : LearnMore.stored_file) : result Learn.weight_dict :=
  let weights := LearnMore.load_weights file in
  do weights <- lower "total_appearances" (5 # 1000) weights;
  do weights <- lower "recent_appearances" (5 # 1000) weights;
  do weights <- lower "adjacent_correlation" (5 # 1000) weights;
  do weights <- lower "hot_cold" (5 # 1000) weights;
  do weights <- lower "distribution" (1 # 100) weights;
  do weights <- lower "periodicity" (1 # 100) weights;
  do weights <- lift "missing_intervals" (2 # 100) weights;
  Learn.normalize weights.

End RunLearning.

(** ** features.py: adjacent numbers *)

Module FeaturesAdjacent.

Import Features.

(** The two variables the loops of [get_adjacent_correlation] update. *)
Record adjacent_state := {
  adjacent_counts : gmap Z Z;
  total_adjacent_opportunities : Z
}.

(** The body of the innermost loop. *)
Definition pair_step (st : adjacent_state) (prev_num curr_num : Z)
    : adjacent_state :=
  let diff := Z.abs (curr_num - prev_num) in
  {| adjacent_counts :=
       if (1 <=? diff) && (diff <=? 2)
       then <[diff := default 0 (adjacent_counts st !! diff) + 1]>
              (adjacent_counts st)
       else adjacent_counts st;
     total_adjacent_opportunities := total_adjacent_opportunities st + 1 |}.

(** [for prev_num in prev_numbers: for curr_num in curr_numbers: ...] *)
Definition draw_step (st : adjacent_state) (prev_numbers curr_numbers : list Z)
    : adjacent_state :=
  foldl (fun st prev_num =>
           foldl (fun st curr_num => pair_step st prev_num curr_num)
                 st curr_numbers)
        st prev_numbers.

(** [for i in range(1, len(self.data))], on the rows from [i - 1] on. *)
Fixpoint adjacent_loop (data : list row) (st : adjacent_state)
    : adjacent_state :=
  match data with
  | [] => st
  | prev :: rest =>
      match rest with
      | [] => st
      | curr :: _ =>
          adjacent_loop rest (draw_step st (numbers_of prev) (numbers_of curr))
      end
  end.

(** [{k: v / total for k, v in adjacent_counts.items()}] *)
Definition rates (items : list (Z * Z)) (total : Z) : result (gmap Z Q) :=
  foldr (fun kv rest =>
           do rate <- Py.truediv kv.2 total;
           do rest <- rest;
           Ok (<[kv.1 := rate]> rest))
        (Ok ∅) items.

Definition get_adjacent_correlation (data : list row) : result (gmap Z Q) :=
  let st :=
    adjacent_loop data
      {| adjacent_counts := ∅; total_adjacent_opportunities := 0 |} in
  rates (map_to_list (adjacent_counts st)) (total_adjacent_opportunities st).

End FeaturesAdjacent.

(** The pairs (number of a draw, number of the next draw) over all
    successive draws of the history, and how many of them lie at distance
    [k]. *)
Definition number_pairs (prev_numbers curr_numbers : list Z) : list (Z * Z) :=
  prev_numbers ≫= (fun prev_num => (fun curr_num => (prev_num, curr_num))
                                     <$> curr_numbers).

Fixpoint successive_pairs (data : list Features.row) : list (Z * Z) :=
  match data with
  | [] => []
  | prev :: rest =>
      match rest with
      | [] => []
      | curr :: _ =>
          number_pairs (Features.numbers_of prev) (Features.numbers_of curr)
          ++ successive_pairs rest
      end
  end.

Definition pairs_at_distance (k : Z) (pairs : list (Z * Z)) : Z :=
  Z.of_nat (length (List.filter (fun pc => Z.abs (pc.2 - pc.1) =? k) pairs)).

(** What the loops of [get_adjacent_correlation] keep true, [seen] being
    the pairs visited so far. *)
Record adjacent_inv (seen : list (Z * Z))
    (st : FeaturesAdjacent.adjacent_state) : Prop := {
  adj_counts :
    forall k,
      FeaturesAdjacent.adjacent_counts st !! k
      = if decide (1 <= k <= 2 /\ 0 < pairs_at_distance k seen)
        then Some (pairs_at_distance k seen) else None;
  adj_total :
    FeaturesAdjacent.total_adjacent_opportunities st = Z.of_nat (length seen)
}.

(** ** features.py: moving average *)

Module FeaturesTrend.

Import Features.

(** The 0/1 list [appearances] of a number, one entry per draw. *)
Definition appearances (num : Z) (data : list row) : list Z :=
  (fun row => if bool_decide (num ∈ numbers_of row) then 1 else 0) <$> data.

(** [pd.Series(a).rolling(window=window).mean()] at position [i]: the mean
    of the [window] entries ending at [i]; [None] stands for the [NaN] of
    the first [window - 1] positions. *)
Definition rolling_mean (window : nat) (a : list Z) (i : nat) : option Q :=
  if (i + 1 <? window)%nat then None
  else Some (inject_Z (foldr Z.add 0%Z
                         (take window (drop (i + 1 - window)%nat a)))
             / inject_Z (Z.of_nat window))%Q.

Record trend := {
  current_trend : Q;
  trend_direction : PredictAdaptiveMore.direction
}.

(** The entry for one number. A comparison with [NaN] is false. *)
Definition trend_of (window : nat) (a : list Z) : trend :=
  if (window <=? length a)%nat then
    let last := rolling_mean window a (length a - 1) in
    let reference := rolling_mean window a (length a - window) in
    {| current_trend := default 0%Q last;
       trend_direction :=
         match last, reference with
         | Some x, Some y =>
             if Qlt_le_dec y x then PredictAdaptiveMore.up
             else PredictAdaptiveMore.down
         | _, _ => PredictAdaptiveMore.down
         end |}
  else {| current_trend := 0; trend_direction := PredictAdaptiveMore.stable |}.

(** [get_moving_average_trend()], with the default [window=5]. *)
Definition get_moving_average_trend (data : list row) : gmap Z trend :=
  list_to_map
    ((fun num => (num, trend_of 5 (appearances num data))) <$> Py.range 1 50).

End FeaturesTrend.

(** In how many of the given draws a number appears. *)
Definition draws_with (num : Z) (data : list Features.row) : Z :=
  foldr Z.add 0 (FeaturesTrend.appearances num data).

(** [x] is clear of a threshold: further than 10^-9 from it, so that a
    comparison of the double computed for [x] with the threshold comes out
    as the comparison of [x] itself. *)
Definition clear_of (threshold x : Q) : Prop :=
  (1 # 1000000000 < Qabs (x - threshold))%Q.

(** The value of a call that returned, [d] otherwise. *)
Definition ok_or {A} (d : A) (m : result A) : A :=
  match m with Ok a => a | Raise _ => d end.

(** A history of one draw, and [self.all_features] for it: the entries of
    the feature functions above as they return them (the float tests of
    the hot and cold numbers are far from a tie here, and taken exactly);
    periodicity, regression trend and attraction effect as their branches
    for a number with at most one appearance and a history without a next
    draw set them. *)
Definition one_draw : list Features.row :=
  [ Features.draw "2023-08-24" 1 2 3 4 5 6 ].

Definition one_draw_features : PredictAdaptiveMore.all_features :=
  {| PredictAdaptiveMore.total_appearances :=
       Features.get_total_appearances one_draw;
     PredictAdaptiveMore.recent_appearances :=
       Features.get_recent_appearances one_draw 10;
     PredictAdaptiveMore.missing_intervals :=
       Features.get_missing_intervals one_draw;
     PredictAdaptiveMore.hot_cold :=
       ok_or {| FeaturesMore.hot := []; FeaturesMore.cold := [] |}
         (FeaturesMore.get_hot_cold_numbers (fun x => x) one_draw (7 # 10));
     PredictAdaptiveMore.periodicity :=
       list_to_map
         ((fun num => (num, {| PredictAdaptiveMore.avg_interval := None;
                               PredictAdaptiveMore.std_interval := 0%Q |}))
            <$> Py.range 1 50);
     PredictAdaptiveMore.regression_trend :=
       list_to_map
         ((fun num => (num, {| PredictAdaptiveMore.slope := 0%Q;
                               PredictAdaptiveMore.r_squared := 0%Q |}))
            <$> Py.range 1 50);
     PredictAdaptiveMore.moving_average :=
       FeaturesTrend.trend_direction
         <$> FeaturesTrend.get_moving_average_trend one_draw;
     PredictAdaptiveMore.attraction_effect :=
       list_to_map ((fun num => (num, 0)) <$> Py.range 1 50);
     PredictAdaptiveMore.distribution :=
       ok_or [] (FeaturesMore.get_distribution_patterns one_draw);
     PredictAdaptiveMore.adjacent_correlation :=
       ok_or ∅ (FeaturesAdjacent.get_adjacent_correlation one_draw) |}.

(** The per-number score of the predictor on that history, with the
    default weights. *)
Definition one_draw_score (number : Z) : Q :=
  ok_or 0%Q
    (PredictAdaptiveMore.calculate_number_score (length one_draw)
       one_draw_features Learn.default_weights number).
(** * Properties *)

(** ** Sorting and sets *)

Section SortFacts.

Context {A : Type} (leb : A -> A -> bool).

Lemma insert_Permutation (x : A) (l : list A) : Py.insert leb x l ≡ₚ x :: l.
Proof.
  induction l as [|y l IH]; simpl; [done|].
  destruct (leb x y); [done|].
  rewrite IH. apply Permutation_swap.
Qed.

Lemma sort_by_Permutation (l : list A) : Py.sort_by leb l ≡ₚ l.
Proof.
  induction l as [|x l IH]; simpl; [done|].
  rewrite insert_Permutation. by f_equiv.
Qed.

Lemma length_sort_by (l : list A) : length (Py.sort_by leb l) = length l.
Proof. by rewrite sort_by_Permutation. Qed.

Hypothesis leb_total : forall x y, leb x y = true \/ leb y x = true.
Hypothesis leb_trans :
  forall x y z, leb x y = true -> leb y z = true -> leb x z = true.

Lemma insert_StronglySorted (x : A) (l : list A) :
  StronglySorted (fun a b => leb a b = true) l ->
  StronglySorted (fun a b => leb a b = true) (Py.insert leb x l).
Proof.
  induction 1 as [|y l Hl IH Hy]; simpl.
  - repeat constructor.
  - destruct (leb x y) eqn:Hxy.
    + constructor; [by constructor|].
      constructor; [done|].
      eapply Forall_impl; [exact Hy|]. intros z Hz. by eapply leb_trans.
    + constructor; [done|].
      rewrite insert_Permutation. constructor; [|done].
      destruct (leb_total x y); congruence.
Qed.

Lemma sort_by_StronglySorted (l : list A) :
  StronglySorted (fun a b => leb a b = true) (Py.sort_by leb l).
Proof.
  induction l; simpl; [constructor|by apply insert_StronglySorted].
Qed.

End SortFacts.

Lemma sorted_Permutation (l : list Z) : Py.sorted l ≡ₚ l.
Proof. apply sort_by_Permutation. Qed.

Lemma set_sorted (l : list Z) : Py.set (Py.sorted l) = Py.set l.
Proof. unfold Py.set. by rewrite sorted_Permutation. Qed.

Lemma size_set_le (l : list Z) : (size (Py.set l) ≤ length l)%nat.
Proof.
  unfold Py.set. induction l as [|x l IH].
  - done.
  - rewrite list_to_set_cons, size_union_alt, size_singleton.
    assert (Hsub : (list_to_set l ∖ {[x]} : gset Z) ⊆ list_to_set l).
    { intros y Hy. apply elem_of_difference in Hy. tauto. }
    apply subseteq_size in Hsub. simpl. lia.
Qed.

Lemma sorted_desc_Permutation {A} (key : A -> Q) (l : list A) :
  Py.sorted_desc key l ≡ₚ l.
Proof. apply sort_by_Permutation. Qed.

Lemma StronglySorted_weaken {A} (R R' : A -> A -> Prop) (l : list A) :
  (forall a b, R a b -> R' a b) -> StronglySorted R l -> StronglySorted R' l.
Proof.
  intros HR. induction 1 as [|x l Hl IH Hx]; constructor; [done|].
  eapply Forall_impl; [exact Hx|]. intros y. apply HR.
Qed.

Lemma sorted_desc_StronglySorted {A} (key : A -> Q) (l : list A) :
  StronglySorted (fun a b => (key b <= key a)%Q) (Py.sorted_desc key l).
Proof.
  eapply StronglySorted_weaken; [|apply sort_by_StronglySorted].
  - intros a b Hab. by apply Qle_bool_iff.
  - intros x y. destruct (Qlt_le_dec (key x) (key y)) as [Hlt|Hle].
    + right. apply Qle_bool_iff. by apply Qlt_le_weak.
    + left. by apply Qle_bool_iff.
  - intros x y z Hxy Hyz. apply Qle_bool_iff.
    apply Qle_bool_iff in Hxy, Hyz. by eapply Qle_trans.
Qed.

Lemma slice_to_sublist {A} (n : Z) (l : list A) : Py.slice_to n l `sublist_of` l.
Proof. unfold Py.slice_to. destruct (0 <=? n); apply sublist_take. Qed.

(** ** The evaluator *)

Lemma max_list_snoc (l : list nat) (n : nat) :
  max_list (l ++ [n]) = (max_list l `max` n)%nat.
Proof. induction l as [|m l IH]; simpl; [lia|]. rewrite IH. lia. Qed.

Lemma sum_list_snoc (l : list nat) (n : nat) :
  sum_list (l ++ [n]) = (sum_list l + n)%nat.
Proof. induction l as [|m l IH]; simpl; [lia|]. rewrite IH. lia. Qed.

Section EvaluateFacts.

Import Evaluate.

Variable actual_sorted : list Z.

Lemma loop_inv_length seen st :
  loop_inv actual_sorted seen st -> length (acc_predictions st) = length seen.
Proof.
  intros [Hh _ _ _ _ _].
  apply (f_equal length) in Hh. by rewrite !length_fmap in Hh.
Qed.

Lemma loop_inv_init : loop_inv actual_sorted [] loop_init.
Proof.
  split; simpl; try done; try lia.
  intros h Hh.
  do 7 (destruct h as [|h]; [by exists 0%nat|]). lia.
Qed.

Lemma loop_body_inv seen st p :
  loop_inv actual_sorted seen st ->
  (hits_of p.1 actual_sorted <= 6)%nat ->
  exists st',
    loop_body actual_sorted (length seen) p st = Ok st'
    /\ loop_inv actual_sorted (seen ++ [p]) st'.
Proof.
  intros Hinv Hle.
  pose proof (loop_inv_length _ _ Hinv) as Hlen.
  destruct Hinv as [Hh Ht Hb Hn Hf Hd].
  destruct (Hd _ Hle) as [c Hc].
  unfold loop_body. rewrite Hc. eexists. split; [done|].
  set (hits := hits_of p.1 actual_sorted) in *.
  split; cbn [acc_predictions acc_distribution total_hits best_hits best_index].
  - by rewrite !fmap_snoc, Hh.
  - rewrite fmap_snoc, sum_list_snoc. simpl. lia.
  - rewrite fmap_snoc, max_list_snoc. simpl.
    destruct (Nat.ltb_spec (best_hits st) hits); lia.
  - destruct (Nat.ltb_spec (best_hits st) hits); [lia|]. done.
  - destruct (Nat.ltb_spec (best_hits st) hits) as [Hlt|Hge]; intros Hpos.
    + exists (length seen). eexists. split; [done|].
      split; [rewrite <- Hlen; apply list_lookup_middle; done|].
      split; [done|].
      intros j pe' Hj Hpe'. rewrite lookup_app_l in Hpe' by lia.
      assert (hit_count pe' ∈ hit_count <$> acc_predictions st) as Hin.
      { apply list_elem_of_fmap. exists pe'. split; [done|].
        by eapply list_elem_of_lookup_2. }
      apply max_list_elem_of_le in Hin. fold hits. lia.
    + destruct (Hf Hpos) as (i & pe & Hi & Hpe & Hpeh & Hmin).
      exists i, pe. split; [done|]. split; [by apply lookup_app_l_Some|].
      split; [done|].
      intros j pe' Hj Hpe'.
      apply lookup_lt_Some in Hpe.
      rewrite lookup_app_l in Hpe' by lia. eauto.
  - intros h Hh6. apply lookup_insert_is_Some'. right. by apply Hd.
Qed.

Lemma loop_inv_run ps seen st :
  loop_inv actual_sorted seen st ->
  Forall (fun p => hits_of p.1 actual_sorted <= 6)%nat ps ->
  exists st',
    loop actual_sorted (length seen) ps st = Ok st'
    /\ loop_inv actual_sorted (seen ++ ps) st'.
Proof.
  revert seen st. induction ps as [|p ps IH]; intros seen st Hinv Hall; simpl.
  - exists st. by rewrite app_nil_r.
  - apply Forall_cons in Hall as [Hp Hall].
    destruct (loop_body_inv _ _ _ Hinv Hp) as (st1 & -> & Hinv1). simpl.
    destruct (IH _ _ Hinv1 Hall) as (st' & Hrun & Hinv').
    rewrite length_app in Hrun. simpl in Hrun.
    replace (length seen + 1)%nat with (S (length seen)) in Hrun by lia.
    exists st'. split; [done|]. by rewrite <- app_assoc in Hinv'.
Qed.

End EvaluateFacts.

Lemma hits_of_sorted (numbers actual : list Z) :
  Evaluate.hits_of numbers (Py.sorted actual)
  = size (Py.set numbers ∩ Py.set actual).
Proof. unfold Evaluate.hits_of. by rewrite !set_sorted. Qed.

Lemma hits_of_le (numbers actual : list Z) :
  (Evaluate.hits_of numbers (Py.sorted actual) <= length actual)%nat.
Proof.
  rewrite hits_of_sorted.
  etransitivity; [|apply size_set_le].
  apply subseteq_size. intros x Hx. apply elem_of_intersection in Hx. tauto.
Qed.

Lemma evaluate_predictions_inv ev date preds actual :
  preds <> [] ->
  Forall (fun p => Evaluate.hits_of p.1 (Py.sorted actual) <= 6)%nat preds ->
  exists e ev' st,
    Evaluate.evaluate_predictions ev date preds actual = Ok (e, ev')
    /\ loop_inv (Py.sorted actual) preds st
    /\ Evaluate.predictions e = Evaluate.acc_predictions st
    /\ Evaluate.best_hit_count (Evaluate.summary e) = Evaluate.best_hits st
    /\ Evaluate.best_prediction_index (Evaluate.summary e)
       = Evaluate.best_index st + 1
    /\ Evaluate.average_hit_count (Evaluate.summary e)
       = (inject_Z (Z.of_nat (Evaluate.total_hits st))
          / inject_Z (Z.of_nat (length preds)))%Q.
Proof.
  intros Hne Hall.
  destruct (loop_inv_run (Py.sorted actual) preds [] Evaluate.loop_init
              (loop_inv_init _) Hall) as (st & Hrun & Hinv).
  simpl in Hrun, Hinv.
  unfold Evaluate.evaluate_predictions. rewrite Hrun. simpl.
  unfold Py.truediv.
  destruct (Z.eqb_spec (Z.of_nat (length preds)) 0) as [Hz|_].
  { destruct preds; [done|simpl in Hz; lia]. }
  simpl. eexists _, _, st. split; [reflexivity|].
  split; [exact Hinv|]. simpl. by repeat split.
Qed.

(** C4 as stated fails when no prediction hits anything: the only
    prediction below attains the maximal hit count 0, yet the summary's
    [best_prediction_index] is 0 and not its position 1. *)
Lemma best_prediction_index_no_hits_counterexample :
  exists e ev',
    Evaluate.evaluate_predictions Evaluate.empty_evaluator "2023-09-07"
      [([7; 8; 9; 10; 11; 12], 50%Q)] [1; 2; 3; 4; 5; 6] = Ok (e, ev')
    /\ Evaluate.hit_count <$> Evaluate.predictions e = [0%nat]
    /\ Evaluate.best_hit_count (Evaluate.summary e) = 0%nat
    /\ Evaluate.best_prediction_index (Evaluate.summary e) = 0
    /\ Evaluate.best_prediction_index (Evaluate.summary e) <> 1.
Proof. eexists _, _. split; [reflexivity|]. by vm_compute. Qed.

(** C4 (amended). For a non-empty batch and a 6-number outcome the
    evaluator returns a result in which every prediction's hit count is the
    size of the intersection of its number set with the outcome's, the best
    hit count is the maximum, the average is the sum of the hit counts over
    the number of predictions, and, when the best hit count is positive,
    [best_prediction_index] is the 1-based position of the first prediction
    attaining it; when every hit count is 0 the index is 0. For the outcome
    [1..6] and the predictions [1..6] and [7..12] the hit counts are 6 and 0,
    the best is 6 and the average 3. *)
Theorem evaluate_predictions_summary :
  (forall ev date preds actual,
     preds <> [] ->
     length actual = 6%nat ->
     exists e ev',
       Evaluate.evaluate_predictions ev date preds actual = Ok (e, ev')
       /\ Evaluate.hit_count <$> Evaluate.predictions e
          = (fun p => size (Py.set p.1 ∩ Py.set actual)) <$> preds
       /\ Evaluate.best_hit_count (Evaluate.summary e)
          = max_list (Evaluate.hit_count <$> Evaluate.predictions e)
       /\ (Evaluate.average_hit_count (Evaluate.summary e)
           == inject_Z (Z.of_nat
                (sum_list (Evaluate.hit_count <$> Evaluate.predictions e)))
              / inject_Z (Z.of_nat (length preds)))%Q
       /\ ((0 < Evaluate.best_hit_count (Evaluate.summary e))%nat ->
           exists i pe,
             Evaluate.best_prediction_index (Evaluate.summary e)
             = Z.of_nat i + 1
             /\ Evaluate.predictions e !! i = Some pe
             /\ Evaluate.hit_count pe
                = Evaluate.best_hit_count (Evaluate.summary e)
             /\ forall j pe', (j < i)%nat ->
                  Evaluate.predictions e !! j = Some pe' ->
                  (Evaluate.hit_count pe'
                   < Evaluate.best_hit_count (Evaluate.summary e))%nat)
       /\ (Evaluate.best_hit_count (Evaluate.summary e) = 0%nat ->
           Evaluate.best_prediction_index (Evaluate.summary e) = 0))
  /\ (forall ev date c1 c2,
        exists e ev',
          Evaluate.evaluate_predictions ev date
            [([1; 2; 3; 4; 5; 6], c1); ([7; 8; 9; 10; 11; 12], c2)]
            [1; 2; 3; 4; 5; 6] = Ok (e, ev')
          /\ Evaluate.hit_count <$> Evaluate.predictions e = [6%nat; 0%nat]
          /\ Evaluate.best_hit_count (Evaluate.summary e) = 6%nat
          /\ Evaluate.best_prediction_index (Evaluate.summary e) = 1
          /\ (Evaluate.average_hit_count (Evaluate.summary e) == 3)%Q).
Proof.
  split.
  - intros ev date preds actual Hne Hlen.
    destruct (evaluate_predictions_inv ev date preds actual Hne)
      as (e & ev' & st & Heq & Hinv & Hp & Hb & Hi & Ha).
    { apply Forall_forall. intros p _. rewrite <- Hlen. apply hits_of_le. }
    exists e, ev'. split; [done|].
    destruct Hinv as [Hh Ht Hbest Hn Hf _].
    rewrite Hp, Hb, Hi, Ha.
    split; [|split; [done|split; [by rewrite Ht|split]]].
    + rewrite Hh. apply list_fmap_ext. intros _ p _. apply hits_of_sorted.
    + intros Hpos. destruct (Hf Hpos) as (i & pe & -> & ?). by exists i, pe.
    + intros Hz. rewrite (Hn Hz). done.
  - intros ev date c1 c2. eexists _, _. split; [reflexivity|]. by vm_compute.
Qed.

Lemma evaluate_predictions_summary_witness :
  exists e ev',
    Evaluate.evaluate_predictions Evaluate.empty_evaluator "2023-09-07"
      [([1; 2; 3; 4; 5; 6], 50%Q); ([1; 2; 3; 10; 11; 12], 40%Q)]
      [1; 2; 3; 4; 5; 6] = Ok (e, ev')
    /\ Evaluate.best_hit_count (Evaluate.summary e)
       = max_list (Evaluate.hit_count <$> Evaluate.predictions e).
Proof.
  destruct (proj1 evaluate_predictions_summary Evaluate.empty_evaluator
              "2023-09-07"
              [([1; 2; 3; 4; 5; 6], 50%Q); ([1; 2; 3; 10; 11; 12], 40%Q)]
              [1; 2; 3; 4; 5; 6])
    as (e & ev' & Heq & _ & Hbest & _).
  - discriminate.
  - reflexivity.
  - exists e, ev'. split; [exact Heq|exact Hbest].
Defined.

(** C10. With an empty batch the average divides by zero and the call
    raises instead of returning a result; with a non-empty batch in which no
    prediction shares a number with the outcome, the summary has
    [best_hit_count] 0 and [best_prediction_index] 0, designating no
    prediction. *)
Theorem evaluate_predictions_degenerate :
  (forall ev date actual,
     Evaluate.evaluate_predictions ev date [] actual = Raise ZeroDivisionError)
  /\ (forall ev date preds actual,
        preds <> [] ->
        Forall (fun p => Py.set p.1 ∩ Py.set actual = ∅) preds ->
        exists e ev',
          Evaluate.evaluate_predictions ev date preds actual = Ok (e, ev')
          /\ Forall (fun pe => Evaluate.hit_count pe = 0%nat)
                    (Evaluate.predictions e)
          /\ Evaluate.best_hit_count (Evaluate.summary e) = 0%nat
          /\ Evaluate.best_prediction_index (Evaluate.summary e) = 0).
Proof.
  split; [done|].
  intros ev date preds actual Hne Hall.
  assert (Hzero : Forall (fun p => Evaluate.hits_of p.1 (Py.sorted actual) = 0%nat)
                         preds).
  { eapply Forall_impl; [exact Hall|]. intros p Hp.
    rewrite hits_of_sorted, Hp. apply size_empty. }
  destruct (evaluate_predictions_inv ev date preds actual Hne)
    as (e & ev' & st & Heq & Hinv & Hp & Hb & Hi & _).
  { eapply Forall_impl; [exact Hzero|]. intros p ->. lia. }
  exists e, ev'. split; [done|].
  destruct Hinv as [Hh _ Hbest Hn _ _].
  assert (Hall0 : Forall (fun h => h = 0%nat)
                    (Evaluate.hit_count <$> Evaluate.acc_predictions st)).
  { rewrite Hh. apply Forall_fmap. exact Hzero. }
  assert (Hb0 : Evaluate.best_hits st = 0%nat).
  { rewrite Hbest. clear -Hall0.
    induction Hall0 as [|h hs -> _ IH]; simpl; [done|]. rewrite IH. done. }
  rewrite Hp, Hb, Hi. split; [by apply Forall_fmap in Hall0|].
  split; [done|]. rewrite (Hn Hb0). done.
Qed.

Lemma evaluate_predictions_degenerate_witness :
  exists e ev',
    Evaluate.evaluate_predictions Evaluate.empty_evaluator "2023-09-07"
      [([7; 8; 9; 10; 11; 12], 50%Q); ([13; 14; 15; 16; 17; 18], 40%Q)]
      [1; 2; 3; 4; 5; 6] = Ok (e, ev')
    /\ Evaluate.best_prediction_index (Evaluate.summary e) = 0.
Proof.
  destruct (proj2 evaluate_predictions_degenerate Evaluate.empty_evaluator
              "2023-09-07"
              [([7; 8; 9; 10; 11; 12], 50%Q); ([13; 14; 15; 16; 17; 18], 40%Q)]
              [1; 2; 3; 4; 5; 6])
    as (e & ev' & Heq & _ & _ & Hidx).
  - discriminate.
  - repeat constructor.
  - exists e, ev'. split; [exact Heq|exact Hidx].
Defined.

(** ** The feature extractor *)

Lemma lookup_foldl_insert {V} (f : Z -> V) (l : list Z) (m : gmap Z V) (k : Z) :
  foldl (fun m x => <[x := f x]> m) m l !! k
  = if bool_decide (k ∈ l) then Some (f k) else m !! k.
Proof.
  revert m. induction l as [|x l IH]; intros m; simpl; [done|].
  rewrite IH. case_bool_decide as Hl.
  - rewrite bool_decide_true; [done|by right].
  - destruct (decide (k = x)) as [->|Hne].
    + rewrite lookup_insert_eq, bool_decide_true; [done|by left].
    + rewrite lookup_insert_ne by done.
      rewrite bool_decide_false; [done|].
      intros [?|?]%elem_of_cons; done.
Qed.

Lemma get_missing_intervals_lookup (data : list Features.row) (num : Z) :
  1 <= num <= 49 ->
  Features.get_missing_intervals data !! num
  = Some (Features.missing_interval data num).
Proof.
  intros Hnum. unfold Features.get_missing_intervals.
  rewrite (lookup_foldl_insert (Features.missing_interval data)).
  rewrite bool_decide_true; [done|].
  unfold Py.range. apply elem_of_seqZ. lia.
Qed.

(** The scan stops at the first row that holds the number. *)
Lemma last_appearance_first (num i : Z) (before : list Features.row)
    (r : Features.row) (after : list Features.row) :
  Forall (fun r' => num ∉ Features.numbers_of r') before ->
  num ∈ Features.numbers_of r ->
  Features.last_appearance num i (before ++ r :: after)
  = i + Z.of_nat (length before).
Proof.
  intros Hb Hr. revert i.
  induction Hb as [|r' before Hr' _ IH]; intros i; simpl.
  - rewrite bool_decide_true by done. lia.
  - rewrite bool_decide_false by done. rewrite IH. lia.
Qed.

Lemma last_appearance_never (num i : Z) (data : list Features.row) :
  Forall (fun r => num ∉ Features.numbers_of r) data ->
  Features.last_appearance num i data = -1.
Proof.
  intros Hd. revert i. induction Hd as [|r data Hr _ IH]; intros i; simpl.
  - done.
  - by rewrite bool_decide_false.
Qed.

(** The half of C2 that the code meets: a number that never appeared gets
    the full history length. *)
Lemma missing_interval_never (data : list Features.row) (num : Z) :
  1 <= num <= 49 ->
  Forall (fun r => num ∉ Features.numbers_of r) data ->
  Features.get_missing_intervals data !! num = Some (Z.of_nat (length data)).
Proof.
  intros Hnum Hd. rewrite get_missing_intervals_lookup by done.
  unfold Features.missing_interval. by rewrite last_appearance_never.
Qed.

(** What the code computes for a number that did appear: the number of
    draws after its first, that is oldest, appearance in file order. *)
Lemma missing_interval_first (before after : list Features.row)
    (r : Features.row) (num : Z) :
  1 <= num <= 49 ->
  Forall (fun r' => num ∉ Features.numbers_of r') before ->
  num ∈ Features.numbers_of r ->
  Features.get_missing_intervals (before ++ r :: after) !! num
  = Some (Z.of_nat (length after)).
Proof.
  intros Hnum Hb Hr. rewrite get_missing_intervals_lookup by done.
  unfold Features.missing_interval.
  rewrite last_appearance_first by done.
  rewrite length_app. simpl.
  destruct (Z.eqb_spec (0 + Z.of_nat (length before)) (-1)); [lia|].
  f_equal. lia.
Qed.

(** C2. The claim asks for [missing_intervals[7] == 0] on a 30-draw history
    in which 7 appears in every draw. The code returns 29: the scan leaves
    the loop at the first row holding 7, which is the oldest draw. *)
Theorem missing_intervals_scenario_A :
  length history_with_7 = 30%nat
  /\ Forall (fun r => 7 ∈ Features.numbers_of r) history_with_7
  /\ Features.get_missing_intervals history_with_7 !! 7 = Some 29.
Proof.
  split; [done|]. split; [|by vm_compute].
  unfold history_with_7. apply Forall_replicate. set_solver.
Qed.

Lemma truediv_nonzero (a b : Z) :
  b <> 0 -> Py.truediv a b = Ok (inject_Z a / inject_Z b)%Q.
Proof. intros Hb. unfold Py.truediv. by destruct (Z.eqb_spec b 0). Qed.

(** On a history with at least one draw both ratio features return. *)
Lemma ratio_features_nonempty (data : list Features.row) :
  data <> [] ->
  is_ok (Features.get_odd_even_ratio data) = true
  /\ is_ok (Features.get_consecutive_pairs_frequency data) = true.
Proof.
  intros Hne. destruct data as [|r data]; [done|]. split.
  - unfold Features.get_odd_even_ratio. by rewrite truediv_nonzero.
  - unfold Features.get_consecutive_pairs_frequency.
    rewrite !truediv_nonzero; [done| |]; simpl length; lia.
Qed.

(** C5. On the empty history the odd/even ratio and the pair frequency do
    not return a default: both divide by the number of draws and raise. *)
Theorem ratio_features_raise_on_empty_history :
  Features.get_odd_even_ratio [] = Raise ZeroDivisionError
  /\ Features.get_consecutive_pairs_frequency [] = Raise ZeroDivisionError.
Proof. split; reflexivity. Qed.

(** ** The weight learner *)

Section DictFacts.

Context {V : Type}.
Implicit Types (d : list (string * V)) (k : string) (v : V).

Lemma dict_get_Some_keys d k v : Learn.dict_get k d = Some v -> k ∈ Learn.keys d.
Proof.
  induction d as [|[k' v'] d IH]; simpl; [done|].
  destruct (String.eqb_spec k k') as [->|Hne]; intros Hv.
  - by left.
  - right. by apply IH.
Qed.

Lemma dict_get_is_Some d k : k ∈ Learn.keys d -> is_Some (Learn.dict_get k d).
Proof.
  induction d as [|[k' v'] d IH]; simpl.
  - by intros ?%elem_of_nil.
  - destruct (String.eqb_spec k k') as [->|Hne]; [by eexists|].
    intros [?|?]%elem_of_cons; [done|by apply IH].
Qed.

Lemma dict_get_None d k : k ∉ Learn.keys d -> Learn.dict_get k d = None.
Proof.
  intros Hk. destruct (Learn.dict_get k d) eqn:Hget; [|done].
  by apply dict_get_Some_keys in Hget.
Qed.

Lemma dict_rewrite_absent d k v :
  k ∉ Learn.keys d ->
  (fun kv => if String.eqb k kv.1 then (kv.1, v) else kv) <$> d = d.
Proof.
  induction d as [|[k' v'] d IH]; simpl; [done|].
  intros Hk. apply not_elem_of_cons in Hk as [Hne Hk].
  destruct (String.eqb_spec k k'); [done|]. f_equal. by apply IH.
Qed.

(** On a dictionary without repeated keys an assignment to a present key
    rewrites exactly the entry of that key. *)
Lemma dict_set_present d k v :
  NoDup (Learn.keys d) ->
  k ∈ Learn.keys d ->
  Learn.dict_set k v d
  = (fun kv => if String.eqb k kv.1 then (kv.1, v) else kv) <$> d.
Proof.
  induction d as [|[k' v'] d IH]; simpl.
  - by intros _ ?%elem_of_nil.
  - intros [Hk' Hnd]%NoDup_cons Hk.
    destruct (String.eqb_spec k k') as [->|Hne].
    + by rewrite dict_rewrite_absent.
    + f_equal. apply IH; [done|]. by apply elem_of_cons in Hk as [?|?].
Qed.

(** An assignment to an absent key appends the entry. *)
Lemma dict_set_absent d k v :
  k ∉ Learn.keys d -> Learn.dict_set k v d = d ++ [(k, v)].
Proof.
  induction d as [|[k' v'] d IH]; simpl; [done|].
  intros Hk. apply not_elem_of_cons in Hk as [Hne Hk].
  destruct (String.eqb_spec k k'); [done|]. f_equal. by apply IH.
Qed.

End DictFacts.

Lemma sum_cons (x : Q) (l : list Q) : Py.sum (x :: l) = (x + Py.sum l)%Q.
Proof. reflexivity. Qed.

Lemma sum_div (l : list Q) (t : Q) :
  (Py.sum ((fun v => v / t) <$> l) == Py.sum l / t)%Q.
Proof.
  induction l as [|x l IH]; simpl.
  - unfold Qdiv. ring.
  - rewrite IH. unfold Qdiv. ring.
Qed.

Lemma sum_Permutation (l l' : list Q) :
  l ≡ₚ l' -> (Py.sum l == Py.sum l')%Q.
Proof.
  induction 1 as [|x l l' _ IH|x y l|l1 l2 l3 _ IH1 _ IH2]; simpl.
  - reflexivity.
  - by rewrite IH.
  - ring.
  - by rewrite IH1.
Qed.

Lemma sum_bounds (lo hi : Q) (l : list Q) :
  Forall (fun v => lo <= v <= hi)%Q l ->
  (inject_Z (Z.of_nat (length l)) * lo <= Py.sum l
   /\ Py.sum l <= inject_Z (Z.of_nat (length l)) * hi)%Q.
Proof.
  induction 1 as [|x l [Hlo Hhi] _ [IHlo IHhi]].
  - change (inject_Z (Z.of_nat (length (@nil Q)))) with 0%Q.
    change (Py.sum []) with 0%Q. split; lra.
  - rewrite sum_cons. simpl length. rewrite Nat2Z.inj_succ.
    unfold Z.succ. rewrite inject_Z_plus. change (inject_Z 1) with 1%Q.
    rewrite !Qmult_plus_distr_l, !Qmult_1_l. split; lra.
Qed.

Lemma clamp_bounds (lo hi x : Q) :
  (lo <= hi)%Q -> (lo <= Py.clamp lo hi x <= hi)%Q.
Proof.
  intros Hlh. unfold Py.clamp. split.
  - apply Q.le_max_l.
  - apply Q.max_lub; [done|apply Q.le_min_l].
Qed.

Lemma dict_get_elem_of {V} (d : list (string * V)) (k : string) (v : V) :
  NoDup (Learn.keys d) -> (k, v) ∈ d -> Learn.dict_get k d = Some v.
Proof.
  induction d as [|[k' v'] d IH]; simpl.
  - by intros _ ?%elem_of_nil.
  - intros [Hk' Hnd]%NoDup_cons [Heq|Hin]%elem_of_cons.
    + injection Heq as -> ->. by rewrite String.eqb_refl.
    + destruct (String.eqb_spec k k') as [->|Hne]; [|by apply IH].
      exfalso. apply Hk'. apply list_elem_of_fmap. by exists (k', v).
Qed.

Lemma keys_fmap_snd {V W} (f : string * V -> W) (d : list (string * V)) :
  Learn.keys ((fun kv => (kv.1, f kv)) <$> d) = Learn.keys d.
Proof.
  unfold Learn.keys. rewrite <- list_fmap_compose.
  apply list_fmap_ext. by intros _ [k v] _.
Qed.

Lemma clamp_adjusted_nil (w : list (string * Q)) : clamp_adjusted w [] = w.
Proof.
  unfold clamp_adjusted. rewrite <- (list_fmap_id w) at 2.
  apply list_fmap_ext. by intros _ [k v] _.
Qed.

Lemma keys_clamp_adjusted (w adj : list (string * Q)) :
  Learn.keys (clamp_adjusted w adj) = Learn.keys w.
Proof. unfold clamp_adjusted. apply keys_fmap_snd. Qed.

Lemma clamp_loop_spec (adj : list (string * Q)) (s : Learn.learner) :
  NoDup (Learn.keys adj) ->
  NoDup (Learn.keys (Learn.weights s)) ->
  (forall k, k ∈ Learn.keys adj -> k ∈ Learn.keys (Learn.weights s)) ->
  exists s',
    Learn.clamp_loop adj s = Ok s'
    /\ Learn.weights s' = clamp_adjusted (Learn.weights s) adj
    /\ Learn.weights_file s' = Learn.weights_file s
    /\ Learn.evaluator s' = Learn.evaluator s
    /\ Learn.learning_rate s' = Learn.learning_rate s.
Proof.
  revert s. induction adj as [|[k d] adj IH]; intros s Hadj Hw Hsub.
  - exists s. by rewrite clamp_adjusted_nil.
  - apply NoDup_cons in Hadj as [Hk Hadj]. simpl.
    assert (k ∈ Learn.keys (Learn.weights s)) as Hkw by (apply Hsub; by left).
    destruct (dict_get_is_Some _ _ Hkw) as [old Hold]. rewrite Hold.
    set (new := Py.clamp (1 # 100) (5 # 10) (old + d)%Q).
    set (w1 := Learn.dict_set k new (Learn.weights s)).
    assert (Hw1 : w1 = (fun kv => if String.eqb k kv.1 then (kv.1, new) else kv)
                         <$> Learn.weights s)
      by (by apply dict_set_present).
    assert (Hkeys1 : Learn.keys w1 = Learn.keys (Learn.weights s)).
    { rewrite Hw1. unfold Learn.keys. rewrite <- list_fmap_compose.
      apply list_fmap_ext. intros _ [k' v'] _. simpl.
      by destruct (String.eqb k k'). }
    assert (Hgoal : clamp_adjusted w1 adj
                    = clamp_adjusted (Learn.weights s) ((k, d) :: adj)).
    { rewrite Hw1. unfold clamp_adjusted. rewrite <- list_fmap_compose.
      apply list_fmap_ext. intros i [k' v'] Hi. simpl.
      destruct (String.eqb_spec k k') as [<-|Hne].
      - rewrite String.eqb_refl. simpl. rewrite dict_get_None by done.
        assert (Learn.dict_get k (Learn.weights s) = Some v') as Hv'.
        { apply dict_get_elem_of; [done|]. by eapply list_elem_of_lookup_2. }
        rewrite Hold in Hv'. by injection Hv' as ->.
      - destruct (String.eqb_spec k' k) as [->|_]; [done|]. done. }
    set (s1 := Learn.set_weights w1 s).
    destruct (Qlt_le_dec (1 # 1000) (Qabs d)).
    + destruct (IH (Learn.print (Learn.WeightChanged k old new d) s1))
        as (s' & Hrun & Hws & ? & ? & ?); simpl; try done.
      { by rewrite Hkeys1. }
      { intros k' Hk'. rewrite Hkeys1. apply Hsub. by right. }
      exists s'. split; [done|]. simpl in Hws. by rewrite Hws, Hgoal.
    + destruct (IH s1) as (s' & Hrun & Hws & ? & ? & ?); simpl; try done.
      { by rewrite Hkeys1. }
      { intros k' Hk'. rewrite Hkeys1. apply Hsub. by right. }
      exists s'. split; [done|]. simpl in Hws. by rewrite Hws, Hgoal.
Qed.

Lemma clamp_adjusted_all (w adj : list (string * Q)) :
  (forall k, k ∈ Learn.keys w -> k ∈ Learn.keys adj) ->
  clamp_adjusted w adj = spec_clamped w adj.
Proof.
  intros Hall. unfold clamp_adjusted, spec_clamped.
  apply list_fmap_ext. intros i [k v] Hi. simpl.
  destruct (dict_get_is_Some adj k) as [d ->]; [|done].
  apply Hall. apply list_elem_of_fmap. exists (k, v). split; [done|].
  by eapply list_elem_of_lookup_2.
Qed.

Lemma spec_clamped_bounds (w adj : list (string * Q)) :
  Forall (fun v => 1 # 100 <= v <= 5 # 10)%Q (Learn.values (spec_clamped w adj)).
Proof.
  unfold Learn.values, spec_clamped. rewrite <- list_fmap_compose.
  apply Forall_fmap, Forall_forall. intros [k v] _. simpl.
  by apply clamp_bounds.
Qed.

Lemma sum_elem_le (l : list Q) (v : Q) :
  Forall (fun x => 0 <= x)%Q l -> v ∈ l -> (v <= Py.sum l)%Q.
Proof.
  induction 1 as [|x l Hx Hl IH]; [by intros ?%elem_of_nil|].
  assert (0 <= Py.sum l)%Q as Hs.
  { clear -Hl. induction Hl as [|y l Hy _ IH]; simpl; lra. }
  rewrite sum_cons. intros [->|Hin]%elem_of_cons; [lra|].
  specialize (IH Hin). lra.
Qed.

Lemma normalize_positive (w : list (string * Q)) :
  w <> [] ->
  Forall (fun v => 1 # 100 <= v <= 5 # 10)%Q (Learn.values w) ->
  (0 < Py.sum (Learn.values w))%Q
  /\ Learn.normalize w
     = Ok ((fun kv => (kv.1, (kv.2 / Py.sum (Learn.values w))%Q)) <$> w).
Proof.
  intros Hne Hb.
  assert (0 < Py.sum (Learn.values w))%Q as Hpos.
  { destruct w as [|[k v] w]; [done|].
    change (Learn.values ((k, v) :: w)) with (v :: Learn.values w) in *.
    rewrite sum_cons. apply Forall_cons in Hb as [[Hv _] Hb].
    apply (sum_bounds (1 # 100) (5 # 10)) in Hb as [Hlo _].
    assert (0 <= inject_Z (Z.of_nat (length (Learn.values w))) * (1 # 100))%Q.
    { apply Qmult_le_0_compat; [|lra].
      change 0%Q with (inject_Z 0). rewrite <- Zle_Qle. lia. }
    lra. }
  split; [done|]. unfold Learn.normalize.
  destruct w; [done|].
  destruct (Qeq_bool _ 0) eqn:Hz; [|done].
  apply Qeq_bool_iff in Hz. lra.
Qed.

(** C1 as stated fails: after renormalisation a weight can leave
    [0.01, 0.5]. From the default weights, raising the first weight to the
    upper clamp and lowering the nine others to the lower clamp gives the
    first weight 0.5 / 0.59, which is above 0.5. *)
Lemma renormalized_weight_exceeds_upper_clamp :
  exists s' w,
    Learn.apply_weight_adjustments skewed_adjustments Learn.fresh_learner = Ok s'
    /\ Learn.keys skewed_adjustments = Learn.keys (Learn.weights Learn.fresh_learner)
    /\ Learn.dict_get "total_appearances" (Learn.weights s') = Some w
    /\ (w == 50 # 59)%Q
    /\ ~ (1 # 100 <= w <= 5 # 10)%Q.
Proof.
  eexists _, _. split; [vm_compute; reflexivity|]. split; [reflexivity|].
  split; [vm_compute; reflexivity|]. split; [by vm_compute|].
  intros [_ Hle]. by vm_compute in Hle.
Qed.

(** C1 (amended). For a learner with at least one weight and an adjustment
    map over the same feature names, [apply_weight_adjustments] returns, and
    the new weights are what the one-pass update prescribes: each weight
    plus its delta is clamped into [0.01, 0.5] and then divided by the sum
    of the clamped values. The new weights sum to 1 and each lies in
    (0, 1]; the clamp range holds before the renormalisation, not after. *)
Theorem apply_weight_adjustments_normalized
    (adjustments : list (string * Q)) (s : Learn.learner) :
  Learn.weights s <> [] ->
  NoDup (Learn.keys (Learn.weights s)) ->
  NoDup (Learn.keys adjustments) ->
  (forall k, k ∈ Learn.keys adjustments <-> k ∈ Learn.keys (Learn.weights s)) ->
  exists s',
    Learn.apply_weight_adjustments adjustments s = Ok s'
    /\ Learn.weights s' = spec_updated_weights (Learn.weights s) adjustments
    /\ Forall (fun v => 1 # 100 <= v <= 5 # 10)%Q
              (Learn.values (spec_clamped (Learn.weights s) adjustments))
    /\ (Py.sum (Learn.values (Learn.weights s')) == 1)%Q
    /\ Forall (fun v => 0 < v <= 1)%Q (Learn.values (Learn.weights s')).
Proof.
  intros Hne Hw Hadj Hkeys.
  unfold Learn.apply_weight_adjustments.
  destruct (clamp_loop_spec adjustments (Learn.print Learn.AdjustmentHeader s))
    as (s1 & -> & Hw1 & _); [done|done|by intros k ?%Hkeys|].
  simpl in Hw1. rewrite clamp_adjusted_all in Hw1 by (by intros k ?%Hkeys).
  set (c := spec_clamped (Learn.weights s) adjustments) in *.
  pose proof (spec_clamped_bounds (Learn.weights s) adjustments) as Hb.
  fold c in Hb.
  assert (c <> []) as Hcne.
  { unfold c, spec_clamped. by destruct (Learn.weights s). }
  destruct (normalize_positive c Hcne Hb) as [Hpos Hnorm].
  simpl. rewrite Hw1, Hnorm. simpl.
  eexists. split; [reflexivity|]. simpl.
  split; [done|]. split; [done|].
  set (total := Py.sum (Learn.values c)) in *.
  assert (Hvals : Learn.values ((fun kv => (kv.1, (kv.2 / total)%Q)) <$> c)
                  = (fun v => (v / total)%Q) <$> Learn.values c).
  { unfold Learn.values. rewrite <- !list_fmap_compose.
    apply list_fmap_ext. by intros _ [k v] _. }
  rewrite Hvals. split.
  - rewrite sum_div. fold total. field. lra.
  - apply Forall_fmap, Forall_forall. intros v Hv. simpl.
    pose proof (proj1 (Forall_forall _ _) Hb v Hv) as [Hlo Hhi].
    assert (v <= total)%Q as Hvt.
    { apply sum_elem_le; [|done].
      eapply Forall_impl; [exact Hb|]. intros x [? _]; lra. }
    split.
    + apply Qlt_shift_div_l; lra.
    + apply Qle_shift_div_r; lra.
Qed.

Lemma apply_weight_adjustments_normalized_witness :
  exists s',
    Learn.apply_weight_adjustments skewed_adjustments Learn.fresh_learner = Ok s'
    /\ (Py.sum (Learn.values (Learn.weights s')) == 1)%Q.
Proof.
  destruct (apply_weight_adjustments_normalized skewed_adjustments
              Learn.fresh_learner)
    as (s' & Heq & _ & _ & Hsum & _).
  - discriminate.
  - apply (bool_decide_unpack (NoDup _)). vm_compute. exact I.
  - apply (bool_decide_unpack (NoDup _)). vm_compute. exact I.
  - intros k. reflexivity.
  - exists s'. split; [exact Heq|exact Hsum].
Defined.

(** C9 as stated fails on its last clause: the missing evaluation is not
    reported to the caller. The method has no [return] value and raises
    nothing, so its caller receives [None] when no evaluation is stored for
    the date exactly as it does after a successful update. *)
Lemma learn_from_evaluation_unreported_counterexample :
  Evaluate.results (Learn.evaluator Learn.fresh_learner) !! "2023-09-07"%string
  = None
  /\ Evaluate.results (Learn.evaluator learner_with_evaluation)
       !! "2023-09-07"%string = Some sample_evaluation
  /\ returned (Learn.learn_from_evaluation "2023-09-07" sample_features
                 Learn.fresh_learner) = Ok tt
  /\ returned (Learn.learn_from_evaluation "2023-09-07" sample_features
                 learner_with_evaluation) = Ok tt.
Proof.
  split; [done|]. split; [done|]. split; [done|]. by vm_compute.
Qed.

(** C9 (amended). When no evaluation is stored for the date,
    [learn_from_evaluation] returns without raising; the weights in memory
    and the weights file are what they were. The condition is printed: the
    console received the start banner followed by the "evaluation not
    found" message. It is not passed to the caller, who receives [None]. *)
Theorem learn_from_evaluation_missing
    (date : string) (features : Learn.feature_table) (s : Learn.learner) :
  Evaluate.results (Learn.evaluator s) !! date = None ->
  exists s',
    Learn.learn_from_evaluation date features s = Ok s'
    /\ Learn.weights s' = Learn.weights s
    /\ Learn.weights_file s' = Learn.weights_file s
    /\ Learn.evaluator s' = Learn.evaluator s
    /\ Learn.learning_rate s' = Learn.learning_rate s
    /\ Learn.console s'
       = Learn.console s ++ [Learn.LearningStarted date; Learn.EvaluationNotFound]
    /\ returned (Learn.learn_from_evaluation date features s) = Ok tt.
Proof.
  intros Hnone. unfold Learn.learn_from_evaluation. simpl. rewrite Hnone.
  eexists. split; [reflexivity|]. simpl. by rewrite <- app_assoc.
Qed.

Lemma learn_from_evaluation_missing_witness :
  exists s',
    Learn.learn_from_evaluation "2023-09-07" ∅ Learn.fresh_learner = Ok s'
    /\ Learn.weights s' = Learn.default_weights
    /\ Learn.weights_file s' = None.
Proof.
  destruct (learn_from_evaluation_missing "2023-09-07" ∅ Learn.fresh_learner)
    as (s' & Heq & Hw & Hf & _).
  - reflexivity.
  - exists s'. split; [exact Heq|]. split; [exact Hw|exact Hf].
Defined.

(** *** Feature effectiveness *)

Lemma record_value_analysed (name : string) (features : Learn.feature_table)
    (vals : gmap Z Q) (num : Z) :
  analysed name = true ->
  Learn.record_value name features vals num
  = <[num := Learn.feature_get features name num]> vals.
Proof.
  unfold analysed, Learn.record_value.
  destruct (String.eqb_spec name "total_appearances") as [->|_]; [done|].
  destruct (String.eqb_spec name "recent_appearances") as [->|_]; [done|].
  destruct (String.eqb_spec name "missing_intervals") as [->|_]; [done|].
  done.
Qed.

Lemma record_value_other (name : string) (features : Learn.feature_table)
    (vals : gmap Z Q) (num : Z) :
  analysed name = false ->
  Learn.record_value name features vals num = vals.
Proof.
  unfold analysed, Learn.record_value.
  destruct (String.eqb name "total_appearances"); [done|].
  destruct (String.eqb name "recent_appearances"); [done|].
  destruct (String.eqb name "missing_intervals"); done.
Qed.

Lemma foldl_record_value_other name features (nums : list Z) (vals : gmap Z Q) :
  analysed name = false ->
  foldl (Learn.record_value name features) vals nums = vals.
Proof.
  intros Hn. induction nums as [|n nums IH]; simpl; [done|].
  by rewrite record_value_other.
Qed.

Lemma foldl_record_value_analysed name features (nums : list Z) (vals : gmap Z Q) :
  analysed name = true ->
  foldl (Learn.record_value name features) vals nums
  = foldl (fun m x => <[x := Learn.feature_get features name x]> m) vals nums.
Proof.
  intros Hn. revert vals. induction nums as [|n nums IH]; intros vals; simpl.
  - done.
  - by rewrite record_value_analysed, IH.
Qed.

(** The dictionary filled from a group holds one entry per distinct number. *)
Lemma gathered_values (f : Z -> Q) (nums : list Z) :
  (map_to_list (foldl (fun m x => <[x := f x]> m) (∅ : gmap Z Q) nums)).*2
  ≡ₚ f <$> remove_dups nums.
Proof.
  assert (Hmap : foldl (fun m x => <[x := f x]> m) (∅ : gmap Z Q) nums
                 = list_to_map ((fun n => (n, f n)) <$> remove_dups nums)).
  { apply map_eq. intros k. rewrite lookup_foldl_insert, lookup_empty.
    case_bool_decide as Hk; symmetry.
    - apply elem_of_list_to_map.
      + rewrite <- list_fmap_compose. simpl.
        rewrite list_fmap_id. apply NoDup_remove_dups.
      + apply list_elem_of_fmap. exists k. split; [done|].
        by apply elem_of_remove_dups.
    - apply not_elem_of_list_to_map. rewrite <- list_fmap_compose. simpl.
      rewrite list_fmap_id. by rewrite elem_of_remove_dups. }
  rewrite Hmap, map_to_list_to_map.
  - by rewrite <- list_fmap_compose.
  - rewrite <- list_fmap_compose. simpl. rewrite list_fmap_id.
    apply NoDup_remove_dups.
Qed.

Lemma mean_or_zero_values (d : gmap Z Q) (vs : list Q) :
  (map_to_list d).*2 ≡ₚ vs ->
  (Learn.mean_or_zero d
   == match vs with
      | [] => 0
      | _ => Py.sum vs / inject_Z (Z.of_nat (length vs))
      end)%Q.
Proof.
  unfold Learn.mean_or_zero. intros Hp.
  destruct ((map_to_list d).*2) as [|x l] eqn:Hl.
  - apply Permutation_nil in Hp. by subst.
  - destruct vs as [|v vs]; [by apply Permutation_nil_r in Hp|].
    rewrite (sum_Permutation _ _ Hp), (Permutation_length Hp). reflexivity.
Qed.

Lemma group_average_refines name features (nums : list Z) :
  (Learn.mean_or_zero (foldl (Learn.record_value name features) ∅ nums)
   == spec_group_average name features nums)%Q.
Proof.
  unfold spec_group_average. destruct (analysed name) eqn:Hn.
  - rewrite foldl_record_value_analysed by done.
    rewrite (mean_or_zero_values _ _ (gathered_values _ nums)).
    destruct (remove_dups nums); simpl; [reflexivity|].
    rewrite length_fmap. reflexivity.
  - rewrite foldl_record_value_other by done. reflexivity.
Qed.

Lemma foldl_filter_concat {A B C} (g : A -> B -> A) (c : C -> bool)
    (h : C -> list B) (l : list C) (a : A) :
  foldl (fun a x => if c x then foldl g a (h x) else a) a l
  = foldl g a (concat (h <$> List.filter c l)).
Proof.
  revert a. induction l as [|x l IH]; intros a; simpl; [done|].
  rewrite IH. destruct (c x); simpl; [|done]. by rewrite foldl_app.
Qed.

Lemma predicted_values_flatten name features
    (predictions : list Evaluate.prediction_eval) (vals : gmap Z Q) :
  foldl (fun vals pred =>
           if (2 <=? Evaluate.hit_count pred)%nat
           then foldl (Learn.record_value name features) vals
                      (Evaluate.predicted_numbers pred)
           else vals)
        vals predictions
  = foldl (Learn.record_value name features) vals
          (spec_predicted_group predictions).
Proof.
  apply (foldl_filter_concat (Learn.record_value name features)
           (fun pred => (2 <=? Evaluate.hit_count pred)%nat)
           Evaluate.predicted_numbers).
Qed.

(** C3 as stated fails on its last clause: for a feature whose groups hold
    no numbers the effectiveness is 1, not 0. The learner gathers no values
    for [hot_cold], so both averages are 0 and the formula yields 1. *)
Lemma effectiveness_of_empty_groups_counterexample :
  let perf :=
    Learn.analyze_single_feature "hot_cold" ∅ [1; 2; 3; 4; 5; 6] [] in
  Learn.actual_average perf = 0%Q
  /\ Learn.predicted_average perf = 0%Q
  /\ (Learn.effectiveness perf == 1)%Q
  /\ ~ (Learn.effectiveness perf == 0)%Q.
Proof. by vm_compute. Qed.

(** C3 (amended). For every feature name the effectiveness is
    max(0, 1 - |a - p| / max(a, p, 1)), where a is the feature's average
    over the distinct numbers of the actual outcome and p its average over
    the distinct numbers of the predictions with at least 2 hits; values are
    gathered for [total_appearances], [recent_appearances] and
    [missing_intervals] only, and the average of an empty group is 0. A
    feature with no numbers in either group has effectiveness 1. *)
Theorem analyze_single_feature_effectiveness
    (feature_name : string) (features : Learn.feature_table)
    (actual_result : list Z) (predictions : list Evaluate.prediction_eval) :
  let perf :=
    Learn.analyze_single_feature feature_name features actual_result
      predictions in
  let a := spec_group_average feature_name features actual_result in
  let p :=
    spec_group_average feature_name features
      (spec_predicted_group predictions) in
  (Learn.actual_average perf == a)%Q
  /\ (Learn.predicted_average perf == p)%Q
  /\ (Learn.effectiveness perf == spec_effectiveness a p)%Q
  /\ (analysed feature_name = false
      \/ (actual_result = [] /\ spec_predicted_group predictions = []) ->
      (Learn.effectiveness perf == 1)%Q).
Proof.
  intros perf a p.
  assert (Ha : (Learn.actual_average perf == a)%Q)
    by apply group_average_refines.
  assert (Hp : (Learn.predicted_average perf == p)%Q).
  { unfold perf, Learn.analyze_single_feature. simpl.
    rewrite predicted_values_flatten. apply group_average_refines. }
  assert (He : (Learn.effectiveness perf == spec_effectiveness a p)%Q).
  { unfold spec_effectiveness. rewrite <- Ha, <- Hp. reflexivity. }
  split; [done|]. split; [done|]. split; [done|].
  intros Hempty. rewrite He.
  assert (a = 0%Q /\ p = 0%Q) as [-> ->].
  { unfold a, p, spec_group_average.
    destruct Hempty as [->|[-> ->]]; [done|].
    by destruct (analysed feature_name). }
  by vm_compute.
Qed.

Lemma analyze_single_feature_effectiveness_witness :
  Qeq (Learn.effectiveness
         (Learn.analyze_single_feature "hot_cold" ∅ [1; 2; 3; 4; 5; 6] []))
      1.
Proof.
  apply (analyze_single_feature_effectiveness "hot_cold" ∅ [1; 2; 3; 4; 5; 6] []).
  left. reflexivity.
Defined.

(** ** The combination generator *)

Lemma submseteq_NoDup {A} (l k : list A) : l ⊆+ k -> NoDup k -> NoDup l.
Proof.
  intros [k' Hk']%submseteq_Permutation Hk. rewrite Hk' in Hk.
  by apply NoDup_app in Hk as [? _].
Qed.

Lemma draw_distinct_spec (pool : list Z) (k : nat) (raw : nat -> nat) (i : nat) :
  (k <= length pool)%nat ->
  length (PredictAdaptive.draw_distinct pool k raw i) = k
  /\ PredictAdaptive.draw_distinct pool k raw i ⊆+ pool.
Proof.
  revert pool i. induction k as [|k IH]; intros pool i Hk; simpl.
  - split; [done|]. apply submseteq_nil_l.
  - assert (raw i mod length pool < length pool)%nat as Hj
      by (apply Nat.mod_upper_bound; lia).
    destruct (lookup_lt_is_Some_2 pool _ Hj) as [x Hx]. rewrite Hx.
    destruct (IH (delete (raw i mod length pool)%nat pool) (S i)) as [Hlen Hsub].
    { rewrite length_delete by eauto. lia. }
    split; [simpl; by rewrite Hlen|].
    etransitivity; [apply submseteq_skip, Hsub|].
    apply Permutation_submseteq. symmetry. by apply delete_Permutation.
Qed.

(** Only the random naturals from position [i] on are consumed. *)
Lemma draw_distinct_ext (pool : list Z) (k : nat) (raw raw' : nat -> nat)
    (i : nat) :
  (forall n, (i <= n)%nat -> raw n = raw' n) ->
  PredictAdaptive.draw_distinct pool k raw i
  = PredictAdaptive.draw_distinct pool k raw' i.
Proof.
  revert pool i. induction k as [|k IH]; intros pool i Hraw; simpl; [done|].
  rewrite <- (Hraw i) by lia.
  destruct (pool !! _); [|done]. f_equal. apply IH. intros n Hn. apply Hraw. lia.
Qed.

(** The model of [random.sample] leaves no selection out: every list of
    elements taken from distinct positions of the pool, in any order, is
    drawn for some supply of random naturals. *)
Lemma draw_distinct_complete (target pool : list Z) (i : nat) :
  target ⊆+ pool ->
  exists raw, PredictAdaptive.draw_distinct pool (length target) raw i = target.
Proof.
  revert pool i. induction target as [|x target IH]; intros pool i Hsub.
  - by exists (fun _ => 0%nat).
  - apply submseteq_cons_l in Hsub as (k' & Hk' & Hsub).
    assert (x ∈ pool) as Hx by (rewrite Hk'; by left).
    apply list_elem_of_lookup in Hx as [j Hj].
    assert (target ⊆+ delete j pool) as Hsub'.
    { etransitivity; [exact Hsub|]. apply Permutation_submseteq.
      apply (Permutation_cons_inv (a := x)).
      rewrite <- Hk'. by apply delete_Permutation. }
    destruct (IH (delete j pool) (S i) Hsub') as [raw' Hraw'].
    exists (fun n => if decide (n = i) then j else raw' n). simpl.
    rewrite decide_True by done.
    rewrite Nat.mod_small by (by eapply lookup_lt_Some).
    rewrite Hj. f_equal. etransitivity; [|exact Hraw'].
    apply draw_distinct_ext.
    intros n Hn. rewrite decide_False by lia. done.
Qed.

Lemma random_sample_spec (pool : list Z) (raw : nat -> nat) :
  (6 <= length pool)%nat ->
  exists selected,
    PredictAdaptive.random_sample pool 6 raw = Ok selected
    /\ length selected = 6%nat
    /\ selected ⊆+ pool.
Proof.
  intros Hp. unfold PredictAdaptive.random_sample.
  destruct (Nat.ltb_spec (length pool) 6); [lia|].
  eexists. split; [done|]. by apply draw_distinct_spec.
Qed.

(** A loop whose body keeps an invariant and lowers a measure returns once
    the fuel exceeds the measure. *)
Lemma while_returns {S} (Inv : S -> Prop) (measure : S -> nat)
    (cond : S -> bool) (body : S -> result S) :
  (forall s, Inv s -> cond s = true ->
     exists s', body s = Ok s' /\ Inv s' /\ (measure s' < measure s)%nat) ->
  forall fuel s,
    Inv s -> (measure s < fuel)%nat ->
    exists s',
      PredictAdaptive.while fuel cond body s = Some (Ok s')
      /\ Inv s' /\ cond s' = false.
Proof.
  intros Hbody. induction fuel as [|fuel IH]; intros s Hs Hm; [lia|].
  simpl. destruct (cond s) eqn:Hc.
  - destruct (Hbody s Hs Hc) as (s1 & -> & Hs1 & Hm1).
    apply IH; [done|lia].
  - by exists s.
Qed.

Section GeneratorFacts.

Import PredictAdaptive.

Variable calculate_number_score : Z -> Q.
Variable rng : nat -> nat -> nat.
Variable pool : list Z.
Variable num_predictions : Z.
Hypothesis pool_size : (6 <= length pool)%nat.

Lemma sampling_inv_init :
  sampling_inv pool num_predictions {| predictions := []; attempts := 0 |}.
Proof. split; simpl; try lia; try done; constructor. Qed.

Lemma sampling_body_inv (st : sampling) :
  sampling_inv pool num_predictions st ->
  sampling_cond num_predictions (num_predictions * 100) st = true ->
  exists st',
    sampling_body rng pool st = Ok st'
    /\ sampling_inv pool num_predictions st'
    /\ (Z.to_nat (num_predictions * 100 - attempts st')
        < Z.to_nat (num_predictions * 100 - attempts st))%nat.
Proof.
  intros [Ha Hc Hs Hu Hst] Hcond.
  unfold sampling_cond in Hcond.
  apply andb_true_iff in Hcond as [Hlt1 Hlt2].
  apply Z.ltb_lt in Hlt1, Hlt2.
  unfold sampling_body.
  destruct (random_sample_spec pool (rng (Z.to_nat (attempts st))) pool_size)
    as (selected & -> & Hlen & Hsub).
  cbn [bind].
  set (dup := existsb
                (fun existing => bool_decide (Py.set selected = Py.set existing.1))
                (predictions st)).
  eexists. split; [reflexivity|]. split; [|simpl; lia].
  destruct dup eqn:Hdup; split; cbn [predictions attempts].
  - lia.
  - done.
  - done.
  - done.
  - intros _ Hnil. unfold dup in Hdup. by rewrite Hnil in Hdup.
  - lia.
  - rewrite length_app. simpl. lia.
  - apply Forall_app. split; [done|]. by repeat constructor.
  - rewrite fmap_app. apply NoDup_app. split; [done|].
    split; [|apply NoDup_singleton].
    intros X HX Hsel. apply list_elem_of_singleton in Hsel as ->.
    apply list_elem_of_fmap in HX as (c & Hc1 & Hc2).
    assert (dup = true) as Hex; [|congruence].
    apply existsb_exists. exists c. split; [by apply list_elem_of_In|].
    by apply bool_decide_eq_true.
  - intros _. by destruct (predictions st).
Qed.

Lemma sampling_loop_returns (fuel : nat) :
  (Z.to_nat (num_predictions * 100) < fuel)%nat ->
  exists st,
    sampling_loop rng fuel pool num_predictions = Some (Ok st)
    /\ sampling_inv pool num_predictions st
    /\ sampling_cond num_predictions (num_predictions * 100) st = false.
Proof.
  intros Hfuel. unfold sampling_loop.
  apply (while_returns (sampling_inv pool num_predictions)
           (fun st => Z.to_nat (num_predictions * 100 - attempts st))).
  - apply sampling_body_inv.
  - apply sampling_inv_init.
  - simpl. by rewrite Z.sub_0_r.
Qed.

End GeneratorFacts.

Lemma fmap_fst_pair {A B} (f : A -> B) (l : list A) :
  ((fun x => (x, f x)) <$> l).*1 = l.
Proof.
  rewrite <- list_fmap_compose.
  etransitivity; [|apply list_fmap_id]. by apply list_fmap_ext.
Qed.

Lemma candidates_sublist (score : Z -> Q) (num_candidates : Z) :
  exists ranking,
    ranking ≡ₚ Py.range 1 50
    /\ PredictAdaptive.candidates score num_candidates `sublist_of` ranking.
Proof.
  unfold PredictAdaptive.candidates.
  set (items := (fun num => (num, score num)) <$> Py.range 1 50).
  exists (fst <$> Py.sorted_desc snd items). split.
  - rewrite sorted_desc_Permutation. unfold items.
    by rewrite fmap_fst_pair.
  - apply fmap_sublist, slice_to_sublist.
Qed.

Lemma candidates_NoDup (score : Z -> Q) (num_candidates : Z) :
  NoDup (PredictAdaptive.candidates score num_candidates).
Proof.
  destruct (candidates_sublist score num_candidates) as (r & Hr & Hsub).
  eapply sublist_NoDup; [|exact Hsub]. rewrite Hr. apply NoDup_seqZ.
Qed.

Lemma candidates_range (score : Z -> Q) (num_candidates n : Z) :
  n ∈ PredictAdaptive.candidates score num_candidates -> 1 <= n <= 49.
Proof.
  destruct (candidates_sublist score num_candidates) as (r & Hr & Hsub).
  intros Hn. eapply elem_of_submseteq in Hn; [|by apply sublist_submseteq].
  rewrite Hr in Hn. apply elem_of_seqZ in Hn. lia.
Qed.

Lemma slice_to_all {A} (n : Z) (l : list A) :
  Z.of_nat (length l) <= Z.max 0 n -> Py.slice_to n l = l.
Proof.
  intros Hl. unfold Py.slice_to. destruct (Z.leb_spec 0 n).
  - apply take_ge. lia.
  - destruct l; [done|]. simpl in Hl. lia.
Qed.

Lemma NoDup_constant {A} (x : A) (l : list A) :
  NoDup l -> Forall (fun y => y = x) l -> (length l <= 1)%nat.
Proof.
  intros Hnd Hall. destruct l as [|a [|b l]]; simpl; [lia|lia|].
  apply Forall_cons in Hall as [-> Hall].
  apply Forall_cons in Hall as [-> _].
  apply NoDup_cons in Hnd as [Hnd _]. exfalso. apply Hnd. by left.
Qed.

(** What [predict_numbers] returns, in terms of the state in which the
    sampling loop stops. *)
Lemma predict_numbers_returns (score : Z -> Q) (rng : nat -> nat -> nat)
    (fuel : nat) (num_candidates num_predictions : Z) :
  (6 <= length (PredictAdaptive.candidates score num_candidates))%nat ->
  (Z.to_nat (num_predictions * 100) < fuel)%nat ->
  exists st,
    PredictAdaptive.sampling_loop rng fuel
      (PredictAdaptive.candidates score num_candidates) num_predictions
    = Some (Ok st)
    /\ sampling_inv (PredictAdaptive.candidates score num_candidates)
         num_predictions st
    /\ PredictAdaptive.sampling_cond num_predictions (num_predictions * 100) st
       = false
    /\ PredictAdaptive.predict_numbers score rng fuel num_candidates
         num_predictions
       = Some (Ok (Py.sorted_desc snd (PredictAdaptive.predictions st))).
Proof.
  intros Hpool Hfuel.
  destruct (sampling_loop_returns rng _ num_predictions Hpool fuel Hfuel)
    as (st & Hloop & Hinv & Hcond).
  exists st. split; [done|]. split; [done|]. split; [done|].
  unfold PredictAdaptive.predict_numbers. rewrite Hloop.
  rewrite slice_to_all; [done|].
  rewrite (Permutation_length (sorted_desc_Permutation _ _)). by destruct Hinv.
Qed.

(** C6 as stated fails for a request of zero predictions: with a pool of
    exactly 6 numbers the generator returns no candidate, not one. *)
Lemma predict_numbers_zero_request_counterexample :
  length (PredictAdaptive.candidates flat_score 6) = 6%nat
  /\ PredictAdaptive.predict_numbers flat_score zero_rng 1 6 0 = Some (Ok []).
Proof. split; reflexivity. Qed.

(** C6 (amended). With a pool of at least 6 numbers the sampling loop
    stops after at most 100 k attempts (none for k <= 0) and
    [predict_numbers] returns, without raising, every combination accepted
    so far; when fewer than k were found the budget of 100 k attempts was
    used up. When the pool has exactly 6 numbers and k >= 1, the batch is a
    single candidate made of the whole pool; for k <= 0 it is empty. *)
Theorem predict_numbers_budget (score : Z -> Q) (rng : nat -> nat -> nat)
    (fuel : nat) (num_candidates num_predictions : Z) :
  (6 <= length (PredictAdaptive.candidates score num_candidates))%nat ->
  (Z.to_nat (num_predictions * 100) < fuel)%nat ->
  exists st batch,
    PredictAdaptive.sampling_loop rng fuel
      (PredictAdaptive.candidates score num_candidates) num_predictions
    = Some (Ok st)
    /\ 0 <= PredictAdaptive.attempts st <= Z.max 0 (num_predictions * 100)
    /\ PredictAdaptive.predict_numbers score rng fuel num_candidates
         num_predictions = Some (Ok batch)
    /\ batch ≡ₚ PredictAdaptive.predictions st
    /\ Z.of_nat (length batch) <= Z.max 0 num_predictions
    /\ (Z.of_nat (length batch) < num_predictions ->
        PredictAdaptive.attempts st = num_predictions * 100)
    /\ (length (PredictAdaptive.candidates score num_candidates) = 6%nat ->
        1 <= num_predictions ->
        exists selected combination_score,
          batch = [(selected, combination_score)]
          /\ selected ≡ₚ PredictAdaptive.candidates score num_candidates)
    /\ (num_predictions <= 0 -> batch = []).
Proof.
  intros Hpool Hfuel.
  destruct (predict_numbers_returns score rng fuel num_candidates
              num_predictions Hpool Hfuel) as (st & Hloop & Hinv & Hcond & Hret).
  set (pool := PredictAdaptive.candidates score num_candidates) in *.
  exists st, (Py.sorted_desc snd (PredictAdaptive.predictions st)).
  destruct Hinv as [Ha Hc Hs Hu Hst].
  pose proof (sorted_desc_Permutation snd (PredictAdaptive.predictions st)) as Hperm.
  split; [done|]. split; [done|]. split; [done|]. split; [done|].
  rewrite (Permutation_length Hperm). split; [done|].
  unfold PredictAdaptive.sampling_cond in Hcond.
  apply andb_false_iff in Hcond.
  split; [|split].
  - intros Hlt. destruct Hcond as [Hc1|Hc2].
    + apply Z.ltb_ge in Hc1. lia.
    + apply Z.ltb_ge in Hc2. lia.
  - intros Hsix Hk.
    assert (Hall : Forall (fun X => X = Py.set pool)
                     ((fun c => Py.set c.1) <$> PredictAdaptive.predictions st)).
    { apply Forall_fmap. eapply Forall_impl; [exact Hs|].
      intros c (Hsub & Hlen & _). simpl. unfold Py.set.
      apply list_to_set_perm_L.
      apply submseteq_length_Permutation; [done|lia]. }
    pose proof (NoDup_constant _ _ Hu Hall) as Hle. rewrite length_fmap in Hle.
    assert (PredictAdaptive.predictions st <> []) as Hne.
    { destruct Hcond as [Hc1|Hc2].
      - apply Z.ltb_ge in Hc1. intros Hnil. rewrite Hnil in Hc1. simpl in Hc1. lia.
      - apply Z.ltb_ge in Hc2. apply Hst. lia. }
    destruct (PredictAdaptive.predictions st) as [|[sel sc] [|? ?]] eqn:Hp;
      [done| |simpl in Hle; lia].
    exists sel, sc. split; [done|].
    apply Forall_cons in Hs as [(Hsub & Hlen & _) _]. simpl in *.
    apply submseteq_length_Permutation; [done|lia].
  - intros Hk. destruct (PredictAdaptive.predictions st); [done|].
    simpl in Hc. lia.
Qed.

Lemma predict_numbers_budget_witness :
  exists batch,
    PredictAdaptive.predict_numbers flat_score zero_rng 601 6 6 = Some (Ok batch)
    /\ (length batch <= 6)%nat.
Proof.
  destruct (predict_numbers_budget flat_score zero_rng 601 6 6)
    as (st & batch & _ & _ & Hret & _ & Hlen & _).
  - vm_compute. lia.
  - vm_compute. lia.
  - exists batch. split; [exact Hret|]. lia.
Defined.

Lemma StronglySorted_take {A} (R : A -> A -> Prop) (n : nat) (l : list A) :
  StronglySorted R l -> StronglySorted R (take n l).
Proof.
  intros Hl. revert n. induction Hl as [|x l Hl IH Hx]; intros [|n]; simpl;
    try constructor.
  - apply IH.
  - eapply Forall_forall. intros y Hy.
    eapply (proj1 (Forall_forall _ _) Hx).
    eapply elem_of_submseteq; [exact Hy|]. apply submseteq_take.
Qed.

Lemma StronglySorted_slice_to {A} (R : A -> A -> Prop) (n : Z) (l : list A) :
  StronglySorted R l -> StronglySorted R (Py.slice_to n l).
Proof.
  intros Hl. unfold Py.slice_to. destruct (0 <=? n); by apply StronglySorted_take.
Qed.

Lemma StronglySorted_lookup_lt {A} (R : A -> A -> Prop) (l : list A)
    (i j : nat) (x y : A) :
  StronglySorted R l -> (i < j)%nat ->
  l !! i = Some x -> l !! j = Some y -> R x y.
Proof.
  intros Hl. revert i j. induction Hl as [|a l Hl IH Ha]; intros i j Hij Hi Hj.
  - done.
  - destruct j as [|j]; [lia|]. destruct i as [|i]; simpl in *.
    + injection Hi as ->.
      eapply (proj1 (Forall_forall _ _) Ha). by eapply list_elem_of_lookup_2.
    + eapply (IH i j); [lia|done|done].
Qed.

(** C7. With a pool of at least 6 numbers and enough fuel for the attempt
    budget, [predict_numbers] returns a batch in which every candidate has
    exactly 6 pairwise distinct numbers, all in 1..49, paired with its
    combination score; no two candidates have the same number set; and the
    scores never increase along the batch. *)
Theorem predict_numbers_batch (score : Z -> Q) (rng : nat -> nat -> nat)
    (fuel : nat) (num_candidates num_predictions : Z) :
  (6 <= length (PredictAdaptive.candidates score num_candidates))%nat ->
  (Z.to_nat (num_predictions * 100) < fuel)%nat ->
  exists batch,
    PredictAdaptive.predict_numbers score rng fuel num_candidates
      num_predictions = Some (Ok batch)
    /\ Forall (fun c =>
                 length c.1 = 6%nat
                 /\ NoDup c.1
                 /\ Forall (fun n => 1 <= n <= 49) c.1
                 /\ c.2 = PredictAdaptive.calculate_combination_score c.1)
              batch
    /\ (forall i j ci cj,
          i <> j -> batch !! i = Some ci -> batch !! j = Some cj ->
          Py.set ci.1 <> Py.set cj.1)
    /\ (forall i j ci cj,
          (i <= j)%nat -> batch !! i = Some ci -> batch !! j = Some cj ->
          (cj.2 <= ci.2)%Q).
Proof.
  intros Hpool Hfuel.
  destruct (predict_numbers_returns score rng fuel num_candidates
              num_predictions Hpool Hfuel) as (st & _ & Hinv & _ & Hret).
  set (pool := PredictAdaptive.candidates score num_candidates) in *.
  set (batch := Py.sorted_desc snd (PredictAdaptive.predictions st)) in *.
  pose proof (sorted_desc_Permutation snd (PredictAdaptive.predictions st))
    as Hperm. fold batch in Hperm.
  destruct Hinv as [_ _ Hs Hu _].
  exists batch. split; [done|]. split; [|split].
  - rewrite Hperm. eapply Forall_impl; [exact Hs|].
    intros c (Hsub & Hlen & Hsc). split; [done|]. split; [|split; [|done]].
    + eapply submseteq_NoDup; [exact Hsub|]. apply candidates_NoDup.
    + apply Forall_forall. intros n Hn.
      eapply candidates_range, elem_of_submseteq; [exact Hn|exact Hsub].
  - intros i j ci cj Hij Hi Hj Heq. apply Hij.
    assert (NoDup ((fun c => Py.set c.1) <$> batch)) as Hnd by (by rewrite Hperm).
    eapply (NoDup_lookup _ i j (Py.set ci.1) Hnd).
    + by rewrite list_lookup_fmap, Hi.
    + by rewrite list_lookup_fmap, Hj, Heq.
  - intros i j ci cj Hij Hi Hj.
    destruct (decide (i = j)) as [->|Hne].
    + rewrite Hi in Hj. injection Hj as ->. apply Qle_refl.
    + eapply (StronglySorted_lookup_lt (fun a b => (b.2 <= a.2)%Q) batch i j);
        [apply sorted_desc_StronglySorted|lia|done|done].
Qed.

Lemma predict_numbers_batch_witness :
  exists batch,
    PredictAdaptive.predict_numbers flat_score zero_rng 601 20 6 = Some (Ok batch)
    /\ Forall (fun c => length c.1 = 6%nat) batch.
Proof.
  destruct (predict_numbers_batch flat_score zero_rng 601 20 6)
    as (batch & Hret & Hall & _).
  - vm_compute. lia.
  - vm_compute. lia.
  - exists batch. split; [exact Hret|].
    eapply Forall_impl; [exact Hall|]. intros c Hc. exact (proj1 Hc).
Defined.

(** ** Confidence *)

Lemma np_mean_six (l : list Q) :
  length l = 6%nat -> PredictAdaptive.np_mean l = Some (Py.sum l / 6)%Q.
Proof.
  intros Hl. unfold PredictAdaptive.np_mean.
  destruct l; [done|]. by rewrite Hl.
Qed.

(** C8 as stated fails on its bound: the confidence is not confined to
    [0, 100]. The per-number score is not scaled into [0, 1]: its first
    part, 1 - |appearances - expected| / expected, is negative for a number
    drawn more than twice as often as expected. On a history of the single
    draw 1, 2, 3, 4, 5, 6 with the default weights every drawn number
    scores -163/300, and the confidence of that combination, with its own
    combination score, is -3398/175, about -19.4. *)
Lemma confidence_below_0_counterexample :
  is_ok (FeaturesMore.get_hot_cold_numbers (fun x => x) one_draw (7 # 10))
  = true
  /\ is_ok (FeaturesMore.get_distribution_patterns one_draw) = true
  /\ is_ok (FeaturesAdjacent.get_adjacent_correlation one_draw) = true
  /\ Forall (fun number =>
               PredictAdaptiveMore.calculate_number_score (length one_draw)
                 one_draw_features Learn.default_weights number
               = Ok (one_draw_score number)
               /\ (one_draw_score number == - (163 # 300))%Q)
            [1; 2; 3; 4; 5; 6]
  /\ exists c,
       PredictAdaptive.calculate_confidence_score one_draw_score
         [1; 2; 3; 4; 5; 6]
         (PredictAdaptive.calculate_combination_score [1; 2; 3; 4; 5; 6])
       = Some c
       /\ (c == - (3398 # 175))%Q
       /\ ~ (0 <= c <= 100)%Q.
Proof.
  split; [by vm_compute|]. split; [by vm_compute|]. split; [by vm_compute|].
  split.
  - repeat (apply Forall_cons; split; [split; by vm_compute|]). constructor.
  - eexists. split; [vm_compute; reflexivity|]. split; [by vm_compute|].
    intros [Hle _]. by vm_compute in Hle.
Qed.

(** C8 (amended). For a 6-number candidate the confidence is
    100 (0.6 m + 0.4 s), with m the mean of the six per-number scores and s
    the combination score. For fixed per-number scores it grows with the
    combination score. It lies in [0, 100] when m and s both lie in
    [0, 1]. *)
Theorem calculate_confidence_score_formula (score : Z -> Q)
    (numbers : list Z) (combination_score : Q) :
  length numbers = 6%nat ->
  let mean := (Py.sum (score <$> numbers) / 6)%Q in
  exists c,
    PredictAdaptive.calculate_confidence_score score numbers combination_score
    = Some c
    /\ (c == 100 * ((6 # 10) * mean + (4 # 10) * combination_score))%Q
    /\ (forall combination_score' c',
          PredictAdaptive.calculate_confidence_score score numbers
            combination_score' = Some c' ->
          ((combination_score <= combination_score' -> c <= c')
           /\ (combination_score < combination_score' -> c < c'))%Q)
    /\ ((0 <= mean <= 1)%Q -> (0 <= combination_score <= 1)%Q ->
        (0 <= c <= 100)%Q).
Proof.
  intros Hlen mean.
  unfold PredictAdaptive.calculate_confidence_score.
  rewrite np_mean_six by (by rewrite length_fmap). fold mean.
  eexists. split; [reflexivity|]. split; [ring|]. split.
  - intros s' c' [= <-]. split; intros Hs; lra.
  - intros [? ?] [? ?]. split; lra.
Qed.

Lemma calculate_confidence_score_formula_witness :
  exists c,
    PredictAdaptive.calculate_confidence_score half_score [1; 2; 3; 4; 5; 6]
      (8 # 10) = Some c
    /\ (c == 62)%Q.
Proof.
  destruct (calculate_confidence_score_formula half_score [1; 2; 3; 4; 5; 6]
              (8 # 10)) as (c & Heq & Hc & _).
  - reflexivity.
  - exists c. split; [exact Heq|]. rewrite Hc. vm_compute. reflexivity.
Defined.

(** ** Sample runs *)

Example combination_score_low_run :
  Qeq (PredictAdaptive.calculate_combination_score [1; 2; 3; 4; 5; 6])
      (2307 # 7000).
Proof. by vm_compute. Qed.

Example combination_score_spread :
  Qeq (PredictAdaptive.calculate_combination_score [3; 14; 22; 25; 36; 47])
      (47 # 60).
Proof. by vm_compute. Qed.

Example combination_score_wrong_size :
  PredictAdaptive.calculate_combination_score [1; 2; 3; 4; 5] = 0%Q.
Proof. reflexivity. Qed.

Example missing_intervals_three_draws :
  let data :=
    [ Features.draw "2023-08-24" 7 1 2 3 4 5;
      Features.draw "2023-08-31" 8 1 2 3 4 5;
      Features.draw "2023-09-07" 9 7 2 3 4 5 ] in
  Features.get_missing_intervals data !! 7 = Some 2
  /\ Features.get_missing_intervals data !! 8 = Some 1
  /\ Features.get_missing_intervals data !! 9 = Some 0
  /\ Features.get_missing_intervals data !! 10 = Some 3
  /\ Features.get_missing_intervals data !! 50 = None.
Proof. by vm_compute. Qed.

Example odd_even_ratio_one_draw :
  exists r,
    Features.get_odd_even_ratio [Features.draw "2023-09-07" 7 1 2 3 4 5] = Ok r
    /\ (r == 4 # 6)%Q.
Proof. eexists. split; [vm_compute; reflexivity|by vm_compute]. Qed.

Example small_adjustment_run :
  exists s',
    Learn.apply_weight_adjustments
      [("hot_cold", 1 # 10); ("missing_intervals", - (1 # 20))]%Q
      Learn.fresh_learner = Ok s'
    /\ Qred <$> Learn.values (Learn.weights s')
       = [ 1 # 7; 4 # 21; 2 # 21; 4 # 21; 2 # 21; 8 # 105; 8 # 105; 1 # 21;
           1 # 21; 4 # 105 ]%Q
    /\ (fun m => match m with
                  | Learn.WeightChanged feature_name _ _ _ => Some feature_name
                  | _ => None
                  end) <$> Learn.console s'
       = [None; Some "hot_cold"; Some "missing_intervals"; None].
Proof. eexists. split; [vm_compute; reflexivity|]. split; by vm_compute. Qed.

Example unknown_feature_raises :
  Learn.apply_weight_adjustments [("sum_control", 1 # 10)]%Q Learn.fresh_learner
  = Raise KeyError.
Proof. reflexivity. Qed.

(** * Further properties *)

(** ** The evaluator: stored results, annotations, histogram *)

Lemma loop_annotates (actual_sorted : list Z) (ps : list (list Z * Q))
    (i : nat) (st st' : Evaluate.loop_state) :
  Evaluate.loop actual_sorted i ps st = Ok st' ->
  Evaluate.acc_predictions st'
  = Evaluate.acc_predictions st
    ++ imap (fun j p => annotate actual_sorted (i + j) p) ps.
Proof.
  revert i st. induction ps as [|p ps IH]; intros i st; simpl.
  - intros [= <-]. by rewrite app_nil_r.
  - unfold Evaluate.loop_body at 1.
    destruct (Evaluate.acc_distribution st !! _) as [c|]; [|done]. simpl.
    intros Hrun. rewrite (IH _ _ Hrun). simpl. rewrite <- app_assoc. simpl.
    f_equal. rewrite Nat.add_0_r. f_equal.
    apply imap_ext. intros j q _. simpl. f_equal. lia.
Qed.

Lemma loop_raises_KeyError_only (actual_sorted : list Z)
    (ps : list (list Z * Q)) (i : nat) (st : Evaluate.loop_state) (e : exn) :
  Evaluate.loop actual_sorted i ps st = Raise e -> e = KeyError.
Proof.
  revert i st. induction ps as [|p ps IH]; intros i st; simpl; [done|].
  unfold Evaluate.loop_body at 1.
  destruct (Evaluate.acc_distribution st !! _) as [c|]; simpl.
  - apply IH.
  - by intros [= <-].
Qed.

Lemma evaluate_predictions_Ok (ev : Evaluate.evaluator) (date : string)
    (preds : list (list Z * Q)) (actual : list Z) :
  preds <> [] ->
  (length actual <= 6)%nat ->
  exists st avg,
    Evaluate.loop (Py.sorted actual) 0 preds Evaluate.loop_init = Ok st
    /\ Evaluate.evaluate_predictions ev date preds actual
       = Ok ({| Evaluate.draw_date := date;
                Evaluate.actual_result := Py.sorted actual;
                Evaluate.total_predictions := length preds;
                Evaluate.predictions := Evaluate.acc_predictions st;
                Evaluate.summary :=
                  {| Evaluate.best_hit_count := Evaluate.best_hits st;
                     Evaluate.best_prediction_index := Evaluate.best_index st + 1;
                     Evaluate.average_hit_count := avg;
                     Evaluate.hit_distribution := Evaluate.acc_distribution st |} |},
             Evaluate.save_evaluation_results
               {| Evaluate.results :=
                    <[date := {| Evaluate.draw_date := date;
                Evaluate.actual_result := Py.sorted actual;
                Evaluate.total_predictions := length preds;
                Evaluate.predictions := Evaluate.acc_predictions st;
                Evaluate.summary :=
                  {| Evaluate.best_hit_count := Evaluate.best_hits st;
                     Evaluate.best_prediction_index := Evaluate.best_index st + 1;
                     Evaluate.average_hit_count := avg;
                     Evaluate.hit_distribution := Evaluate.acc_distribution st |} |}]>
                      (Evaluate.results ev);
                  Evaluate.evaluation_file := Evaluate.evaluation_file ev |}).
Proof.
  intros Hne Hlen.
  destruct (loop_inv_run (Py.sorted actual) preds [] Evaluate.loop_init
              (loop_inv_init _)) as (st & Hrun & _).
  { apply Forall_forall. intros p _.
    etransitivity; [apply hits_of_le|done]. }
  simpl in Hrun. exists st.
  unfold Evaluate.evaluate_predictions. rewrite Hrun. simpl.
  rewrite truediv_nonzero by (destruct preds; [done|simpl; lia]).
  simpl. by eexists.
Qed.

(** X1. A successful evaluation is stored under its draw date, replacing
    whatever was stored for that date, written to the evaluation file, and
    leaves the results of all other dates as they were. *)
Theorem evaluate_predictions_stores (ev : Evaluate.evaluator) (date : string)
    (preds : list (list Z * Q)) (actual : list Z) :
  preds <> [] ->
  (length actual <= 6)%nat ->
  exists e ev',
    Evaluate.evaluate_predictions ev date preds actual = Ok (e, ev')
    /\ Evaluate.results ev' !! date = Some e
    /\ Evaluate.evaluation_file ev' = Evaluate.results ev'
    /\ (forall d, d <> date ->
          Evaluate.results ev' !! d = Evaluate.results ev !! d)
    /\ Evaluate.draw_date e = date
    /\ Evaluate.total_predictions e = length preds
    /\ Evaluate.actual_result e ≡ₚ actual
    /\ StronglySorted Z.le (Evaluate.actual_result e).
Proof.
  intros Hne Hlen.
  destruct (evaluate_predictions_Ok ev date preds actual Hne Hlen)
    as (st & avg & _ & ->).
  eexists _, _. split; [reflexivity|]. simpl.
  split; [by rewrite lookup_insert_eq|]. split; [done|].
  split; [by intros d Hd; rewrite lookup_insert_ne|].
  split; [done|]. split; [done|]. split; [apply sorted_Permutation|].
  eapply StronglySorted_weaken; [|apply sort_by_StronglySorted].
  - intros a b. apply Z.leb_le.
  - intros x y. rewrite !Z.leb_le. lia.
  - intros x y z. rewrite !Z.leb_le. lia.
Qed.

Lemma evaluate_predictions_stores_witness :
  exists e ev',
    Evaluate.evaluate_predictions Evaluate.empty_evaluator "2023-09-07"
      [([12; 7; 30; 41; 2; 19], 50%Q)] [7; 12; 19; 23; 30; 44] = Ok (e, ev')
    /\ Evaluate.results ev' !! "2023-09-07" = Some e.
Proof.
  destruct (evaluate_predictions_stores Evaluate.empty_evaluator "2023-09-07"
              [([12; 7; 30; 41; 2; 19], 50%Q)] [7; 12; 19; 23; 30; 44])
    as (e & ev' & Heq & Hres & _).
  - discriminate.
  - simpl. lia.
  - exists e, ev'. split; [exact Heq|exact Hres].
Defined.

Lemma size_inter_diff (A B : gset Z) :
  (size (A ∩ B) + size (B ∖ A) = size B)%nat.
Proof.
  rewrite <- size_union.
  - f_equal. apply set_eq. intros x.
    rewrite elem_of_union, elem_of_intersection, elem_of_difference.
    destruct (decide (x ∈ A)); tauto.
  - intros x. rewrite elem_of_intersection, elem_of_difference. tauto.
Qed.

(** X2. Every prediction of the batch gets one annotated entry, in input
    order: its 1-based index, its numbers sorted ascending, its score, the
    hit, missed and extra numbers as the intersection and the two
    differences of the number sets, and a hit count that is the size of the
    hit set; hits plus misses are the distinct numbers of the outcome. *)
Theorem evaluate_predictions_annotations (ev : Evaluate.evaluator)
    (date : string) (preds : list (list Z * Q)) (actual : list Z) :
  preds <> [] ->
  (length actual <= 6)%nat ->
  exists e ev',
    Evaluate.evaluate_predictions ev date preds actual = Ok (e, ev')
    /\ length (Evaluate.predictions e) = length preds
    /\ forall i numbers score,
         preds !! i = Some (numbers, score) ->
         exists pe,
           Evaluate.predictions e !! i = Some pe
           /\ Evaluate.index pe = Z.of_nat i + 1
           /\ Evaluate.predicted_numbers pe ≡ₚ numbers
           /\ StronglySorted Z.le (Evaluate.predicted_numbers pe)
           /\ Evaluate.confidence_score pe = score
           /\ Evaluate.hit_numbers pe = Py.set numbers ∩ Py.set actual
           /\ Evaluate.missed_numbers pe = Py.set actual ∖ Py.set numbers
           /\ Evaluate.extra_numbers pe = Py.set numbers ∖ Py.set actual
           /\ Evaluate.hit_count pe = size (Evaluate.hit_numbers pe)
           /\ (Evaluate.hit_count pe + size (Evaluate.missed_numbers pe)
               = size (Py.set actual))%nat.
Proof.
  intros Hne Hlen.
  destruct (evaluate_predictions_Ok ev date preds actual Hne Hlen)
    as (st & avg & Hrun & ->).
  eexists _, _. split; [reflexivity|]. simpl.
  rewrite (loop_annotates _ _ _ _ _ Hrun). simpl.
  split; [by rewrite length_imap|].
  intros i numbers score Hi. eexists. split.
  { rewrite list_lookup_imap, Hi. reflexivity. }
  simpl. rewrite !set_sorted.
  split; [done|]. split; [apply sorted_Permutation|]. split.
  { eapply StronglySorted_weaken; [|apply sort_by_StronglySorted].
    - intros a b. apply Z.leb_le.
    - intros x y. rewrite !Z.leb_le. lia.
    - intros x y z. rewrite !Z.leb_le. lia. }
  split; [done|]. split; [done|]. split; [done|]. split; [done|].
  split; [apply hits_of_sorted|].
  rewrite hits_of_sorted.
  apply size_inter_diff.
Qed.

Lemma evaluate_predictions_annotations_witness :
  exists e ev',
    Evaluate.evaluate_predictions Evaluate.empty_evaluator "2023-09-07"
      [([12; 7; 30; 41; 2; 19], 50%Q)] [7; 12; 19; 23; 30; 44] = Ok (e, ev')
    /\ length (Evaluate.predictions e) = 1%nat.
Proof.
  destruct (evaluate_predictions_annotations Evaluate.empty_evaluator
              "2023-09-07"
              [([12; 7; 30; 41; 2; 19], 50%Q)] [7; 12; 19; 23; 30; 44])
    as (e & ev' & Heq & Hlen & _).
  - discriminate.
  - simpl. lia.
  - exists e, ev'. split; [exact Heq|exact Hlen].
Defined.

Lemma count_hits_snoc (h x : nat) (hs : list nat) :
  count_hits h (hs ++ [x])
  = (count_hits h hs + if Nat.eqb h x then 1 else 0)%nat.
Proof.
  unfold count_hits. rewrite List.filter_app, length_app. simpl.
  by destruct (Nat.eqb h x).
Qed.

Lemma count_hits_cons (h x : nat) (hs : list nat) :
  count_hits h (x :: hs)
  = ((if Nat.eqb h x then 1 else 0) + count_hits h hs)%nat.
Proof. unfold count_hits. simpl. by destruct (Nat.eqb h x). Qed.

Lemma count_hits_total (n : nat) (hs : list nat) :
  Forall (fun x => x < n)%nat hs ->
  sum_list ((fun h => count_hits h hs) <$> seq 0 n) = length hs.
Proof.
  induction 1 as [|x hs Hx _ IH].
  - unfold count_hits. simpl. rewrite sum_list_fmap_const. lia.
  - simpl length. rewrite <- IH. clear IH.
    assert (Hgen : forall m k,
      sum_list ((fun h => count_hits h (x :: hs)) <$> seq k m)
      = ((if bool_decide (k <= x /\ x < k + m)%nat then 1 else 0)
         + sum_list ((fun h => count_hits h hs) <$> seq k m))%nat).
    { induction m as [|m IHm]; intros k.
      - simpl. rewrite bool_decide_false by lia. done.
      - cbn [seq fmap list_fmap sum_list sum_list_with].
        change (list_fmap nat nat ?f ?l) with (f <$> l).
        rewrite IHm, count_hits_cons.
        unfold id.
        destruct (Nat.eqb_spec k x); repeat case_bool_decide; lia. }
    rewrite Hgen. rewrite bool_decide_true by lia. done.
Qed.

Lemma empty_distribution_lookup (h : nat) :
  Evaluate.empty_distribution !! h = if (h <=? 6)%nat then Some 0%nat else None.
Proof.
  do 7 (destruct h as [|h]; [done|]).
  simpl. apply not_elem_of_list_to_map. simpl.
  rewrite !elem_of_cons, elem_of_nil. lia.
Qed.

(** The histogram after the loop counts the hit counts seen so far. *)
Lemma loop_distribution (actual_sorted : list Z) (ps : list (list Z * Q))
    (i : nat) (st st' : Evaluate.loop_state) :
  Evaluate.loop actual_sorted i ps st = Ok st' ->
  (forall h,
     Evaluate.acc_distribution st !! h
     = if (h <=? 6)%nat
       then Some (count_hits h (Evaluate.hit_count <$> Evaluate.acc_predictions st))
       else None) ->
  Forall (fun h => h < 7)%nat (Evaluate.hit_count <$> Evaluate.acc_predictions st) ->
  (forall h,
     Evaluate.acc_distribution st' !! h
     = if (h <=? 6)%nat
       then Some (count_hits h (Evaluate.hit_count <$> Evaluate.acc_predictions st'))
       else None)
  /\ Forall (fun h => h < 7)%nat
            (Evaluate.hit_count <$> Evaluate.acc_predictions st').
Proof.
  revert i st. induction ps as [|p ps IH]; intros i st; simpl.
  - intros [= <-]. done.
  - unfold Evaluate.loop_body at 1.
    set (hits := Evaluate.hits_of p.1 actual_sorted).
    destruct (Evaluate.acc_distribution st !! hits) as [c|] eqn:Hc; [|done].
    simpl. intros Hrun Hdist Hall.
    rewrite Hdist in Hc.
    destruct (Nat.leb_spec hits 6) as [Hle|]; [|done]. injection Hc as <-.
    apply (IH _ _ Hrun); simpl.
    + intros h. rewrite fmap_snoc, count_hits_snoc. simpl.
      destruct (Nat.eqb_spec h hits) as [->|Hne].
      * rewrite lookup_insert_eq.
        destruct (Nat.leb_spec hits 6); [|lia]. f_equal. lia.
      * rewrite lookup_insert_ne by done. rewrite Hdist.
        destruct (h <=? 6)%nat; [|done]. f_equal. lia.
    + rewrite fmap_snoc. apply Forall_app. split; [done|].
      constructor; [simpl; lia|done].
Qed.

(** X3. The hit distribution of a returned evaluation has exactly the
    keys 0..6; the entry under [h] is the number of predictions with [h]
    hits, and the seven entries add up to the number of predictions. *)
Theorem evaluate_predictions_histogram (ev : Evaluate.evaluator)
    (date : string) (preds : list (list Z * Q)) (actual : list Z) :
  preds <> [] ->
  (length actual <= 6)%nat ->
  exists e ev',
    Evaluate.evaluate_predictions ev date preds actual = Ok (e, ev')
    /\ (forall h,
          Evaluate.hit_distribution (Evaluate.summary e) !! h
          = if (h <=? 6)%nat
            then Some (count_hits h
                         (Evaluate.hit_count <$> Evaluate.predictions e))
            else None)
    /\ sum_list ((fun h =>
                    default 0%nat
                      (Evaluate.hit_distribution (Evaluate.summary e) !! h))
                   <$> seq 0 7)
       = length preds.
Proof.
  intros Hne Hlen.
  destruct (evaluate_predictions_Ok ev date preds actual Hne Hlen)
    as (st & avg & Hrun & ->).
  eexists _, _. split; [reflexivity|]. simpl.
  destruct (loop_distribution _ _ _ _ _ Hrun) as [Hdist Hall].
  { intros h. rewrite empty_distribution_lookup. by destruct (h <=? 6)%nat. }
  { constructor. }
  split; [done|].
  pose proof (loop_annotates _ _ _ _ _ Hrun) as Hacc. simpl in Hacc.
  assert (length preds = length (Evaluate.hit_count <$> Evaluate.acc_predictions st))
    as -> by (by rewrite length_fmap, Hacc, length_imap).
  rewrite <- (count_hits_total 7) by done.
  rewrite !Hdist. reflexivity.
Qed.

Lemma evaluate_predictions_histogram_witness :
  exists e ev',
    Evaluate.evaluate_predictions Evaluate.empty_evaluator "2023-09-07"
      [([12; 7; 30; 41; 2; 19], 50%Q); ([1; 2; 3; 4; 5; 6], 40%Q)]
      [7; 12; 19; 23; 30; 44] = Ok (e, ev')
    /\ Evaluate.hit_distribution (Evaluate.summary e) !! 4%nat = Some 1%nat.
Proof.
  destruct (evaluate_predictions_histogram Evaluate.empty_evaluator
              "2023-09-07"
              [([12; 7; 30; 41; 2; 19], 50%Q); ([1; 2; 3; 4; 5; 6], 40%Q)]
              [7; 12; 19; 23; 30; 44])
    as (e & ev' & Heq & Hdist & _).
  - discriminate.
  - simpl. lia.
  - exists e, ev'. split; [exact Heq|].
    rewrite Hdist. vm_compute in Heq. injection Heq as <- _. reflexivity.
Defined.

Lemma loop_KeyError (actual_sorted : list Z) (ps : list (list Z * Q))
    (i : nat) (st : Evaluate.loop_state) :
  (forall h, (6 < h)%nat -> Evaluate.acc_distribution st !! h = None) ->
  Exists (fun p => 6 < Evaluate.hits_of p.1 actual_sorted)%nat ps ->
  Evaluate.loop actual_sorted i ps st = Raise KeyError.
Proof.
  intros Hdist Hex. revert i st Hdist.
  induction ps as [|p ps IH]; intros i st Hdist; [by apply Exists_nil in Hex|].
  simpl. unfold Evaluate.loop_body at 1.
  destruct (Evaluate.acc_distribution st !! _) as [c|] eqn:Hc; [|done].
  simpl. apply Exists_cons in Hex as [Hp|Hex].
  - by rewrite (Hdist _ Hp) in Hc.
  - apply IH; [done|]. simpl. intros h Hh.
    rewrite lookup_insert_ne; [by apply Hdist|].
    intros <-. by rewrite (Hdist _ Hh) in Hc.
Qed.

(** X4. The histogram only has room for 0..6 hits: when some prediction
    shares more than six distinct numbers with the outcome, the evaluation
    raises [KeyError] and nothing is stored. *)
Theorem evaluate_predictions_KeyError (ev : Evaluate.evaluator) (date : string)
    (preds : list (list Z * Q)) (actual : list Z) :
  Exists (fun p => 6 < size (Py.set p.1 ∩ Py.set actual))%nat preds ->
  Evaluate.evaluate_predictions ev date preds actual = Raise KeyError.
Proof.
  intros Hex. unfold Evaluate.evaluate_predictions.
  rewrite (loop_KeyError (Py.sorted actual) preds 0 Evaluate.loop_init); [done| |].
  - intros h Hh. simpl. rewrite empty_distribution_lookup.
    destruct (Nat.leb_spec h 6); [lia|done].
  - eapply Exists_impl; [exact Hex|]. intros p Hp. by rewrite hits_of_sorted.
Qed.

Lemma evaluate_predictions_KeyError_witness :
  Evaluate.evaluate_predictions Evaluate.empty_evaluator "2023-09-07"
    [([1; 2; 3; 4; 5; 6; 7], 50%Q)] [1; 2; 3; 4; 5; 6; 7] = Raise KeyError.
Proof.
  apply evaluate_predictions_KeyError.
  apply Exists_cons_hd. vm_compute. lia.
Defined.

(** *** Performance trends *)

Lemma foldr_min_snoc (b m : nat) (l : list nat) :
  foldr Nat.min m (l ++ [b]) = Nat.min (foldr Nat.min m l) b.
Proof. induction l as [|x l IH]; simpl; [lia|]. rewrite IH. lia. Qed.

Lemma foldr_min_le (m : nat) (l : list nat) : (foldr Nat.min m l <= m)%nat.
Proof. induction l as [|x l IH]; simpl; lia. Qed.

Lemma sum_snoc (l : list Q) (x : Q) : (Py.sum (l ++ [x]) == Py.sum l + x)%Q.
Proof.
  induction l as [|y l IH]; simpl; [ring|]. rewrite IH. ring.
Qed.

Lemma trend_fold (items : list (string * Evaluate.evaluation)) :
  let bests :=
    (fun it => Evaluate.best_hit_count (Evaluate.summary it.2)) <$> items in
  let st :=
    foldl EvaluateMore.trend_step
      {| EvaluateMore.total_best_hits := 0;
         EvaluateMore.total_average_hits := 0;
         EvaluateMore.best_so_far :=
           {| EvaluateMore.date := ""; EvaluateMore.hits := 0 |};
         EvaluateMore.worst_so_far :=
           {| EvaluateMore.date := ""; EvaluateMore.hits := 6 |} |}
      items in
  EvaluateMore.total_best_hits st = sum_list bests
  /\ (EvaluateMore.total_average_hits st
      == Py.sum ((fun it => Evaluate.average_hit_count (Evaluate.summary it.2))
                   <$> items))%Q
  /\ EvaluateMore.hits (EvaluateMore.best_so_far st) = max_list bests
  /\ EvaluateMore.hits (EvaluateMore.worst_so_far st) = foldr Nat.min 6%nat bests
  /\ (if decide (EvaluateMore.hits (EvaluateMore.best_so_far st) = 0%nat)
      then EvaluateMore.date (EvaluateMore.best_so_far st) = ""
      else exists ev,
             (EvaluateMore.date (EvaluateMore.best_so_far st), ev) ∈ items
             /\ Evaluate.best_hit_count (Evaluate.summary ev)
                = EvaluateMore.hits (EvaluateMore.best_so_far st))
  /\ (if decide (EvaluateMore.hits (EvaluateMore.worst_so_far st) = 6%nat)
      then EvaluateMore.date (EvaluateMore.worst_so_far st) = ""
      else exists ev,
             (EvaluateMore.date (EvaluateMore.worst_so_far st), ev) ∈ items
             /\ Evaluate.best_hit_count (Evaluate.summary ev)
                = EvaluateMore.hits (EvaluateMore.worst_so_far st)).
Proof.
  induction items as [|[d ev] items IH] using rev_ind.
  - simpl. repeat split; reflexivity.
  - cbv zeta in *. rewrite foldl_snoc, !fmap_snoc.
    destruct IH as (Ht & Ha & Hb & Hw & Hbd & Hwd).
    set (st := foldl EvaluateMore.trend_step _ items) in *.
    unfold EvaluateMore.trend_step at 1. simpl.
    set (b := Evaluate.best_hit_count (Evaluate.summary ev)).
    split; [rewrite sum_list_snoc; lia|].
    split.
    { rewrite Ha, sum_snoc. reflexivity. }
    split.
    { rewrite max_list_snoc. destruct (Nat.ltb_spec
        (EvaluateMore.hits (EvaluateMore.best_so_far st)) b); simpl; lia. }
    split.
    { rewrite foldr_min_snoc. destruct (Nat.ltb_spec b
        (EvaluateMore.hits (EvaluateMore.worst_so_far st))); simpl; lia. }
    split.
    + destruct (Nat.ltb_spec (EvaluateMore.hits (EvaluateMore.best_so_far st)) b);
        simpl.
      * destruct (decide (b = 0%nat)); [lia|].
        exists ev. split; [|done]. apply elem_of_app. right. by left.
      * destruct (decide (EvaluateMore.hits (EvaluateMore.best_so_far st) = 0%nat));
          [done|].
        destruct Hbd as (ev' & Hin & Heq). exists ev'. split; [|done].
        apply elem_of_app. by left.
    + destruct (Nat.ltb_spec b (EvaluateMore.hits (EvaluateMore.worst_so_far st)));
        simpl.
      * pose proof (foldr_min_le 6 ((fun it =>
          Evaluate.best_hit_count (Evaluate.summary it.2)) <$> items)).
        destruct (decide (b = 6%nat)); [lia|].
        exists ev. split; [|done]. apply elem_of_app. right. by left.
      * destruct (decide (EvaluateMore.hits (EvaluateMore.worst_so_far st) = 6%nat));
          [done|].
        destruct Hwd as (ev' & Hin & Heq). exists ev'. split; [|done].
        apply elem_of_app. by left.
Qed.

(** X5. For a non-empty set of stored evaluations the performance trends
    report their number, the mean of the best hit counts and of the average
    hit counts, as best performance the largest best hit count, and as
    worst performance the smallest one capped at 6. The date beside each is
    the date of a stored evaluation with that best hit count, except that it
    stays empty when the best is 0, respectively when no evaluation has a
    best hit count below 6. With no stored evaluation there are no trends. *)
Theorem get_performance_trends_summary
    (items : list (string * Evaluate.evaluation)) :
  let bests :=
    (fun it => Evaluate.best_hit_count (Evaluate.summary it.2)) <$> items in
  (items = [] -> EvaluateMore.get_performance_trends items = None)
  /\ (items <> [] ->
      exists t,
        EvaluateMore.get_performance_trends items = Some t
        /\ EvaluateMore.total_draws t = length items
        /\ (EvaluateMore.average_best_hits t
            == inject_Z (Z.of_nat (sum_list bests))
               / inject_Z (Z.of_nat (length items)))%Q
        /\ (EvaluateMore.average_average_hits t
            == Py.sum ((fun it =>
                          Evaluate.average_hit_count (Evaluate.summary it.2))
                         <$> items)
               / inject_Z (Z.of_nat (length items)))%Q
        /\ EvaluateMore.hits (EvaluateMore.best_performance t) = max_list bests
        /\ EvaluateMore.hits (EvaluateMore.worst_performance t)
           = foldr Nat.min 6%nat bests
        /\ (if decide (max_list bests = 0%nat)
            then EvaluateMore.date (EvaluateMore.best_performance t) = ""
            else exists ev,
                   (EvaluateMore.date (EvaluateMore.best_performance t), ev)
                   ∈ items
                   /\ Evaluate.best_hit_count (Evaluate.summary ev)
                      = max_list bests)
        /\ (if decide (foldr Nat.min 6%nat bests = 6%nat)
            then EvaluateMore.date (EvaluateMore.worst_performance t) = ""
            else exists ev,
                   (EvaluateMore.date (EvaluateMore.worst_performance t), ev)
                   ∈ items
                   /\ Evaluate.best_hit_count (Evaluate.summary ev)
                      = foldr Nat.min 6%nat bests)).
Proof.
  intros bests. split; [by intros ->|].
  intros Hne. destruct (trend_fold items) as (Ht & Ha & Hb & Hw & Hbd & Hwd).
  fold bests in Ht, Hb, Hw.
  eexists. split.
  { unfold EvaluateMore.get_performance_trends.
    destruct items; [done|reflexivity]. }
  simpl.
  split; [done|]. split; [by rewrite Ht|]. split; [by rewrite Ha|].
  split; [done|]. split; [done|].
  rewrite <- Hb, <- Hw. done.
Qed.

Lemma get_performance_trends_summary_witness :
  exists t,
    EvaluateMore.get_performance_trends [("2023-09-07", sample_evaluation)]
    = Some t
    /\ EvaluateMore.hits (EvaluateMore.best_performance t) = 4%nat
    /\ EvaluateMore.date (EvaluateMore.best_performance t) = "2023-09-07".
Proof.
  destruct (proj2 (get_performance_trends_summary
                     [("2023-09-07", sample_evaluation)]))
    as (t & Ht & _ & _ & _ & Hb & _).
  - discriminate.
  - exists t. split; [exact Ht|]. split; [exact Hb|].
    vm_compute in Ht. injection Ht as <-. reflexivity.
Defined.

(** ** The weight learner: dictionaries, loading, adjustments *)

Section DictMoreFacts.

Context {V : Type}.
Implicit Types (d : list (string * V)) (k : string) (v : V).

Lemma dict_get_set_eq d k v : Learn.dict_get k (Learn.dict_set k v d) = Some v.
Proof.
  induction d as [|[k' v'] d IH]; simpl.
  - by rewrite String.eqb_refl.
  - destruct (String.eqb_spec k k') as [->|Hne]; simpl.
    + by rewrite String.eqb_refl.
    + by destruct (String.eqb_spec k k').
Qed.

Lemma dict_get_set_ne d k k' v :
  k <> k' -> Learn.dict_get k' (Learn.dict_set k v d) = Learn.dict_get k' d.
Proof.
  intros Hne. induction d as [|[k2 v2] d IH]; simpl.
  - by destruct (String.eqb_spec k' k).
  - destruct (String.eqb_spec k k2) as [->|Hne2]; simpl.
    + by destruct (String.eqb_spec k' k2).
    + by rewrite IH.
Qed.

(** Assigning, one after the other, keys that are all new and different
    appends the entries in that order. *)
Lemma foldl_dict_set_fresh {A} (key : A -> string) (val : A -> V)
    (l : list A) d :
  NoDup (key <$> l) ->
  (forall a, a ∈ l -> key a ∉ Learn.keys d) ->
  foldl (fun acc a => Learn.dict_set (key a) (val a) acc) d l
  = d ++ ((fun a => (key a, val a)) <$> l).
Proof.
  revert d. induction l as [|a l IH]; intros d Hnd Hfresh; simpl.
  - by rewrite app_nil_r.
  - apply NoDup_cons in Hnd as [Ha Hnd].
    rewrite dict_set_absent by (apply Hfresh; by left).
    rewrite IH; [by rewrite <- app_assoc|done|].
    intros b Hb. unfold Learn.keys. rewrite fmap_app. simpl.
    rewrite elem_of_app, list_elem_of_singleton. intros [Hin|Heq].
    + eapply Hfresh; [by right|done].
    + apply Ha. rewrite <- Heq. apply list_elem_of_fmap. by exists b.
Qed.

End DictMoreFacts.

Lemma fill_lookup (defaults : list (string * Q)) (loaded : list (string * Q))
    (k : string) :
  Learn.dict_get k
    (foldl (fun loaded kv =>
              match Learn.dict_get kv.1 loaded with
              | Some _ => loaded
              | None => Learn.dict_set kv.1 kv.2 loaded
              end)
           loaded defaults)
  = match Learn.dict_get k loaded with
    | Some v => Some v
    | None => Learn.dict_get k defaults
    end.
Proof.
  revert loaded. induction defaults as [|[k' v'] defaults IH]; intros loaded.
  - simpl. by destruct (Learn.dict_get k loaded).
  - cbn [foldl]. rewrite IH. simpl.
    destruct (Learn.dict_get k' loaded) as [w|] eqn:Hk'.
    + destruct (String.eqb_spec k k') as [->|Hne]; [by rewrite Hk'|done].
    + destruct (String.eqb_spec k k') as [->|Hne].
      * by rewrite dict_get_set_eq, Hk'.
      * by rewrite dict_get_set_ne.
Qed.

Lemma fill_prefix (defaults : list (string * Q)) (loaded : list (string * Q)) :
  loaded `prefix_of`
    foldl (fun loaded kv =>
             match Learn.dict_get kv.1 loaded with
             | Some _ => loaded
             | None => Learn.dict_set kv.1 kv.2 loaded
             end)
          loaded defaults.
Proof.
  revert loaded. induction defaults as [|[k' v'] defaults IH]; intros loaded.
  - done.
  - cbn [foldl]. simpl. destruct (Learn.dict_get k' loaded) as [w|] eqn:Hk'.
    + apply IH.
    + etransitivity; [|apply IH].
      rewrite dict_set_absent.
      * by apply prefix_app_r.
      * intros Hin. apply dict_get_is_Some in Hin as [? Hin]. congruence.
Qed.

Lemma fill_unchanged (defaults : list (string * Q)) (loaded : list (string * Q)) :
  (forall k, k ∈ Learn.keys defaults -> k ∈ Learn.keys loaded) ->
  foldl (fun loaded kv =>
           match Learn.dict_get kv.1 loaded with
           | Some _ => loaded
           | None => Learn.dict_set kv.1 kv.2 loaded
           end)
        loaded defaults
  = loaded.
Proof.
  induction defaults as [|[k' v'] defaults IH]; intros Hall; [done|].
  cbn [foldl]. simpl.
  destruct (dict_get_is_Some loaded k') as [w ->]; [apply Hall; by left|].
  apply IH. intros k Hk. apply Hall. by right.
Qed.

(** X6. Loading the weights keeps every stored entry, in its place, and
    appends the default value for each default feature the file does not
    mention, so that all ten default features have a weight; a missing or
    unreadable file gives the default weights. Stored values are taken as
    they are: nothing is clamped or renormalised on load. *)
Theorem load_weights_fills_defaults (loaded : Learn.weight_dict) :
  (forall k v,
     Learn.dict_get k loaded = Some v ->
     Learn.dict_get k (LearnMore.load_weights (LearnMore.FileContent loaded))
     = Some v)
  /\ (forall k,
        Learn.dict_get k loaded = None ->
        Learn.dict_get k (LearnMore.load_weights (LearnMore.FileContent loaded))
        = Learn.dict_get k Learn.default_weights)
  /\ loaded `prefix_of` LearnMore.load_weights (LearnMore.FileContent loaded)
  /\ (forall k,
        k ∈ Learn.keys Learn.default_weights ->
        k ∈ Learn.keys (LearnMore.load_weights (LearnMore.FileContent loaded)))
  /\ LearnMore.load_weights LearnMore.FileMissing = Learn.default_weights
  /\ LearnMore.load_weights LearnMore.FileUnreadable = Learn.default_weights.
Proof.
  unfold LearnMore.load_weights, LearnMore.fill_defaults.
  split; [|split; [|split; [|split; [|done]]]].
  - intros k v Hk. by rewrite fill_lookup, Hk.
  - intros k Hk. by rewrite fill_lookup, Hk.
  - apply fill_prefix.
  - intros k Hk. apply dict_get_is_Some in Hk as [v Hv].
    destruct (Learn.dict_get k loaded) as [w|] eqn:Hl.
    + apply (dict_get_Some_keys _ _ w). by rewrite fill_lookup, Hl.
    + apply (dict_get_Some_keys _ _ v). by rewrite fill_lookup, Hl.
Qed.

Lemma load_weights_fills_defaults_witness :
  Learn.dict_get "hot_cold"
    (LearnMore.load_weights (LearnMore.FileContent [("hot_cold", 3 # 10)]))
  = Some (3 # 10)
  /\ Learn.dict_get "periodicity"
       (LearnMore.load_weights (LearnMore.FileContent [("hot_cold", 3 # 10)]))
     = Some (10 # 100).
Proof.
  destruct (load_weights_fills_defaults [("hot_cold", 3 # 10)])
    as (Hkept & Hfilled & _).
  split; [by apply Hkept|]. by rewrite Hfilled.
Defined.

(** X7. Saving and loading round-trips: once the weights cover the ten
    default features, which holds for every loaded weight vector, the
    weights a new learner loads from the file written by [save_weights] are
    the weights that were saved. *)
Theorem save_load_weights_roundtrip (s : Learn.learner) :
  (forall k, k ∈ Learn.keys Learn.default_weights ->
             k ∈ Learn.keys (Learn.weights s)) ->
  LearnMore.load_weights (LearnMore.stored (Learn.save_weights s))
  = Learn.weights s.
Proof.
  intros Hall. unfold LearnMore.stored. simpl.
  unfold LearnMore.fill_defaults. by apply fill_unchanged.
Qed.

Lemma save_load_weights_roundtrip_witness :
  LearnMore.load_weights (LearnMore.stored (Learn.save_weights Learn.fresh_learner))
  = Learn.default_weights.
Proof.
  apply (save_load_weights_roundtrip Learn.fresh_learner).
  intros k Hk. exact Hk.
Defined.

(** X8. Whatever the feature values, the outcome and the predictions, the
    effectiveness computed for a feature lies in [0, 1], and it is 1 when
    the two group averages coincide. *)
Theorem effectiveness_bounds (feature_name : string)
    (features : Learn.feature_table) (actual_result : list Z)
    (predictions : list Evaluate.prediction_eval) :
  let perf :=
    Learn.analyze_single_feature feature_name features actual_result
      predictions in
  (0 <= Learn.effectiveness perf <= 1)%Q
  /\ ((Learn.actual_average perf == Learn.predicted_average perf)%Q ->
      (Learn.effectiveness perf == 1)%Q).
Proof.
  intros perf. unfold perf, Learn.analyze_single_feature.
  cbn [Learn.effectiveness Learn.actual_average Learn.predicted_average].
  set (a := Learn.mean_or_zero _).
  set (p := Learn.mean_or_zero _).
  set (m := Qmax (Qmax a p) 1).
  assert (1 <= m)%Q as Hm by apply Q.le_max_r.
  assert (0 <= Qabs (a - p) / m)%Q as Hq.
  { apply Qle_shift_div_l; [lra|]. rewrite Qmult_0_l. apply Qabs_nonneg. }
  split; [split|].
  - apply Q.le_max_l.
  - apply Q.max_lub; lra.
  - intros Heq.
    assert (Qabs (a - p) == 0)%Q as Hz.
    { assert (a - p == 0)%Q as -> by lra. reflexivity. }
    rewrite Hz. unfold Qdiv. rewrite Qmult_0_l.
    apply Q.max_r. lra.
Qed.

Lemma effectiveness_bounds_witness :
  Qeq (Learn.effectiveness
         (Learn.analyze_single_feature "hot_cold" ∅ [1; 2; 3; 4; 5; 6] []))
      1.
Proof.
  apply (effectiveness_bounds "hot_cold" ∅ [1; 2; 3; 4; 5; 6] []).
  reflexivity.
Defined.

Lemma adjustment_for_bounds (lr o eff : Q) :
  (0 <= lr)%Q -> (0 <= eff <= 1)%Q ->
  (- lr <= Learn.adjustment_for lr o eff <= lr)%Q
  /\ ((0 < Learn.adjustment_for lr o eff)%Q -> (5 # 10 < o)%Q /\ (6 # 10 < eff)%Q)
  /\ ((o <= 5 # 10)%Q -> (Learn.adjustment_for lr o eff <= 0)%Q).
Proof.
  intros Hlr [He0 He1]. unfold Learn.adjustment_for.
  assert (0 <= lr * eff)%Q by (apply Qmult_le_0_compat; lra).
  assert (0 <= lr * (1 - eff))%Q by (apply Qmult_le_0_compat; lra).
  assert (lr * eff + lr * (1 - eff) == lr)%Q as Hsplit by ring.
  destruct (Qlt_le_dec (6 # 10) eff), (Qlt_le_dec (5 # 10) o);
    repeat split; intros; try lra.
Qed.

Lemma calculate_weight_adjustments_map (s : Learn.learner)
    (fp : list (string * Learn.performance)) (evaluation : Evaluate.evaluation) :
  NoDup (Learn.keys fp) ->
  Learn.calculate_weight_adjustments s fp evaluation
  = (fun kv =>
       (kv.1, Learn.adjustment_for (Learn.learning_rate s)
                (overall_performance evaluation) (Learn.effectiveness kv.2)))
      <$> fp.
Proof.
  intros Hnd. unfold Learn.calculate_weight_adjustments.
  rewrite (foldl_dict_set_fresh fst
             (fun kv => Learn.adjustment_for (Learn.learning_rate s)
                          (overall_performance evaluation)
                          (Learn.effectiveness kv.2))); [done|done|].
  intros a _. apply not_elem_of_nil.
Qed.

(** X9. Every feature of the performance dictionary gets one adjustment.
    With a non-negative learning rate and effectiveness values in [0, 1],
    each adjustment lies between minus and plus the learning rate; it is
    positive only for a feature with effectiveness above 0.6 in an
    evaluation whose overall performance exceeds 0.5. When the average hit
    count does not exceed the best hit count, that needs a prediction with
    at least 4 hits. *)
Theorem calculate_weight_adjustments_bounded (s : Learn.learner)
    (fp : list (string * Learn.performance)) (evaluation : Evaluate.evaluation) :
  (0 <= Learn.learning_rate s)%Q ->
  NoDup (Learn.keys fp) ->
  Forall (fun kv => 0 <= Learn.effectiveness kv.2 <= 1)%Q fp ->
  let adjustments := Learn.calculate_weight_adjustments s fp evaluation in
  Learn.keys adjustments = Learn.keys fp
  /\ Forall2 (fun adj kv =>
                adj.1 = kv.1
                /\ (- Learn.learning_rate s <= adj.2 <= Learn.learning_rate s)%Q
                /\ ((0 < adj.2)%Q ->
                    (5 # 10 < overall_performance evaluation)%Q
                    /\ (6 # 10 < Learn.effectiveness kv.2)%Q))
             adjustments fp
  /\ ((Evaluate.average_hit_count (Evaluate.summary evaluation)
       <= inject_Z (Z.of_nat
            (Evaluate.best_hit_count (Evaluate.summary evaluation))))%Q ->
      Forall (fun adj =>
                (0 < adj.2)%Q ->
                (4 <= Evaluate.best_hit_count (Evaluate.summary evaluation))%nat)
             adjustments).
Proof.
  intros Hlr Hnd Heff adjustments. unfold adjustments.
  rewrite calculate_weight_adjustments_map by done.
  split; [apply keys_fmap_snd|]. split.
  - apply Forall2_fmap_l, Forall_Forall2_diag.
    eapply Forall_impl; [exact Heff|]. intros [k perf] He. simpl in *.
    destruct (adjustment_for_bounds (Learn.learning_rate s)
                (overall_performance evaluation) (Learn.effectiveness perf)
                Hlr He) as (Hb & Hpos & _).
    split; [done|]. split; [exact Hb|exact Hpos].
  - intros Havg. apply Forall_fmap.
    eapply Forall_impl; [exact Heff|]. intros [k perf] He Hpos. simpl in *.
    destruct (adjustment_for_bounds (Learn.learning_rate s)
                (overall_performance evaluation) (Learn.effectiveness perf)
                Hlr He) as (_ & Hp & _).
    destruct (Hp Hpos) as [Ho _]. unfold overall_performance in Ho.
    set (b := Evaluate.best_hit_count (Evaluate.summary evaluation)) in *.
    set (a := Evaluate.average_hit_count (Evaluate.summary evaluation)) in *.
    assert (3 < inject_Z (Z.of_nat b))%Q as Hb.
    { generalize dependent (inject_Z (Z.of_nat b)). intros B HB HO.
      unfold Qdiv in HO.
      assert (/ 6 == 1 # 6)%Q as H6 by reflexivity. rewrite H6 in HO. lra. }
    change 3%Q with (inject_Z 3) in Hb. rewrite <- Zlt_Qlt in Hb. lia.
Qed.

Lemma calculate_weight_adjustments_bounded_witness :
  Learn.keys
    (Learn.calculate_weight_adjustments Learn.fresh_learner
       [("hot_cold",
         Learn.analyze_single_feature "hot_cold" ∅ [1; 2; 3; 4; 5; 6] [])]
       sample_evaluation)
  = ["hot_cold"].
Proof.
  apply (calculate_weight_adjustments_bounded Learn.fresh_learner
           [("hot_cold",
             Learn.analyze_single_feature "hot_cold" ∅ [1; 2; 3; 4; 5; 6] [])]
           sample_evaluation).
  - vm_compute. discriminate.
  - apply NoDup_singleton.
  - repeat constructor; vm_compute; discriminate.
Defined.

Lemma apply_weight_adjustments_spec (adjustments : list (string * Q))
    (s : Learn.learner) :
  Learn.weights s <> [] ->
  NoDup (Learn.keys (Learn.weights s)) ->
  NoDup (Learn.keys adjustments) ->
  (forall k, k ∈ Learn.keys adjustments <-> k ∈ Learn.keys (Learn.weights s)) ->
  exists s',
    Learn.apply_weight_adjustments adjustments s = Ok s'
    /\ Learn.weights s' = spec_updated_weights (Learn.weights s) adjustments
    /\ (Py.sum (Learn.values (Learn.weights s')) == 1)%Q
    /\ Learn.weights_file s' = Learn.weights_file s
    /\ Learn.evaluator s' = Learn.evaluator s
    /\ Learn.learning_rate s' = Learn.learning_rate s.
Proof.
  intros Hne Hw Hadj Hkeys.
  unfold Learn.apply_weight_adjustments.
  destruct (clamp_loop_spec adjustments (Learn.print Learn.AdjustmentHeader s))
    as (s1 & -> & Hw1 & Hf1 & He1 & Hl1); [done|done|by intros k ?%Hkeys|].
  simpl in Hw1, Hf1, He1, Hl1.
  rewrite clamp_adjusted_all in Hw1 by (by intros k ?%Hkeys).
  set (c := spec_clamped (Learn.weights s) adjustments) in *.
  pose proof (spec_clamped_bounds (Learn.weights s) adjustments) as Hb.
  fold c in Hb.
  assert (c <> []) as Hcne.
  { unfold c, spec_clamped. by destruct (Learn.weights s). }
  destruct (normalize_positive c Hcne Hb) as [Hpos Hnorm].
  cbn [bind]. rewrite Hw1, Hnorm. cbn [bind].
  eexists. split; [reflexivity|]. simpl.
  split; [done|]. split; [|done].
  set (total := Py.sum (Learn.values c)) in *.
  assert (Hvals : Learn.values ((fun kv => (kv.1, (kv.2 / total)%Q)) <$> c)
                  = (fun v => (v / total)%Q) <$> Learn.values c).
  { unfold Learn.values. rewrite <- !list_fmap_compose.
    apply list_fmap_ext. by intros _ [k v] _. }
  rewrite Hvals, sum_div. fold total. field. lra.
Qed.

Lemma analyze_feature_performance_map (s : Learn.learner) (date : string)
    (features : Learn.feature_table) (evaluation : Evaluate.evaluation) :
  Evaluate.results (Learn.evaluator s) !! date = Some evaluation ->
  NoDup (Learn.keys (Learn.weights s)) ->
  Learn.analyze_feature_performance s date features
  = (fun name =>
       (name, Learn.analyze_single_feature name features
                (Evaluate.actual_result evaluation)
                (Evaluate.predictions evaluation)))
      <$> Learn.keys (Learn.weights s).
Proof.
  intros Hev Hnd. unfold Learn.analyze_feature_performance. rewrite Hev.
  rewrite (foldl_dict_set_fresh id
             (fun name => Learn.analyze_single_feature name features
                            (Evaluate.actual_result evaluation)
                            (Evaluate.predictions evaluation))).
  - done.
  - by rewrite list_fmap_id.
  - intros a _. apply not_elem_of_nil.
Qed.

Lemma learn_from_evaluation_step (date : string)
    (features : Learn.feature_table) (s : Learn.learner)
    (evaluation : Evaluate.evaluation) :
  Evaluate.results (Learn.evaluator s) !! date = Some evaluation ->
  NoDup (Learn.keys (Learn.weights s)) ->
  let adjustments :=
    (fun kv =>
       (kv.1, Learn.adjustment_for (Learn.learning_rate s)
                (overall_performance evaluation)
                (Learn.effectiveness
                   (Learn.analyze_single_feature kv.1 features
                      (Evaluate.actual_result evaluation)
                      (Evaluate.predictions evaluation)))))
      <$> Learn.weights s in
  let feature_performance :=
    (fun name =>
       (name, Learn.analyze_single_feature name features
                (Evaluate.actual_result evaluation)
                (Evaluate.predictions evaluation)))
      <$> Learn.keys (Learn.weights s) in
  Learn.learn_from_evaluation date features s
  = bind (Learn.apply_weight_adjustments adjustments
            (Learn.print (Learn.LearningStarted date) s))
         (fun s1 =>
            Ok (Learn.print_learning_summary feature_performance evaluation
                  (Learn.save_weights s1))).
Proof.
  intros Hev Hnd adjustments feature_performance.
  unfold Learn.learn_from_evaluation.
  set (s0 := Learn.print (Learn.LearningStarted date) s).
  change (Evaluate.results (Learn.evaluator s0))
    with (Evaluate.results (Learn.evaluator s)).
  rewrite Hev.
  rewrite (analyze_feature_performance_map s0 date features evaluation Hev Hnd).
  rewrite calculate_weight_adjustments_map
    by (unfold Learn.keys; rewrite fmap_fst_pair; exact Hnd).
  assert (Hadj :
    (fun kv : string * Learn.performance =>
       (kv.1, Learn.adjustment_for (Learn.learning_rate s0)
                (overall_performance evaluation) (Learn.effectiveness kv.2)))
      <$> ((fun name =>
              (name, Learn.analyze_single_feature name features
                       (Evaluate.actual_result evaluation)
                       (Evaluate.predictions evaluation)))
             <$> Learn.keys (Learn.weights s0))
    = adjustments).
  { unfold adjustments, Learn.keys. rewrite <- !list_fmap_compose.
    apply list_fmap_ext. by intros _ [k v] _. }
  by rewrite Hadj.
Qed.

(** X10. When an evaluation is stored for the date and the learner has
    weights, learning returns. Provided the overall performance is clear of
    0.5 and every feature's effectiveness is clear of 0.6, so that the
    doubles the code compares fall on the same side of the two thresholds
    as the exact values, every weight is moved by the adjustment computed
    from its feature's effectiveness and the overall performance, clamped
    and renormalised. The new weights cover the same features in the same
    order, sum to 1, and are written to the weights file unconditionally.
    The stored evaluations are not touched. *)
Theorem learn_from_evaluation_updates (date : string)
    (features : Learn.feature_table) (s : Learn.learner)
    (evaluation : Evaluate.evaluation) :
  Evaluate.results (Learn.evaluator s) !! date = Some evaluation ->
  Learn.weights s <> [] ->
  NoDup (Learn.keys (Learn.weights s)) ->
  clear_of (5 # 10) (overall_performance evaluation) ->
  Forall (fun kv =>
            clear_of (6 # 10)
              (Learn.effectiveness
                 (Learn.analyze_single_feature kv.1 features
                    (Evaluate.actual_result evaluation)
                    (Evaluate.predictions evaluation))))
         (Learn.weights s) ->
  let adjustments :=
    (fun kv =>
       (kv.1, Learn.adjustment_for (Learn.learning_rate s)
                (overall_performance evaluation)
                (Learn.effectiveness
                   (Learn.analyze_single_feature kv.1 features
                      (Evaluate.actual_result evaluation)
                      (Evaluate.predictions evaluation)))))
      <$> Learn.weights s in
  exists s',
    Learn.learn_from_evaluation date features s = Ok s'
    /\ Learn.weights s' = spec_updated_weights (Learn.weights s) adjustments
    /\ Learn.keys (Learn.weights s') = Learn.keys (Learn.weights s)
    /\ (Py.sum (Learn.values (Learn.weights s')) == 1)%Q
    /\ Learn.weights_file s' = Some (Learn.weights s')
    /\ Learn.evaluator s' = Learn.evaluator s.
Proof.
  intros Hev Hne Hnd _ _ adjustments.
  rewrite (learn_from_evaluation_step date features s evaluation Hev Hnd).
  fold adjustments.
  assert (Hk : Learn.keys adjustments = Learn.keys (Learn.weights s))
    by apply keys_fmap_snd.
  destruct (apply_weight_adjustments_spec adjustments
              (Learn.print (Learn.LearningStarted date) s))
    as (s1 & -> & Hw1 & Hsum & Hf1 & He1 & _); try done.
  { by rewrite Hk. }
  { intros k. by rewrite Hk. }
  cbn [bind]. eexists. split; [reflexivity|]. simpl.
  split; [done|]. split; [|done].
  rewrite Hw1. unfold spec_updated_weights, spec_clamped.
  by rewrite !keys_fmap_snd.
Qed.

Lemma learn_from_evaluation_updates_witness :
  exists s',
    Learn.learn_from_evaluation "2023-09-07" sample_features
      learner_with_evaluation = Ok s'
    /\ Learn.weights_file s' = Some (Learn.weights s').
Proof.
  destruct (learn_from_evaluation_updates "2023-09-07" sample_features
              learner_with_evaluation sample_evaluation)
    as (s' & Heq & _ & _ & _ & Hf & _).
  - reflexivity.
  - discriminate.
  - apply (bool_decide_unpack (NoDup _)). vm_compute. exact I.
  - by vm_compute.
  - cbn [learner_with_evaluation Learn.weights Learn.default_weights].
    repeat (apply Forall_cons; split; [by vm_compute|]). constructor.
  - exists s'. split; [exact Heq|exact Hf].
Defined.

Lemma keys_dict_set_present {V} (d : list (string * V)) (k : string) (v : V) :
  k ∈ Learn.keys d -> Learn.keys (Learn.dict_set k v d) = Learn.keys d.
Proof.
  induction d as [|[k' v'] d IH]; simpl.
  - by intros ?%elem_of_nil.
  - destruct (String.eqb_spec k k') as [->|Hne]; [done|].
    intros [?|Hin]%elem_of_cons; [done|]. simpl. f_equal. by apply IH.
Qed.

Lemma clamp_loop_KeyError (adj : list (string * Q)) (s : Learn.learner) :
  Exists (fun kv => kv.1 ∉ Learn.keys (Learn.weights s)) adj ->
  Learn.clamp_loop adj s = Raise KeyError.
Proof.
  revert s. induction adj as [|[k d] adj IH]; intros s Hex;
    [by apply Exists_nil in Hex|].
  simpl. destruct (Learn.dict_get k (Learn.weights s)) as [old|] eqn:Hk; [|done].
  apply Exists_cons in Hex as [Hbad|Hex].
  { exfalso. apply Hbad. by eapply dict_get_Some_keys. }
  assert (k ∈ Learn.keys (Learn.weights s)) as Hin
    by (by eapply dict_get_Some_keys).
  destruct (Qlt_le_dec (1 # 1000) (Qabs d)); apply IH; simpl;
    by rewrite keys_dict_set_present.
Qed.

(** X11. An adjustment for a feature the learner has no weight for makes
    [apply_weight_adjustments] raise [KeyError]; the weights are not
    renormalised and nothing is returned. *)
Theorem apply_weight_adjustments_KeyError (adjustments : list (string * Q))
    (s : Learn.learner) :
  Exists (fun kv => kv.1 ∉ Learn.keys (Learn.weights s)) adjustments ->
  Learn.apply_weight_adjustments adjustments s = Raise KeyError.
Proof.
  intros Hex. unfold Learn.apply_weight_adjustments.
  by rewrite clamp_loop_KeyError.
Qed.

Lemma apply_weight_adjustments_KeyError_witness :
  Learn.apply_weight_adjustments
    [("hot_cold", 1 # 10); ("sum_control", 1 # 10)]%Q Learn.fresh_learner
  = Raise KeyError.
Proof.
  apply apply_weight_adjustments_KeyError.
  apply Exists_cons_tl, Exists_cons_hd. simpl.
  intros Hin. apply (bool_decide_pack _) in Hin. vm_compute in Hin. exact Hin.
Defined.

Lemma sum_list_le_max (l : list nat) :
  (sum_list l <= length l * max_list l)%nat.
Proof. induction l as [|x l IH]; simpl; nia. Qed.

(** X12. In a returned evaluation no prediction has more hits than the
    best hit count, the best hit count is at most the number of outcome
    numbers, the average hit count lies between 0 and the best hit count,
    and [best_prediction_index] is 0 or the 1-based position of a
    prediction of the batch. *)
Theorem evaluation_summary_bounds (ev : Evaluate.evaluator) (date : string)
    (preds : list (list Z * Q)) (actual : list Z) :
  preds <> [] ->
  (length actual <= 6)%nat ->
  exists e ev',
    Evaluate.evaluate_predictions ev date preds actual = Ok (e, ev')
    /\ Forall (fun pe =>
                 (Evaluate.hit_count pe
                  <= Evaluate.best_hit_count (Evaluate.summary e))%nat)
              (Evaluate.predictions e)
    /\ (Evaluate.best_hit_count (Evaluate.summary e) <= length actual)%nat
    /\ (0 <= Evaluate.average_hit_count (Evaluate.summary e)
        <= inject_Z (Z.of_nat (Evaluate.best_hit_count (Evaluate.summary e))))%Q
    /\ 0 <= Evaluate.best_prediction_index (Evaluate.summary e)
       <= Z.of_nat (length preds).
Proof.
  intros Hne Hlen.
  destruct (evaluate_predictions_inv ev date preds actual Hne)
    as (e & ev' & st & Heq & Hinv & Hp & Hb & Hi & Ha).
  { apply Forall_forall. intros p _. etransitivity; [apply hits_of_le|done]. }
  exists e, ev'. split; [done|].
  pose proof (loop_inv_length _ _ _ Hinv) as Hl.
  destruct Hinv as [Hh Ht Hbest Hn Hf _].
  rewrite Hp, Hb, Hi, Ha.
  set (hs := Evaluate.hit_count <$> Evaluate.acc_predictions st) in *.
  assert (length hs = length preds) as Hlh by (unfold hs; by rewrite length_fmap).
  split; [|split; [|split]].
  - apply Forall_forall. intros pe Hpe. rewrite Hbest.
    apply max_list_elem_of_le, list_elem_of_fmap. by exists pe.
  - rewrite Hbest.
    destruct (decide (hs = [])) as [->|Hhs]; [simpl; lia|].
    pose proof (max_list_elem_of hs Hhs) as Hin.
    assert (max_list hs
            ∈ (fun p => Evaluate.hits_of p.1 (Py.sorted actual)) <$> preds)
      as Hin' by (by rewrite <- Hh).
    apply list_elem_of_fmap in Hin' as (p & Hp' & _).
    rewrite Hp'. apply hits_of_le.
  - pose proof (sum_list_le_max hs) as Hsum. rewrite <- Ht, <- Hbest, Hlh in Hsum.
    assert (0 < inject_Z (Z.of_nat (length preds)))%Q as Hpos.
    { change 0%Q with (inject_Z 0). rewrite <- Zlt_Qlt.
      destruct preds; [done|simpl; lia]. }
    split.
    + apply Qle_shift_div_l; [done|]. rewrite Qmult_0_l.
      change 0%Q with (inject_Z 0). rewrite <- Zle_Qle. lia.
    + apply Qle_shift_div_r; [done|].
      rewrite <- inject_Z_mult, <- Zle_Qle. nia.
  - destruct (decide (Evaluate.best_hits st = 0%nat)) as [Hz|Hnz].
    + rewrite (Hn Hz). lia.
    + destruct Hf as (i & pe & -> & Hlk & _); [lia|].
      apply lookup_lt_Some in Hlk. lia.
Qed.

Lemma evaluation_summary_bounds_witness :
  exists e ev',
    Evaluate.evaluate_predictions Evaluate.empty_evaluator "2023-09-07"
      [([12; 7; 30; 41; 2; 19], 50%Q); ([1; 2; 3; 4; 5; 6], 40%Q)]
      [7; 12; 19; 23; 30; 44] = Ok (e, ev')
    /\ (Evaluate.best_hit_count (Evaluate.summary e) <= 6)%nat.
Proof.
  destruct (evaluation_summary_bounds Evaluate.empty_evaluator "2023-09-07"
              [([12; 7; 30; 41; 2; 19], 50%Q); ([1; 2; 3; 4; 5; 6], 40%Q)]
              [7; 12; 19; 23; 30; 44])
    as (e & ev' & Heq & _ & Hb & _).
  - discriminate.
  - simpl. lia.
  - exists e, ev'. split; [exact Heq|exact Hb].
Defined.

(** ** The feature extractor: counts, windows, ranges *)

Lemma occurrences_snoc (x y : Z) (l : list Z) :
  occurrences x (l ++ [y]) = occurrences x l + (if x =? y then 1 else 0).
Proof.
  unfold occurrences. rewrite List.filter_app, length_app. simpl.
  destruct (x =? y); simpl; lia.
Qed.

Lemma occurrences_cons (x y : Z) (l : list Z) :
  occurrences x (y :: l) = (if x =? y then 1 else 0) + occurrences x l.
Proof. unfold occurrences. simpl. destruct (x =? y); simpl; lia. Qed.

Lemma occurrences_zero (x : Z) (l : list Z) : x ∉ l <-> occurrences x l = 0.
Proof.
  induction l as [|y l IH]; [by split; [|intros _ ?%elem_of_nil]|].
  rewrite occurrences_cons, not_elem_of_cons, IH.
  assert (0 <= occurrences x l) by (unfold occurrences; lia).
  destruct (Z.eqb_spec x y); split; [lia|lia|lia|]. intros ?. split; [done|lia].
Qed.

Lemma Counter_lookup (l : list Z) (x : Z) :
  Features.Counter l !! x
  = if decide (x ∈ l) then Some (occurrences x l) else None.
Proof.
  unfold Features.Counter. induction l as [|y l IH] using rev_ind.
  - rewrite decide_False by apply not_elem_of_nil. done.
  - rewrite foldl_snoc, occurrences_snoc.
    destruct (Z.eqb_spec x y) as [->|Hne].
    + rewrite lookup_insert_eq, IH.
      rewrite (decide_True (P := y ∈ l ++ [y]))
        by (apply elem_of_app; right; by left).
      destruct (decide (y ∈ l)) as [Hin|Hnin]; simpl; [done|].
      apply occurrences_zero in Hnin. by rewrite Hnin.
    + rewrite lookup_insert_ne by done. rewrite IH, Z.add_0_r.
      destruct (decide (x ∈ l)) as [Hin|Hnin].
      * rewrite decide_True; [done|]. apply elem_of_app. by left.
      * rewrite decide_False; [done|].
        rewrite elem_of_app, list_elem_of_singleton. tauto.
Qed.

Lemma occurrences_total (dom l : list Z) :
  NoDup dom -> Forall (fun x => x ∈ dom) l ->
  foldr Z.add 0 ((fun n => occurrences n l) <$> dom) = Z.of_nat (length l).
Proof.
  intros Hnd. induction 1 as [|x l Hx _ IH]; simpl length.
  - clear. induction dom as [|n dom IH]; [done|].
    cbn [fmap list_fmap foldr]. change (list_fmap Z Z ?f ?l) with (f <$> l).
    rewrite IH. reflexivity.
  - rewrite Nat2Z.inj_succ, <- IH. clear IH.
    induction Hnd as [|n dom Hn Hnd IHd]; [by apply elem_of_nil in Hx|].
    cbn [fmap list_fmap foldr]. change (list_fmap Z Z ?f ?l) with (f <$> l).
    rewrite occurrences_cons.
    apply elem_of_cons in Hx as [->|Hx].
    + rewrite Z.eqb_refl.
      assert (foldr Z.add 0 ((fun n0 => occurrences n0 (n :: l)) <$> dom)
              = foldr Z.add 0 ((fun n0 => occurrences n0 l) <$> dom)) as ->; [|lia].
      f_equal. apply list_fmap_ext. intros i m Hm. rewrite occurrences_cons.
      destruct (Z.eqb_spec m n) as [->|]; [|done].
      exfalso. apply Hn. by eapply list_elem_of_lookup_2.
    + rewrite (IHd Hx). destruct (Z.eqb_spec n x) as [->|]; [done|lia].
Qed.

Lemma length_all_numbers (data : list Features.row) :
  length (Features.all_numbers data) = (6 * length data)%nat.
Proof.
  unfold Features.all_numbers. induction data as [|r data IH]; [done|].
  cbn [fmap list_fmap concat]. rewrite length_app.
  change (list_fmap _ _ ?f ?l) with (f <$> l). rewrite IH. simpl. lia.
Qed.

(** X13. The total-appearance counter holds, for every number that was
    drawn, how often it occurs in the history, and has no entry for a
    number that was never drawn; when all drawn numbers lie in 1..49 the
    counts of 1..49 add up to six times the number of draws. *)
Theorem get_total_appearances_counts (data : list Features.row) :
  (forall num,
     Features.get_total_appearances data !! num
     = if decide (num ∈ Features.all_numbers data)
       then Some (occurrences num (Features.all_numbers data))
       else None)
  /\ (forall num,
        default 0 (Features.get_total_appearances data !! num)
        = occurrences num (Features.all_numbers data))
  /\ (Forall (fun num => 1 <= num <= 49) (Features.all_numbers data) ->
      foldr Z.add 0
        ((fun num => default 0 (Features.get_total_appearances data !! num))
           <$> Py.range 1 50)
      = 6 * Z.of_nat (length data)).
Proof.
  unfold Features.get_total_appearances.
  assert (Hdef : forall num,
    default 0 (Features.Counter (Features.all_numbers data) !! num)
    = occurrences num (Features.all_numbers data)).
  { intros num. rewrite Counter_lookup.
    destruct (decide _) as [|Hn]; [done|]. simpl.
    by apply occurrences_zero in Hn. }
  split; [intros num; apply Counter_lookup|]. split; [done|].
  intros Hrange.
  erewrite list_fmap_ext; [|intros i num _; apply Hdef].
  rewrite occurrences_total.
  - rewrite length_all_numbers. clear. lia.
  - apply NoDup_seqZ.
  - eapply Forall_impl; [exact Hrange|]. intros x Hx. simpl in Hx.
    unfold Py.range. apply elem_of_seqZ. lia.
Qed.

Lemma get_total_appearances_counts_witness :
  foldr Z.add 0
    ((fun num => default 0 (Features.get_total_appearances three_draws !! num))
       <$> Py.range 1 50)
  = 18.
Proof.
  apply (proj2 (proj2 (get_total_appearances_counts three_draws))).
  apply (bool_decide_unpack _). vm_compute. exact I.
Defined.

Lemma all_numbers_drop (data : list Features.row) (m : nat) :
  Features.all_numbers (drop m data) = drop (6 * m) (Features.all_numbers data).
Proof.
  unfold Features.all_numbers. revert m.
  induction data as [|r data IH]; intros m.
  - simpl. by rewrite !drop_nil.
  - destruct m as [|m]; [done|].
    cbn [drop fmap list_fmap concat].
    change (list_fmap _ _ ?f ?l) with (f <$> l). rewrite IH.
    replace (6 * S m)%nat with (6 + 6 * m)%nat by lia. done.
Qed.

(** X14. The recent-appearance counter for [recent_count >= 1] is the
    total-appearance counter of the last [recent_count] draws (of the whole
    history when it is shorter). For [recent_count = 0] the slice [[-0:]]
    is the whole array, so the counter covers the whole history, not no
    draw. *)
Theorem get_recent_appearances_window (data : list Features.row)
    (recent_count : Z) :
  (1 <= recent_count ->
   Features.get_recent_appearances data recent_count
   = Features.get_total_appearances
       (drop (length data - Z.to_nat recent_count) data))
  /\ Features.get_recent_appearances data 0
     = Features.get_total_appearances data.
Proof.
  split; [|done].
  intros Hk. unfold Features.get_recent_appearances,
    Features.get_total_appearances, Features.slice_from.
  destruct (Z.ltb_spec (- recent_count * 6) 0); [|lia].
  rewrite all_numbers_drop, length_all_numbers. do 2 f_equal. lia.
Qed.

Lemma get_recent_appearances_window_witness :
  Features.get_recent_appearances three_draws 2
  = Features.get_total_appearances (drop 1 three_draws).
Proof.
  apply (proj1 (get_recent_appearances_window three_draws 2)). lia.
Defined.

Lemma first_appearance_split (num : Z) (data : list Features.row) :
  Forall (fun r => num ∉ Features.numbers_of r) data
  \/ exists before r after,
       data = before ++ r :: after
       /\ Forall (fun r' => num ∉ Features.numbers_of r') before
       /\ num ∈ Features.numbers_of r.
Proof.
  induction data as [|r data IH]; [by left|].
  destruct (decide (num ∈ Features.numbers_of r)) as [Hin|Hnin].
  - right. exists [], r, data. by repeat split.
  - destruct IH as [Hall|(before & r' & after & -> & Hb & Hr)].
    + left. by constructor.
    + right. exists (r :: before), r', after. split; [done|].
      split; [by constructor|done].
Qed.

(** X15. The missing-interval dictionary has an entry exactly for the
    numbers 1..49. Every entry lies between 0 and the number of draws, and
    it equals the number of draws exactly when the number never appeared. *)
Theorem get_missing_intervals_range (data : list Features.row) (num : Z) :
  (Features.get_missing_intervals data !! num = None <-> ~ (1 <= num <= 49))
  /\ (forall v,
        Features.get_missing_intervals data !! num = Some v ->
        0 <= v <= Z.of_nat (length data)
        /\ (v = Z.of_nat (length data)
            <-> Forall (fun r => num ∉ Features.numbers_of r) data)).
Proof.
  destruct (decide (1 <= num <= 49)) as [Hin|Hout].
  - split; [rewrite get_missing_intervals_lookup by done; by split|].
    intros v.
    destruct (first_appearance_split num data)
      as [Hall|(before & r & after & -> & Hb & Hr)].
    + rewrite missing_interval_never by done. intros [= <-].
      split; [lia|]. by split.
    + rewrite missing_interval_first by done. intros [= <-].
      rewrite length_app. simpl. split; [lia|]. split; [lia|].
      intros Hall. apply Forall_app in Hall as [_ Hall].
      by apply Forall_cons in Hall as [? _].
  - assert (Features.get_missing_intervals data !! num = None) as Hnone.
    { unfold Features.get_missing_intervals.
      rewrite (lookup_foldl_insert (Features.missing_interval data)).
      rewrite bool_decide_false; [done|].
      unfold Py.range. rewrite elem_of_seqZ. lia. }
    rewrite Hnone. split; [by split|]. done.
Qed.

Lemma get_missing_intervals_range_witness :
  Features.get_missing_intervals three_draws !! 50 = None
  /\ Features.get_missing_intervals three_draws !! 4 = Some 3.
Proof.
  split.
  - apply (proj1 (get_missing_intervals_range three_draws 50)). lia.
  - destruct (Features.get_missing_intervals three_draws !! 4) as [v|] eqn:Hv.
    + destruct (proj2 (get_missing_intervals_range three_draws 4) v Hv)
        as [_ Hnever].
      f_equal. apply Hnever.
      apply (bool_decide_unpack _). vm_compute. exact I.
    + apply (proj1 (get_missing_intervals_range three_draws 4)) in Hv. lia.
Defined.

Lemma count_consecutive_bounds (l : list Z) :
  0 <= Features.count_consecutive l <= Z.of_nat (length l) - 1
  \/ (l = [] /\ Features.count_consecutive l = 0).
Proof.
  induction l as [|x l IH]; [by right|]. left.
  destruct l as [|y l]; [simpl; lia|].
  destruct IH as [IH|[? _]]; [|done].
  change (Features.count_consecutive (x :: y :: l))
    with ((if y - x =? 1 then 1 else 0) + Features.count_consecutive (y :: l)).
  simpl length in *. destruct (y - x =? 1); lia.
Qed.

Lemma count_pairs_bounds (l : list Z) :
  0 <= Features.count_pairs l
  /\ 2 * Features.count_pairs l
     <= Z.of_nat (length l) * (Z.of_nat (length l) - 1).
Proof.
  induction l as [|x l [IH0 IH]]; [simpl; lia|].
  cbn [Features.count_pairs].
  pose proof (length_filter (fun y => Z.abs (y - x) <= 2) l) as Hf.
  simpl length. nia.
Qed.

Lemma pair_counts_fold (data : list Features.row) (acc : Z * Z) :
  let counts :=
    foldl (fun acc r =>
             let numbers := Py.sorted (Features.numbers_of r) in
             (acc.1 + Features.count_consecutive numbers,
              acc.2 + Features.count_pairs numbers))
          acc data in
  acc.1 <= counts.1 <= acc.1 + 5 * Z.of_nat (length data)
  /\ acc.2 <= counts.2 <= acc.2 + 15 * Z.of_nat (length data).
Proof.
  revert acc. induction data as [|r data IH]; intros acc; [simpl; lia|].
  cbn [foldl]. cbv zeta in *.
  set (numbers := Py.sorted (Features.numbers_of r)).
  assert (length numbers = 6%nat) as Hlen
    by (unfold numbers, Py.sorted; by rewrite length_sort_by).
  specialize (IH (acc.1 + Features.count_consecutive numbers,
                  acc.2 + Features.count_pairs numbers)).
  cbn [fst snd] in IH.
  pose proof (count_pairs_bounds numbers) as [Hp0 Hp]. rewrite Hlen in Hp.
  destruct (count_consecutive_bounds numbers) as [Hc|[Hnil _]];
    [|by rewrite Hnil in Hlen].
  rewrite Hlen in Hc. simpl length. lia.
Qed.

Lemma truediv_bounds (a b c : Z) :
  0 < b -> 0 <= a <= c * b ->
  (0 <= inject_Z a / inject_Z b <= inject_Z c)%Q.
Proof.
  intros Hb [Ha0 Hac].
  assert (0 < inject_Z b)%Q as Hpos.
  { change 0%Q with (inject_Z 0). by rewrite <- Zlt_Qlt. }
  split.
  - apply Qle_shift_div_l; [done|]. rewrite Qmult_0_l.
    change 0%Q with (inject_Z 0). by rewrite <- Zle_Qle.
  - apply Qle_shift_div_r; [done|].
    by rewrite <- inject_Z_mult, <- Zle_Qle.
Qed.

(** X16. On a history with at least one draw the odd/even ratio is a
    fraction in [0, 1], the pair rate is a fraction in [0, 1] and the
    consecutive rate lies in [0, 5]. *)
Theorem ratio_features_bounds (data : list Features.row) :
  data <> [] ->
  exists ratio freq,
    Features.get_odd_even_ratio data = Ok ratio
    /\ Features.get_consecutive_pairs_frequency data = Ok freq
    /\ (0 <= ratio <= 1)%Q
    /\ (0 <= Features.consecutive_rate freq <= 5)%Q
    /\ (0 <= Features.pair_rate freq <= 1)%Q.
Proof.
  intros Hne.
  assert (0 < Z.of_nat (length data)) as Hlen by (destruct data; [done|simpl; lia]).
  unfold Features.get_odd_even_ratio, Features.get_consecutive_pairs_frequency.
  pose proof (pair_counts_fold data (0, 0)) as Hfold. cbv zeta in Hfold.
  set (counts := foldl _ (0, 0) data) in *. simpl in Hfold.
  rewrite !truediv_nonzero by (rewrite ?length_all_numbers; lia).
  eexists _, _. split; [reflexivity|]. split; [reflexivity|]. simpl.
  pose proof (length_filter (fun num => num mod 2 = 1) (Features.all_numbers data))
    as Hodd.
  pose proof (length_all_numbers data) as Hall.
  split; [|split].
  - apply (truediv_bounds _ _ 1); lia.
  - apply (truediv_bounds _ _ 5); lia.
  - apply (truediv_bounds _ _ 1); lia.
Qed.

Lemma ratio_features_bounds_witness :
  exists ratio,
    Features.get_odd_even_ratio three_draws = Ok ratio /\ (ratio <= 1)%Q.
Proof.
  destruct (ratio_features_bounds three_draws)
    as (ratio & freq & Hr & _ & [_ Hle] & _).
  - discriminate.
  - exists ratio. split; [exact Hr|exact Hle].
Defined.

Lemma interval_counts_total (l : list Z) :
  Forall (fun num => 1 <= num <= 49) l ->
  foldr Z.add 0
    ((fun b => Z.of_nat (length (List.filter (FeaturesMore.in_interval b.2) l)))
       <$> FeaturesMore.intervals)
  = Z.of_nat (length l).
Proof.
  induction 1 as [|x l Hx _ IH]; [done|].
  simpl in *. unfold FeaturesMore.in_interval in *. simpl in *.
  repeat match goal with
         | |- context [?a <=? ?b] => destruct (Z.leb_spec a b)
         end; simpl; lia.
Qed.

(** X17. On a non-empty history the distribution has one fraction per
    range "1-10" .. "41-49", in that order, each in [0, 1]; when every
    drawn number lies in 1..49 the five fractions add up to 1. On the empty
    history the function raises [ZeroDivisionError]. *)
Theorem get_distribution_patterns_total (data : list Features.row) :
  (data = [] ->
   FeaturesMore.get_distribution_patterns data = Raise ZeroDivisionError)
  /\ (data <> [] ->
      exists distribution,
        FeaturesMore.get_distribution_patterns data = Ok distribution
        /\ Learn.keys distribution = ["1-10"; "11-20"; "21-30"; "31-40"; "41-49"]
        /\ Forall (fun v => 0 <= v <= 1)%Q (Learn.values distribution)
        /\ (Forall (fun num => 1 <= num <= 49) (Features.all_numbers data) ->
            (Py.sum (Learn.values distribution) == 1)%Q)).
Proof.
  split; [by intros ->|]. intros Hne.
  pose proof (length_all_numbers data) as Hlen.
  assert (0 < Z.of_nat (length (Features.all_numbers data))) as Hpos
    by (destruct data; [done|simpl in *; lia]).
  unfold FeaturesMore.get_distribution_patterns, FeaturesMore.intervals.
  cbn [FeaturesMore.distribution_loop].
  rewrite !truediv_nonzero by lia. cbn [bind Learn.dict_set String.eqb Ascii.eqb Bool.eqb].
  eexists. split; [reflexivity|]. split; [reflexivity|].
  set (n := Z.of_nat (length (Features.all_numbers data))) in *.
  split.
  - repeat (apply Forall_cons; split;
            [apply (truediv_bounds _ _ 1); [done|];
             pose proof (List.filter_length_le
                           (FeaturesMore.in_interval (1, 10))
                           (Features.all_numbers data));
             pose proof (List.filter_length_le
                           (FeaturesMore.in_interval (11, 20))
                           (Features.all_numbers data));
             pose proof (List.filter_length_le
                           (FeaturesMore.in_interval (21, 30))
                           (Features.all_numbers data));
             pose proof (List.filter_length_le
                           (FeaturesMore.in_interval (31, 40))
                           (Features.all_numbers data));
             pose proof (List.filter_length_le
                           (FeaturesMore.in_interval (41, 49))
                           (Features.all_numbers data));
             unfold n; lia|]).
    constructor.
  - intros Hrange. pose proof (interval_counts_total _ Hrange) as Htot.
    fold n in Htot. simpl in Htot. simpl.
    set (c1 := Z.of_nat (length (List.filter (FeaturesMore.in_interval (1, 10)) _))) in *.
    set (c2 := Z.of_nat (length (List.filter (FeaturesMore.in_interval (11, 20)) _))) in *.
    set (c3 := Z.of_nat (length (List.filter (FeaturesMore.in_interval (21, 30)) _))) in *.
    set (c4 := Z.of_nat (length (List.filter (FeaturesMore.in_interval (31, 40)) _))) in *.
    set (c5 := Z.of_nat (length (List.filter (FeaturesMore.in_interval (41, 49)) _))) in *.
    assert (inject_Z n == inject_Z c1 + inject_Z c2 + inject_Z c3
                          + inject_Z c4 + inject_Z c5)%Q as Hn.
    { rewrite <- !inject_Z_plus. apply inject_Z_injective. lia. }
    assert (~ inject_Z n == 0)%Q as Hnz.
    { change 0%Q with (inject_Z 0). rewrite inject_Z_injective. lia. }
    rewrite Hn in Hnz |- *. field. done.
Qed.

Lemma get_distribution_patterns_total_witness :
  exists distribution,
    FeaturesMore.get_distribution_patterns three_draws = Ok distribution
    /\ (Py.sum (Learn.values distribution) == 1)%Q.
Proof.
  destruct (proj2 (get_distribution_patterns_total three_draws))
    as (d & Hd & _ & _ & Hsum).
  - discriminate.
  - exists d. split; [exact Hd|]. apply Hsum.
    apply (bool_decide_unpack _). vm_compute. exact I.
Defined.

Lemma Counter_get (l : list Z) (x : Z) :
  default 0 (Features.Counter l !! x) = occurrences x l.
Proof.
  rewrite Counter_lookup. destruct (decide (x ∈ l)) as [|Hnin]; [done|].
  simpl. symmetry. by apply occurrences_zero.
Qed.

Lemma float_div_nonzero (round : Q -> Q) (a b : Z) :
  b <> 0 ->
  FeaturesMore.float_div round a b = Ok (round (inject_Z a / inject_Z b)%Q).
Proof.
  intros Hb. unfold FeaturesMore.float_div.
  by destruct (Z.eqb_spec b 0).
Qed.

(** What the loop of [get_hot_cold_numbers] has collected once it is left:
    the visited numbers that pass the first test, and those that fail it and
    pass the second, both tests on the rounded values. *)
Lemma hot_cold_loop_spec (round : Q -> Q) (threshold : Q)
    (data : list Features.row) (todo : list Z) (acc : FeaturesMore.hot_cold) :
  data <> [] ->
  exists hc,
    FeaturesMore.hot_cold_loop round threshold data
      (Features.Counter (Features.all_numbers data))
      (Features.Counter
         (Features.all_numbers (drop (length data - 10) data)))
      todo acc = Ok hc
    /\ (forall num, num ∈ FeaturesMore.hot hc <->
          num ∈ FeaturesMore.hot acc
          \/ (num ∈ todo
              /\ (round (round (total_freq data num) * threshold)
                  < round (recent_freq data num))%Q))
    /\ (forall num, num ∈ FeaturesMore.cold hc <->
          num ∈ FeaturesMore.cold acc
          \/ (num ∈ todo
              /\ ~ (round (round (total_freq data num) * threshold)
                    < round (recent_freq data num))%Q
              /\ (round (recent_freq data num)
                  < round (round (total_freq data num)
                           * round (1 - threshold)))%Q)).
Proof.
  intros Hne. revert acc. induction todo as [|n todo IH]; intros acc.
  - exists acc. split; [done|].
    split; intros num; (split; [by left|]);
      intros [?|[Hin _]]; [done| |done|]; by apply elem_of_nil in Hin.
  - cbn [FeaturesMore.hot_cold_loop].
    rewrite !float_div_nonzero by (destruct data; [done|simpl; lia]).
    cbn [bind]. rewrite !Counter_get.
    change (inject_Z (occurrences n (Features.all_numbers data))
            / inject_Z (Z.of_nat (length data)))%Q with (total_freq data n).
    change (inject_Z (occurrences n
              (Features.all_numbers (drop (length data - 10) data)))
            / inject_Z 10)%Q
      with (recent_freq data n).
    set (T := round (total_freq data n)).
    set (R := round (recent_freq data n)).
    destruct (Qlt_le_dec (round (T * threshold)%Q) R) as [Hhot|Hnhot];
      [|destruct (Qlt_le_dec R (round (T * round (1 - threshold))%Q))
          as [Hcold|Hncold]].
    + destruct (IH {| FeaturesMore.hot := FeaturesMore.hot acc ++ [n];
                      FeaturesMore.cold := FeaturesMore.cold acc |})
        as (hc & Hrun & Hh & Hc).
      exists hc. split; [exact Hrun|]. split; intros num.
      * rewrite Hh. cbn [FeaturesMore.hot].
        rewrite elem_of_app, list_elem_of_singleton, elem_of_cons.
        split; [intros [[?| ->]|[? ?]]|intros [?|[[-> |?] ?]]]; tauto.
      * rewrite Hc. cbn [FeaturesMore.cold]. rewrite elem_of_cons.
        split; [intros [?|(? & ? & ?)]|intros [?|([-> |?] & ? & ?)]];
          tauto.
    + destruct (IH {| FeaturesMore.hot := FeaturesMore.hot acc;
                      FeaturesMore.cold := FeaturesMore.cold acc ++ [n] |})
        as (hc & Hrun & Hh & Hc).
      apply Qle_not_lt in Hnhot.
      exists hc. split; [exact Hrun|]. split; intros num.
      * rewrite Hh. cbn [FeaturesMore.hot]. rewrite elem_of_cons.
        split; [intros [?|[? ?]]|intros [?|[[-> |?] ?]]]; tauto.
      * rewrite Hc. cbn [FeaturesMore.cold].
        rewrite elem_of_app, list_elem_of_singleton, elem_of_cons.
        split; [intros [[?| ->]|(? & ? & ?)]|intros [?|([-> |?] & ? & ?)]];
          tauto.
    + destruct (IH acc) as (hc & Hrun & Hh & Hc).
      apply Qle_not_lt in Hnhot. apply Qle_not_lt in Hncold.
      exists hc. split; [exact Hrun|]. split; intros num.
      * rewrite Hh. rewrite elem_of_cons.
        split; [intros [?|[? ?]]|intros [?|[[-> |?] ?]]]; tauto.
      * rewrite Hc. rewrite elem_of_cons.
        split; [intros [?|(? & ? & ?)]|intros [?|([-> |?] & ? & ?)]];
          tauto.
Qed.

Lemma round_bounds (round : Q -> Q) (x : Q) :
  rounds_to_nearest round -> (0 <= x)%Q ->
  ((1 - unit_roundoff) * x <= round x <= (1 + unit_roundoff) * x)%Q.
Proof.
  intros Hround Hx. specialize (Hround x).
  rewrite (Qabs_pos x Hx) in Hround.
  apply Qabs_Qle_condition in Hround as [Hlo Hhi].
  unfold unit_roundoff in *. split; lra.
Qed.

Lemma Qmult_le_both (a b c d : Q) :
  (0 <= a <= b)%Q -> (0 <= c <= d)%Q -> (a * c <= b * d)%Q.
Proof.
  intros [Ha Hab] [Hc Hcd].
  eapply Qle_trans; [apply Qmult_le_compat_r; [exact Hab|exact Hc]|].
  rewrite (Qmult_comm b c), (Qmult_comm b d).
  apply Qmult_le_compat_r; [exact Hcd|lra].
Qed.

(** The two tests on rounded values against the exact frequencies. *)
Lemma compare_rounded (round : Q -> Q) (t r threshold : Q) :
  rounds_to_nearest round ->
  (0 <= t)%Q -> (0 <= r)%Q -> (0 <= threshold <= 1)%Q ->
  let P := round (round t * threshold)%Q in
  let P2 := round (round t * round (1 - threshold))%Q in
  ((P < round r -> t * threshold < slack * r)
   /\ (slack * (t * threshold) < r -> P < round r)
   /\ (slack * r < t * threshold -> ~ P < round r)
   /\ (round r < P2 -> r < slack * (t * (1 - threshold)))
   /\ (slack * r < t * (1 - threshold) -> round r < P2))%Q.
Proof.
  intros Hround Ht Hr [Hth0 Hth1] P P2.
  pose proof (round_bounds round t Hround Ht) as [HTlo HThi].
  pose proof (round_bounds round r Hround Hr) as [HRlo HRhi].
  set (T := round t) in *. set (R := round r) in *.
  assert (0 <= 1 - unit_roundoff)%Q as Hu by (by vm_compute).
  assert (0 <= T)%Q as HT0.
  { eapply Qle_trans; [|exact HTlo]. apply Qmult_le_0_compat; done. }
  assert (((1 - unit_roundoff) * t) * threshold <= T * threshold)%Q as HXlo
    by (apply Qmult_le_compat_r; done).
  assert (T * threshold <= ((1 + unit_roundoff) * t) * threshold)%Q as HXhi
    by (apply Qmult_le_compat_r; done).
  assert (0 <= T * threshold)%Q as HX0 by (apply Qmult_le_0_compat; done).
  pose proof (round_bounds round (T * threshold)%Q Hround HX0) as [HPlo HPhi].
  fold P in HPlo, HPhi.
  assert (0 <= 1 - threshold)%Q as Ho by lra.
  pose proof (round_bounds round (1 - threshold)%Q Hround Ho) as [HOlo HOhi].
  set (O := round (1 - threshold)%Q) in *.
  assert (0 <= O)%Q as HO0.
  { eapply Qle_trans; [|exact HOlo]. apply Qmult_le_0_compat; done. }
  assert (((1 - unit_roundoff) * t) * ((1 - unit_roundoff) * (1 - threshold))
          <= T * O)%Q as HYlo.
  { apply Qmult_le_both; split; try done; apply Qmult_le_0_compat; done. }
  assert (T * O
          <= ((1 + unit_roundoff) * t)
             * ((1 + unit_roundoff) * (1 - threshold)))%Q as HYhi.
  { apply Qmult_le_both; split; done. }
  assert (0 <= T * O)%Q as HY0 by (apply Qmult_le_0_compat; done).
  pose proof (round_bounds round (T * O)%Q Hround HY0) as [HP2lo HP2hi].
  fold P2 in HP2lo, HP2hi.
  assert (0 <= t * threshold)%Q as Ha by (apply Qmult_le_0_compat; done).
  assert (0 <= t * (1 - threshold))%Q as Hb
    by (apply Qmult_le_0_compat; done).
  assert (t * (1 - threshold) == t - t * threshold)%Q as Hbeq by ring.
  clearbody P P2 T R O.
  unfold slack, unit_roundoff in *.
  set (a := (t * threshold)%Q) in *.
  assert ((1 - (1 # 9007199254740992)) * a <= T * threshold)%Q as HXlo'.
  { eapply Qle_trans; [|exact HXlo]. unfold a. apply Qle_lteq. right. ring. }
  assert (T * threshold <= (1 + (1 # 9007199254740992)) * a)%Q as HXhi'.
  { eapply Qle_trans; [exact HXhi|]. unfold a. apply Qle_lteq. right. ring. }
  assert ((1 - (1 # 9007199254740992)) * (1 - (1 # 9007199254740992))
          * (t - a) <= T * O)%Q as HYlo'.
  { eapply Qle_trans; [|exact HYlo]. unfold a. apply Qle_lteq. right. ring. }
  assert (T * O <= (1 + (1 # 9007199254740992)) * (1 + (1 # 9007199254740992))
                   * (t - a))%Q as HYhi'.
  { eapply Qle_trans; [exact HYhi|]. unfold a. apply Qle_lteq. right. ring. }
  clear HXlo HXhi HYlo HYhi.
  rewrite Hbeq in *. fold a in Hb |- *.
  generalize dependent (T * threshold)%Q. intros X ? ? ? ? ?.
  generalize dependent (T * O)%Q. intros Y ? ? ? ? ?.
  clearbody a.
  repeat split; intros; lra.
Qed.

Lemma frequencies_nonneg (data : list Features.row) (num : Z) :
  (0 <= total_freq data num)%Q /\ (0 <= recent_freq data num)%Q.
Proof.
  unfold total_freq, recent_freq, occurrences. split.
  - destruct data as [|row data].
    + simpl. by vm_compute.
    + apply Qle_shift_div_l.
      * change 0%Q with (inject_Z 0). rewrite <- Zlt_Qlt. simpl length. lia.
      * rewrite Qmult_0_l. change 0%Q with (inject_Z 0).
        rewrite <- Zle_Qle. lia.
  - apply Qle_shift_div_l; [by vm_compute|].
    rewrite Qmult_0_l. change 0%Q with (inject_Z 0). rewrite <- Zle_Qle. lia.
Qed.

Lemma exact_rounds_to_nearest : rounds_to_nearest (fun x => x).
Proof.
  intros x. assert (x - x == 0)%Q as -> by ring.
  change (Qabs 0) with 0%Q. apply Qmult_le_0_compat; [by vm_compute|].
  apply Qabs_nonneg.
Qed.

(** X18. With every float operation rounded to the nearest double and a
    threshold in [0, 1], on a non-empty history: a number is reported hot
    only if it lies in 1..49 and a tenth of its count in the last ten draws
    is not below its overall frequency times the threshold by more than
    the factor 1 + 2^-50, and it is reported hot whenever it lies in 1..49
    and the recent figure exceeds that product by more than this factor.
    Likewise it is reported cold only if it is not hot and the recent
    figure is not above the overall frequency times one minus the
    threshold by more than the factor, and it is reported cold whenever
    the recent figure is below both products by more than the factor. No
    number is both hot and cold, and a number that was never drawn is
    neither. On the empty history the function raises
    [ZeroDivisionError]. *)
Theorem get_hot_cold_numbers_spec (round : Q -> Q)
    (data : list Features.row) (threshold : Q) :
  rounds_to_nearest round ->
  (0 <= threshold <= 1)%Q ->
  (data = [] ->
   FeaturesMore.get_hot_cold_numbers round data threshold
   = Raise ZeroDivisionError)
  /\ (data <> [] ->
      exists hc,
        FeaturesMore.get_hot_cold_numbers round data threshold = Ok hc
        /\ (forall num, num ∈ FeaturesMore.hot hc ->
              1 <= num <= 49
              /\ (total_freq data num * threshold
                  < slack * recent_freq data num)%Q)
        /\ (forall num,
              1 <= num <= 49 ->
              (slack * (total_freq data num * threshold)
               < recent_freq data num)%Q ->
              num ∈ FeaturesMore.hot hc)
        /\ (forall num, num ∈ FeaturesMore.cold hc ->
              1 <= num <= 49
              /\ (recent_freq data num
                  < slack * (total_freq data num * (1 - threshold)))%Q)
        /\ (forall num,
              1 <= num <= 49 ->
              (slack * recent_freq data num
               < total_freq data num * threshold)%Q ->
              (slack * recent_freq data num
               < total_freq data num * (1 - threshold))%Q ->
              num ∈ FeaturesMore.cold hc)
        /\ (forall num, num ∈ FeaturesMore.hot hc ->
                        num ∉ FeaturesMore.cold hc)
        /\ (forall num, num ∉ Features.all_numbers data ->
              (num ∉ FeaturesMore.hot hc) /\ (num ∉ FeaturesMore.cold hc))).
Proof.
  intros Hround Hthreshold.
  split; [by intros ->|]. intros Hne.
  assert (Features.get_recent_appearances data 10
          = Features.Counter
              (Features.all_numbers (drop (length data - 10) data)))
    as Hrecent.
  { unfold Features.get_recent_appearances, Features.slice_from.
    change (- (10) * 6 <? 0) with true. cbn iota.
    rewrite all_numbers_drop, length_all_numbers. do 2 f_equal. lia. }
  unfold FeaturesMore.get_hot_cold_numbers.
  rewrite Hrecent. unfold Features.get_total_appearances.
  destruct (hot_cold_loop_spec round threshold data (Py.range 1 50)
              {| FeaturesMore.hot := []; FeaturesMore.cold := [] |} Hne)
    as (hc & Hrun & Hh & Hc).
  assert (forall num, num ∈ Py.range 1 50 <-> 1 <= num <= 49) as Hrange.
  { intros num. unfold Py.range. rewrite elem_of_seqZ. lia. }
  assert (forall num,
            (0 <= total_freq data num)%Q /\ (0 <= recent_freq data num)%Q)
    as Hnn by (intros num; apply frequencies_nonneg).
  exists hc. split; [exact Hrun|].
  split; [|split; [|split; [|split; [|split]]]].
  - intros num Hin. apply Hh in Hin as [Hin|[Hin Hhot]];
      [by apply elem_of_nil in Hin|].
    split; [by apply Hrange|].
    destruct (Hnn num) as [Ht Hr].
    by apply (compare_rounded round _ _ threshold Hround Ht Hr Hthreshold).
  - intros num Hnum Hclear. apply Hh. right. split; [by apply Hrange|].
    destruct (Hnn num) as [Ht Hr].
    by apply (compare_rounded round _ _ threshold Hround Ht Hr Hthreshold).
  - intros num Hin. apply Hc in Hin as [Hin|(Hin & Hnhot & Hcold)];
      [by apply elem_of_nil in Hin|].
    split; [by apply Hrange|].
    destruct (Hnn num) as [Ht Hr].
    by apply (compare_rounded round _ _ threshold Hround Ht Hr Hthreshold).
  - intros num Hnum Hbelow Hclear. apply Hc. right.
    split; [by apply Hrange|].
    destruct (Hnn num) as [Ht Hr].
    destruct (compare_rounded round _ _ threshold Hround Ht Hr Hthreshold)
      as (_ & _ & Hnot & _ & Hcold).
    split; [by apply Hnot|by apply Hcold].
  - intros num Hin Hin'.
    apply Hh in Hin as [Hin|[_ Hhot]]; [by apply elem_of_nil in Hin|].
    apply Hc in Hin' as [Hin'|(_ & Hnhot & _)];
      [by apply elem_of_nil in Hin'|]. done.
  - intros num Hnin.
    assert (total_freq data num == 0)%Q as Htot.
    { unfold total_freq. rewrite (proj1 (occurrences_zero _ _) Hnin).
      unfold Qdiv. apply Qmult_0_l. }
    assert (recent_freq data num == 0)%Q as Hrec.
    { unfold recent_freq. rewrite (proj1 (occurrences_zero _ _));
        [reflexivity|].
      intros Hin. apply Hnin. rewrite all_numbers_drop in Hin.
      by apply (subseteq_drop _ _ _ Hin). }
    destruct (Hnn num) as [Ht Hr].
    destruct (compare_rounded round _ _ threshold Hround Ht Hr Hthreshold)
      as (Hhot & _ & _ & Hcold & _).
    split; intros Hin.
    + apply Hh in Hin as [Hin|[_ Hin]]; [by apply elem_of_nil in Hin|].
      apply Hhot in Hin. rewrite Htot, Hrec in Hin.
      rewrite Qmult_0_l, Qmult_0_r in Hin. by apply Qlt_irrefl in Hin.
    + apply Hc in Hin as [Hin|(_ & _ & Hin)]; [by apply elem_of_nil in Hin|].
      apply Hcold in Hin. rewrite Htot, Hrec in Hin.
      rewrite Qmult_0_l, Qmult_0_r in Hin. by apply Qlt_irrefl in Hin.
Qed.

Lemma get_hot_cold_numbers_spec_witness :
  exists hc,
    FeaturesMore.get_hot_cold_numbers (fun x => x) three_draws (1 # 2) = Ok hc
    /\ 7 ∈ FeaturesMore.cold hc
    /\ (4 ∉ FeaturesMore.hot hc) /\ (4 ∉ FeaturesMore.cold hc).
Proof.
  destruct (proj2 (get_hot_cold_numbers_spec (fun x => x) three_draws (1 # 2)
                     exact_rounds_to_nearest
                     ltac:(split; by vm_compute)))
    as (hc & Hrun & _ & _ & _ & Hcold & _ & Hnever).
  - discriminate.
  - exists hc. split; [exact Hrun|]. split.
    + apply Hcold; [lia|by vm_compute..].
    + apply Hnever. apply (bool_decide_unpack _). vm_compute. exact I.
Defined.

(** ** The candidate pool and the combination score *)

Section StableSort.

Context {A : Type} (leb : A -> A -> bool) (before : A -> A -> Prop).
Hypothesis leb_total : forall x y, leb x y = true \/ leb y x = true.
Hypothesis leb_trans :
  forall x y z, leb x y = true -> leb y z = true -> leb x z = true.

Lemma insert_stably (x : A) (l : list A) :
  Forall (before x) l ->
  StronglySorted (stably leb before) l ->
  StronglySorted (stably leb before) (Py.insert leb x l).
Proof.
  intros Hx Hl. induction Hl as [|y l Hl IH Hy]; simpl.
  - repeat constructor.
  - apply Forall_cons in Hx as [Hxy Hx].
    destruct (leb x y) eqn:Hleb.
    + constructor; [by constructor|]. constructor; [by split|].
      apply Forall_forall. intros z Hz.
      pose proof (proj1 (Forall_forall _ _) Hy z Hz) as [Hyz _].
      split; [by eapply leb_trans|].
      intros _. by apply (proj1 (Forall_forall _ _) Hx).
    + constructor; [by apply IH|].
      apply Forall_forall. intros z Hz.
      apply (elem_of_Permutation_proper _ _ _ (insert_Permutation leb x l)) in Hz.
      apply elem_of_cons in Hz as [->|Hz].
      * split; [|congruence]. destruct (leb_total x y); [congruence|done].
      * by apply (proj1 (Forall_forall _ _) Hy).
Qed.

Lemma sort_by_stably (l : list A) :
  StronglySorted before l -> StronglySorted (stably leb before) (Py.sort_by leb l).
Proof.
  induction 1 as [|x l Hl IH Hx]; simpl; [constructor|].
  apply insert_stably; [|done].
  apply Forall_forall. intros y Hy. apply (proj1 (Forall_forall _ _) Hx).
  by apply (elem_of_Permutation_proper _ _ _ (sort_by_Permutation leb l)) in Hy.
Qed.

End StableSort.

Lemma slice_to_take {A} (n : Z) (l : list A) :
  exists k,
    Py.slice_to n l = take k l
    /\ Z.of_nat k = if 0 <=? n then n else Z.max 0 (Z.of_nat (length l) + n).
Proof.
  unfold Py.slice_to. destruct (Z.leb_spec 0 n).
  - exists (Z.to_nat n). split; [done|lia].
  - exists (length l - Z.to_nat (- n))%nat. split; [done|lia].
Qed.

Lemma scored_range_sorted (score : Z -> Q) (a b : Z) :
  StronglySorted (fun x y : Z * Q => x.1 < y.1)
    ((fun num => (num, score num)) <$> Py.range a b).
Proof.
  unfold Py.range, seqZ. generalize (Z.to_nat (b - a)) as n. intros n.
  generalize 0%nat as j. induction n as [|n IH]; intros j.
  - constructor.
  - cbn [seq fmap list_fmap]. constructor; [apply IH|].
    apply Forall_forall. intros [y sy] Hy.
    apply list_elem_of_fmap in Hy as (y' & [= -> ->] & Hy).
    apply list_elem_of_fmap in Hy as (i & -> & Hi).
    apply elem_of_seq in Hi. simpl. lia.
Qed.

Lemma candidates_length (score : Z -> Q) (num_candidates : Z) :
  Z.of_nat (length (PredictAdaptive.candidates score num_candidates))
  = (if 0 <=? num_candidates then Z.min num_candidates 49
     else Z.max 0 (49 + num_candidates)).
Proof.
  unfold PredictAdaptive.candidates.
  set (ranking := Py.sorted_desc snd _).
  assert (length ranking = 49%nat) as Hlen.
  { unfold ranking. rewrite sorted_desc_Permutation.
    rewrite length_fmap. unfold Py.range. by rewrite length_seqZ. }
  destruct (slice_to_take num_candidates ranking) as (k & -> & Hk).
  rewrite Hlen in Hk.
  rewrite length_fmap, length_take, Hlen. revert Hk.
  destruct (Z.leb_spec 0 num_candidates); lia.
Qed.

(** X19. The candidate pool is a prefix of the numbers 1..49 ranked by
    score, best first, ties in ascending order of the number: its members
    are distinct, a number outside the pool never scores higher than a
    member, and on equal scores the member is the smaller number. The pool
    has [min(num_candidates, 49)] numbers for a non-negative
    [num_candidates] and [max(0, 49 + num_candidates)] for a negative one. *)
Theorem candidates_top_scored (score : Z -> Q) (num_candidates : Z) :
  let pool := PredictAdaptive.candidates score num_candidates in
  NoDup pool
  /\ Z.of_nat (length pool)
     = (if 0 <=? num_candidates then Z.min num_candidates 49
        else Z.max 0 (49 + num_candidates))
  /\ (forall x y,
        x ∈ pool -> 1 <= y <= 49 -> y ∉ pool ->
        (score y <= score x)%Q /\ ((score x == score y)%Q -> x < y)).
Proof.
  intros pool. split; [apply candidates_NoDup|].
  split; [apply candidates_length|].
  unfold pool, PredictAdaptive.candidates.
  set (items := (fun num => (num, score num)) <$> Py.range 1 50).
  set (ranking := Py.sorted_desc snd items).
  destruct (slice_to_take num_candidates ranking) as (k & -> & _).
  - intros x y Hx Hy Hny.
    assert (StronglySorted
              (stably (fun a b : Z * Q => Qle_bool b.2 a.2)
                      (fun a b => a.1 < b.1)) ranking) as Hsorted.
    { apply sort_by_stably.
      - intros a b. destruct (Qlt_le_dec a.2 b.2) as [Hlt|Hle].
        + right. apply Qle_bool_iff. by apply Qlt_le_weak.
        + left. by apply Qle_bool_iff.
      - intros a b c Hab Hbc. apply Qle_bool_iff.
        apply Qle_bool_iff in Hab, Hbc. by eapply Qle_trans.
      - apply scored_range_sorted. }
    apply list_elem_of_fmap in Hx as ([x' sx] & -> & Hx).
    apply list_elem_of_lookup in Hx as (i & Hi).
    assert ((x', sx) ∈ ranking) as Hxin.
    { apply list_elem_of_lookup. exists i.
      by apply lookup_take_Some in Hi as [? _]. }
    assert ((y, score y) ∈ ranking) as Hyin.
    { unfold ranking. rewrite sorted_desc_Permutation. unfold items.
      apply list_elem_of_fmap. exists y. split; [done|].
      unfold Py.range. apply elem_of_seqZ. lia. }
    assert (sx = score x') as ->.
    { unfold ranking in Hxin. rewrite sorted_desc_Permutation in Hxin.
      apply list_elem_of_fmap in Hxin as (? & [= -> ->] & _). done. }
    apply list_elem_of_lookup in Hyin as (j & Hj).
    apply lookup_take_Some in Hi as [Hi Hik].
    assert (k <= j)%nat as Hkj.
    { destruct (decide (k <= j)%nat) as [|Hlt]; [done|]. exfalso.
      apply Hny. apply list_elem_of_fmap. exists (y, score y).
      split; [done|]. apply list_elem_of_lookup. exists j.
      apply lookup_take_Some. split; [done|lia]. }
    destruct (StronglySorted_lookup_lt _ _ i j _ _ Hsorted ltac:(lia) Hi Hj)
      as [Hle Htie].
    simpl in Hle, Htie. apply Qle_bool_iff in Hle. split; [exact Hle|].
    intros Heq. apply Htie. apply Qle_bool_iff. rewrite Heq. apply Qle_refl.
Qed.

Lemma candidates_top_scored_witness :
  length (PredictAdaptive.candidates flat_score 20) = 20%nat
  /\ (forall y, 1 <= y <= 49 ->
        y ∉ PredictAdaptive.candidates flat_score 20 -> 20 < y).
Proof.
  destruct (candidates_top_scored flat_score 20) as (_ & Hlen & Htop).
  change (if 0 <=? 20 then Z.min 20 49 else Z.max 0 (49 + 20)) with 20 in Hlen.
  split; [lia|].
  intros y Hy Hny.
  apply (Htop 20 y); [|done|done|reflexivity].
  apply (bool_decide_unpack _). vm_compute. exact I.
Defined.

Lemma count_if_Permutation {A} (f : A -> bool) (l l' : list A) :
  l ≡ₚ l' -> PredictAdaptive.count_if f l = PredictAdaptive.count_if f l'.
Proof.
  unfold PredictAdaptive.count_if.
  induction 1 as [|x l l' _ IH|x y l|l l' l'' _ IH1 _ IH2]; simpl.
  - done.
  - destruct (f x); simpl; lia.
  - destruct (f x), (f y); simpl; lia.
  - lia.
Qed.

Lemma count_if_bounds {A} (f : A -> bool) (l : list A) :
  0 <= PredictAdaptive.count_if f l <= Z.of_nat (length l).
Proof.
  unfold PredictAdaptive.count_if.
  pose proof (List.filter_length_le f l). lia.
Qed.

Lemma foldr_add_Permutation (l l' : list Z) :
  l ≡ₚ l' -> foldr Z.add 0 l = foldr Z.add 0 l'.
Proof.
  induction 1 as [|x l l' _ IH|x y l|l l' l'' _ IH1 _ IH2]; simpl; lia.
Qed.

Lemma foldr_add_bounds (lo hi : Z) (l : list Z) :
  Forall (fun num => lo <= num <= hi) l ->
  lo * Z.of_nat (length l) <= foldr Z.add 0 l <= hi * Z.of_nat (length l).
Proof.
  induction 1 as [|x l Hx _ IH]; simpl; [lia|]. nia.
Qed.

Lemma sorted_Permutation_eq (l l' : list Z) :
  l ≡ₚ l' -> Py.sorted l = Py.sorted l'.
Proof.
  intros Hperm.
  assert (forall l0, StronglySorted Z.le (Py.sorted l0)) as Hsorted.
  { intros l0. eapply StronglySorted_weaken;
      [|apply (sort_by_StronglySorted Z.leb)].
    - intros a b. apply Z.leb_le.
    - intros x y. rewrite !Z.leb_le. lia.
    - intros x y z. rewrite !Z.leb_le. lia. }
  apply (StronglySorted_unique Z.le); [apply Hsorted..|].
  by rewrite !sorted_Permutation.
Qed.

Lemma interval_points_bounds (count : Z) :
  (3 # 10 <= PredictAdaptive.interval_points count <= 1)%Q.
Proof.
  unfold PredictAdaptive.interval_points.
  destruct ((1 <=? count) && (count <=? 2)); [|destruct (count =? 0)];
    split; by vm_compute.
Qed.

Lemma interval_counts_Permutation (l l' : list Z) :
  l ≡ₚ l' ->
  PredictAdaptive.interval_counts l = PredictAdaptive.interval_counts l'.
Proof.
  intros Hperm. unfold PredictAdaptive.interval_counts.
  apply list_fmap_ext. intros _ b _. by apply count_if_Permutation.
Qed.

(** X20. The combination score depends on the six numbers only, not on
    the order in which they were drawn. *)
Theorem calculate_combination_score_Permutation (numbers numbers' : list Z) :
  numbers ≡ₚ numbers' ->
  PredictAdaptive.calculate_combination_score numbers
  = PredictAdaptive.calculate_combination_score numbers'.
Proof.
  intros Hperm. unfold PredictAdaptive.calculate_combination_score.
  rewrite (Permutation_length Hperm), (foldr_add_Permutation _ _ Hperm),
    (sorted_Permutation_eq _ _ Hperm),
    (interval_counts_Permutation _ _ Hperm).
  by rewrite !(count_if_Permutation _ _ _ Hperm).
Qed.

Lemma calculate_combination_score_Permutation_witness :
  PredictAdaptive.calculate_combination_score [47; 6; 36; 11; 27; 20]
  = PredictAdaptive.calculate_combination_score [6; 11; 20; 27; 36; 47].
Proof.
  apply calculate_combination_score_Permutation.
  apply (bool_decide_unpack _). vm_compute. exact I.
Defined.

Lemma distribution_points_bounds (l : list Z) :
  (3 # 2 <= Py.sum (PredictAdaptive.interval_points
                      <$> PredictAdaptive.interval_counts l) <= 5)%Q.
Proof.
  unfold PredictAdaptive.interval_counts.
  cbn [seq fmap list_fmap Py.sum foldr].
  repeat match goal with
         | |- context [PredictAdaptive.interval_points ?c] =>
             pose proof (interval_points_bounds c);
             generalize dependent (PredictAdaptive.interval_points c); intros
         end.
  lra.
Qed.

Lemma inject_Z_bounds (lo hi x : Z) :
  lo <= x <= hi -> (inject_Z lo <= inject_Z x <= inject_Z hi)%Q.
Proof. intros [? ?]. split; rewrite <- Zle_Qle; lia. Qed.

Lemma combination_score_le (numbers : list Z) :
  (PredictAdaptive.calculate_combination_score numbers <= 4 # 5)%Q.
Proof.
  unfold PredictAdaptive.calculate_combination_score.
    destruct (Nat.eqb_spec (length numbers) 6) as [Hlen|_];
      [|by vm_compute].
    cbn [negb].
    pose proof (distribution_points_bounds numbers) as HD.
    set (D := Py.sum _) in *. clearbody D.
    set (T := Z.abs _). set (B := Z.abs _). set (P := Z.abs _).
    set (S := Z.abs _). set (C := Features.count_consecutive _).
    pose proof (inject_Z_bounds 0 T T ltac:(unfold T; lia)) as [HT _].
    pose proof (inject_Z_bounds 0 B B ltac:(unfold B; lia)) as [HB _].
    pose proof (inject_Z_bounds 0 P P ltac:(unfold P; lia)) as [HP _].
    pose proof (inject_Z_bounds 0 S S ltac:(unfold S; lia)) as [HS _].
    assert (0 <= C) as HC0.
    { unfold C. destruct (count_consecutive_bounds (Py.sorted numbers))
        as [?|[_ ->]]; lia. }
    pose proof (inject_Z_bounds 0 C C ltac:(lia)) as [HC _].
    change (inject_Z 0) with 0%Q in *.
    clearbody T B P S C. unfold Qdiv.
    change (/ inject_Z 147)%Q with (1 # 147)%Q.
    change (/ 6)%Q with (1 # 6)%Q. change (/ 5)%Q with (1 # 5)%Q.
    change (/ 3)%Q with (1 # 3)%Q.
    generalize dependent (inject_Z T). generalize dependent (inject_Z B).
    generalize dependent (inject_Z P). generalize dependent (inject_Z S).
    generalize dependent (inject_Z C). intros. lra.
Qed.

(** X21. A combination that does not have exactly six numbers scores 0.
    The score never exceeds 0.8, the sum of the six part weights, and
    [6, 11, 20, 27, 36, 47] reaches it; for six numbers in 1..49 it is
    positive, although the part for consecutive numbers can be negative. *)
Theorem calculate_combination_score_bounds (numbers : list Z) :
  (length numbers <> 6%nat ->
   PredictAdaptive.calculate_combination_score numbers = 0%Q)
  /\ (PredictAdaptive.calculate_combination_score numbers <= 4 # 5)%Q
  /\ (length numbers = 6%nat ->
      Forall (fun num => 1 <= num <= 49) numbers ->
      (0 < PredictAdaptive.calculate_combination_score numbers)%Q)
  /\ Qeq (PredictAdaptive.calculate_combination_score [6; 11; 20; 27; 36; 47])
         (4 # 5).
Proof.
  split; [|split; [|split; [|by vm_compute]]].
  - intros Hlen. unfold PredictAdaptive.calculate_combination_score.
    by destruct (Nat.eqb_spec (length numbers) 6).
  - apply combination_score_le.
  - intros Hlen Hrange.
    unfold PredictAdaptive.calculate_combination_score.
    rewrite Hlen. cbn [Nat.eqb negb].
    pose proof (distribution_points_bounds numbers) as HD.
    set (D := Py.sum _) in *. clearbody D.
    pose proof (foldr_add_bounds 1 49 numbers Hrange) as Htotal.
    rewrite Hlen in Htotal.
    pose proof (count_if_bounds (fun num => num mod 2 =? 1) numbers) as Hodd.
    pose proof (count_if_bounds PredictAdaptive.is_prime numbers) as Hprime.
    pose proof (count_if_bounds PredictAdaptive.is_square numbers) as Hsquare.
    rewrite Hlen in Hodd, Hprime, Hsquare.
    assert (0 <= Features.count_consecutive (Py.sorted numbers) <= 5) as Hcons.
    { assert (length (Py.sorted numbers) = 6%nat) as Hl
        by (unfold Py.sorted; by rewrite length_sort_by).
      destruct (count_consecutive_bounds (Py.sorted numbers))
        as [Hb|[_ ->]]; [|lia].
      rewrite Hl in Hb. lia. }
    cbv zeta.
    set (T := Z.abs (foldr Z.add 0 numbers - 147)).
    set (B := Z.abs (PredictAdaptive.count_if _ numbers
                     - (6 - PredictAdaptive.count_if _ numbers))).
    set (P := Z.abs (PredictAdaptive.count_if _ numbers - 2)).
    set (S := Z.abs (PredictAdaptive.count_if _ numbers - 1)).
    set (C := Features.count_consecutive _) in *.
    assert (0 <= T <= 147) as HT by (unfold T; clear - Htotal; lia).
    assert (0 <= B <= 6) as HB by (unfold B; clear - Hodd; lia).
    assert (0 <= P <= 4) as HP by (unfold P; clear - Hprime; lia).
    assert (0 <= S <= 5) as HS by (unfold S; clear - Hsquare; lia).
    apply inject_Z_bounds in HT, HB, HP, HS.
    pose proof (inject_Z_bounds 0 5 C Hcons) as HC.
    change (inject_Z 0) with 0%Q in *.
    change (inject_Z 147) with 147%Q in *. change (inject_Z 6) with 6%Q in *.
    change (inject_Z 4) with 4%Q in *. change (inject_Z 5) with 5%Q in *.
    clearbody T B P S C. unfold Qdiv.
    change (/ 147)%Q with (1 # 147)%Q.
    change (/ 6)%Q with (1 # 6)%Q. change (/ 5)%Q with (1 # 5)%Q.
    change (/ 3)%Q with (1 # 3)%Q.
    generalize dependent (inject_Z T). generalize dependent (inject_Z B).
    generalize dependent (inject_Z P). generalize dependent (inject_Z S).
    generalize dependent (inject_Z C). intros. lra.
Qed.

Lemma calculate_combination_score_bounds_witness :
  PredictAdaptive.calculate_combination_score [1; 2; 3] = 0%Q
  /\ Qlt 0 (PredictAdaptive.calculate_combination_score [1; 2; 3; 4; 5; 6]).
Proof.
  split.
  - apply (proj1 (calculate_combination_score_bounds [1; 2; 3])). simpl. lia.
  - apply (proj1 (proj2 (proj2
             (calculate_combination_score_bounds [1; 2; 3; 4; 5; 6]))));
      [done|].
    apply (bool_decide_unpack _). vm_compute. exact I.
Defined.

(** X22. With a pool of fewer than six numbers and at least one requested
    prediction, the first [random.sample] raises [ValueError] and
    [predict_numbers] with it; that is so for [num_candidates] in 0..5 and
    for [num_candidates] below -43. *)
Theorem predict_numbers_ValueError (score : Z -> Q) (rng : nat -> nat -> nat)
    (fuel : nat) (num_candidates num_predictions : Z) :
  0 <= num_candidates < 6 \/ num_candidates < -43 ->
  1 <= num_predictions ->
  (1 <= fuel)%nat ->
  PredictAdaptive.predict_numbers score rng fuel num_candidates num_predictions
  = Some (Raise ValueError).
Proof.
  intros Hn Hk Hfuel.
  pose proof (candidates_length score num_candidates) as Hlen.
  assert (length (PredictAdaptive.candidates score num_candidates) < 6)%nat
    as Hpool.
  { revert Hlen. destruct (Z.leb_spec 0 num_candidates); lia. }
  unfold PredictAdaptive.predict_numbers, PredictAdaptive.sampling_loop.
  destruct fuel as [|fuel]; [lia|]. cbn [PredictAdaptive.while].
  unfold PredictAdaptive.sampling_cond at 1. cbn [PredictAdaptive.predictions
    PredictAdaptive.attempts length].
  destruct (Z.ltb_spec (Z.of_nat 0) num_predictions); [|lia].
  destruct (Z.ltb_spec 0 (num_predictions * 100)); [|lia].
  cbn [andb]. unfold PredictAdaptive.sampling_body at 1,
    PredictAdaptive.random_sample.
  destruct (Nat.ltb_spec
              (length (PredictAdaptive.candidates score num_candidates)) 6);
    [done|lia].
Qed.

Lemma predict_numbers_ValueError_witness :
  PredictAdaptive.predict_numbers flat_score zero_rng 1 5 1
  = Some (Raise ValueError).
Proof. apply predict_numbers_ValueError; lia. Defined.

(** ** The learning system *)









(** ** The per-number score *)

Lemma expected_appearances_positive (data_len : nat) :
  data_len <> 0%nat -> (0 < expected_appearances data_len)%Q.
Proof.
  intros Hne. unfold expected_appearances, Qdiv.
  change (/ 49)%Q with (1 # 49)%Q.
  assert (inject_Z 1 <= inject_Z (Z.of_nat data_len * 6))%Q as H
    by (rewrite <- Zle_Qle; lia).
  change (inject_Z 1) with 1%Q in H. lra.
Qed.

Lemma fdiv_nonzero (a b : Q) :
  ~ (b == 0)%Q -> PredictAdaptiveMore.fdiv a b = Ok (a / b)%Q.
Proof.
  intros Hb. unfold PredictAdaptiveMore.fdiv.
  destruct (Qeq_bool b 0) eqn:Heq; [|done].
  by apply Qeq_bool_iff in Heq.
Qed.

Lemma calculate_number_score_parts (data_len : nat)
    (features : PredictAdaptiveMore.all_features)
    (weights : Learn.weight_dict) (number : Z) :
  data_len <> 0%nat ->
  Forall (fun name => is_Some (Learn.dict_get name weights))
         (Learn.keys Learn.default_weights) ->
  PredictAdaptiveMore.calculate_number_score data_len features weights number
  = Ok (weighted_sum weights (part_scores data_len features number)).
Proof.
  intros Hlen Hall.
  pose proof (expected_appearances_positive data_len Hlen) as Hpos.
  unfold Learn.keys in Hall. cbn [Learn.default_weights fmap list_fmap fst] in Hall.
  repeat match goal with
         | H : Forall _ (_ :: _) |- _ => apply Forall_cons in H as [[? ?] H]
         end.
  unfold PredictAdaptiveMore.calculate_number_score,
    PredictAdaptiveMore.weight.
  fold (expected_appearances data_len).
  rewrite fdiv_nonzero by lra. cbn [bind].
  unfold weighted_sum, part_scores. cbn [foldl fst snd].
  repeat match goal with
         | H : Learn.dict_get ?k weights = Some _ |- _ =>
             rewrite H; clear H
         end.
  cbn [bind default from_option id]. unfold interval_score.
  destruct (Qlt_le_dec (expected_appearances data_len * (15 # 10)) _).
  - rewrite fdiv_nonzero by lra. cbn [bind]. reflexivity.
  - cbn [bind]. reflexivity.
Qed.

Lemma lookups_sum_le (weights : Learn.weight_dict) (names : list string) :
  NoDup names ->
  Forall (fun v => 0 <= v)%Q (Learn.values weights) ->
  (Py.sum ((fun name => default 0%Q (Learn.dict_get name weights)) <$> names)
   <= Py.sum (Learn.values weights))%Q.
Proof.
  revert names. induction weights as [|[k0 v0] w IH]; intros names Hnd Hpos.
  - clear Hnd. change (Py.sum (Learn.values [])) with 0%Q.
    induction names as [|n names IHn]; [by vm_compute|].
    cbn [fmap list_fmap Learn.dict_get default from_option id] in *.
    rewrite sum_cons. lra.
  - unfold Learn.values in *. cbn [fmap list_fmap snd] in *.
    apply Forall_cons in Hpos as [Hv0 Hpos]. rewrite sum_cons.
    assert (0 <= Py.sum w.*2)%Q as Hsum.
    { clear -Hpos. induction Hpos as [|y l Hy _ IHl]; simpl; lra. }
    destruct (decide (k0 ∈ names)) as [Hin|Hnin].
    + apply elem_of_Permutation in Hin as [names' Hperm].
      rewrite (sum_Permutation _ _ (fmap_Permutation _ _ _ Hperm)).
      rewrite Hperm in Hnd. apply NoDup_cons in Hnd as [Hk0 Hnd'].
      cbn [fmap list_fmap Learn.dict_get]. rewrite String.eqb_refl, sum_cons.
      cbn [default from_option id].
      assert ((fun name => default 0%Q
                 (if String.eqb name k0 then Some v0 else Learn.dict_get name w))
                <$> names'
              = (fun name => default 0%Q (Learn.dict_get name w)) <$> names')
        as Heq.
      { apply list_fmap_ext. intros i name Hname.
        destruct (String.eqb_spec name k0) as [->|_]; [|done].
        exfalso. apply Hk0. by eapply list_elem_of_lookup_2. }
      change (list_fmap _ _ ?f ?l) with (f <$> l). rewrite Heq.
      specialize (IH names' Hnd' Hpos). lra.
    + assert ((fun name => default 0%Q (Learn.dict_get name ((k0, v0) :: w)))
                <$> names
              = (fun name => default 0%Q (Learn.dict_get name w)) <$> names)
        as Heq.
      { apply list_fmap_ext. intros i name Hname. cbn [Learn.dict_get].
        destruct (String.eqb_spec name k0) as [->|_]; [|done].
        exfalso. apply Hnin. by eapply list_elem_of_lookup_2. }
      rewrite Heq. specialize (IH names Hnd Hpos). lra.
Qed.

Lemma lookup_nonneg (weights : Learn.weight_dict) (name : string) :
  Forall (fun v => 0 <= v)%Q (Learn.values weights) ->
  (0 <= default 0 (Learn.dict_get name weights))%Q.
Proof.
  intros Hpos. induction weights as [|[k v] w IH]; simpl; [lra|].
  unfold Learn.values in Hpos. cbn [fmap list_fmap snd] in Hpos.
  apply Forall_cons in Hpos as [Hv Hpos].
  destruct (String.eqb name k); [done|by apply IH].
Qed.

Lemma weighted_sum_le (weights : Learn.weight_dict)
    (parts : list (string * Q)) :
  Forall (fun v => 0 <= v)%Q (Learn.values weights) ->
  Forall (fun part => part.2 <= 1)%Q parts ->
  (weighted_sum weights parts
   <= Py.sum ((fun name => default 0%Q (Learn.dict_get name weights))
                <$> parts.*1))%Q.
Proof.
  intros Hpos Hparts. unfold weighted_sum.
  assert (forall acc,
            (foldl (fun score part =>
                      score + default 0 (Learn.dict_get part.1 weights) * part.2)
                   acc parts
             <= acc + Py.sum ((fun name =>
                                 default 0%Q (Learn.dict_get name weights))
                                <$> parts.*1))%Q) as Hgen.
  { induction Hparts as [|[name a] parts Ha _ IH]; intros acc.
    - simpl. lra.
    - cbn [foldl fmap list_fmap fst snd]. rewrite sum_cons.
      eapply Qle_trans; [apply IH|].
      pose proof (lookup_nonneg weights name Hpos) as Hw. simpl in Ha.
      change (list_fmap _ _ ?f ?l) with (f <$> l).
      generalize dependent (default 0%Q (Learn.dict_get name weights)).
      intros w Hw. generalize (Py.sum ((fun name0 =>
        default 0%Q (Learn.dict_get name0 weights)) <$> parts.*1)).
      intros rest. nra. }
  specialize (Hgen 0%Q). lra.
Qed.

Lemma part_scores_le (data_len : nat)
    (features : PredictAdaptiveMore.all_features) (number : Z) :
  data_len <> 0%nat ->
  Forall (fun part => part.2 <= 1)%Q (part_scores data_len features number).
Proof.
  intros Hlen.
  pose proof (expected_appearances_positive data_len Hlen) as Hpos.
  unfold part_scores. repeat (apply Forall_cons; split); [..|constructor];
    cbn [snd].
  - unfold appearance_score.
    set (d := Qabs _). assert (0 <= d)%Q as Hd by apply Qabs_nonneg.
    clearbody d.
    assert (0 <= d / expected_appearances data_len)%Q.
    { apply Qle_shift_div_l; [done|]. lra. }
    lra.
  - unfold recent_score. apply Q.le_min_r.
  - unfold interval_score. cbv zeta.
    destruct (Qlt_le_dec _ _); [apply Q.le_min_r|by vm_compute].
  - unfold hot_cold_score. repeat case_bool_decide; by vm_compute.
  - unfold periodicity_score.
    destruct (_ !! number) as [[[?|] ?]|]; [|by vm_compute..].
    destruct (Qle_bool _ _); by vm_compute.
  - unfold trend_score. destruct (_ !! number) as [?|]; [|by vm_compute].
    repeat destruct (Qlt_le_dec _ _); by vm_compute.
  - unfold ma_score. destruct (_ !! number) as [[]|]; by vm_compute.
  - unfold attraction_score. destruct (2 <? _); by vm_compute.
  - unfold distribution_score. cbv zeta.
    repeat destruct (Qlt_le_dec _ _); by vm_compute.
  - unfold adjacent_score. repeat destruct (Qlt_le_dec _ _); by vm_compute.
Qed.

Lemma calculate_number_score_KeyError (data_len : nat)
    (features : PredictAdaptiveMore.all_features)
    (weights : Learn.weight_dict) (number : Z) :
  data_len <> 0%nat ->
  Exists (fun name => Learn.dict_get name weights = None)
         (Learn.keys Learn.default_weights) ->
  PredictAdaptiveMore.calculate_number_score data_len features weights number
  = Raise KeyError.
Proof.
  intros Hlen Hex.
  pose proof (expected_appearances_positive data_len Hlen) as Hpos.
  unfold PredictAdaptiveMore.calculate_number_score,
    PredictAdaptiveMore.weight.
  fold (expected_appearances data_len).
  rewrite fdiv_nonzero by lra. cbn [bind].
  destruct (Learn.dict_get "total_appearances" weights) eqn:H1;
    [cbn [bind]|done].
  destruct (Learn.dict_get "recent_appearances" weights) eqn:H2;
    [cbn [bind]|done].
  destruct (Qlt_le_dec (expected_appearances data_len * (15 # 10)) _);
    [rewrite fdiv_nonzero by lra|]; cbn [bind].
  all: destruct (Learn.dict_get "missing_intervals" weights) eqn:H3;
    [cbn [bind]|done].
  all: destruct (Learn.dict_get "hot_cold" weights) eqn:H4;
    [cbn [bind]|done].
  all: destruct (Learn.dict_get "periodicity" weights) eqn:H5;
    [cbn [bind]|done].
  all: destruct (Learn.dict_get "regression_trend" weights) eqn:H6;
    [cbn [bind]|done].
  all: destruct (Learn.dict_get "moving_average" weights) eqn:H7;
    [cbn [bind]|done].
  all: destruct (Learn.dict_get "attraction_effect" weights) eqn:H8;
    [cbn [bind]|done].
  all: destruct (Learn.dict_get "distribution" weights) eqn:H9;
    [cbn [bind]|done].
  all: destruct (Learn.dict_get "adjacent_correlation" weights) eqn:H10;
    [cbn [bind]|done].
  all: exfalso; unfold Learn.keys in Hex;
    cbn [Learn.default_weights fmap list_fmap fst] in Hex;
    repeat (apply Exists_cons in Hex as [Hex|Hex]; [congruence|]);
    by apply Exists_nil in Hex.
Qed.

(** X25. On an empty history the per-number score raises
    [ZeroDivisionError], whatever the weights. On a non-empty history it
    raises [KeyError] when one of the ten default features has no weight,
    and otherwise returns the sum, over the ten features, of the weight
    times the part score. *)
Theorem calculate_number_score_cases (data_len : nat)
    (features : PredictAdaptiveMore.all_features)
    (weights : Learn.weight_dict) (number : Z) :
  (data_len = 0%nat ->
   PredictAdaptiveMore.calculate_number_score data_len features weights number
   = Raise ZeroDivisionError)
  /\ (data_len <> 0%nat ->
      Exists (fun name => Learn.dict_get name weights = None)
             (Learn.keys Learn.default_weights) ->
      PredictAdaptiveMore.calculate_number_score data_len features weights
        number = Raise KeyError)
  /\ (data_len <> 0%nat ->
      Forall (fun name => is_Some (Learn.dict_get name weights))
             (Learn.keys Learn.default_weights) ->
      PredictAdaptiveMore.calculate_number_score data_len features weights
        number
      = Ok (weighted_sum weights (part_scores data_len features number))).
Proof.
  split; [by intros ->|].
  split; [apply calculate_number_score_KeyError
         |apply calculate_number_score_parts].
Qed.

Lemma calculate_number_score_cases_witness :
  PredictAdaptiveMore.calculate_number_score 10 sample_all_features
    [("total_appearances", 1%Q)] 7 = Raise KeyError
  /\ PredictAdaptiveMore.calculate_number_score 10 sample_all_features
       Learn.default_weights 7
     = Ok (weighted_sum Learn.default_weights
             (part_scores 10 sample_all_features 7)).
Proof.
  split.
  - apply (proj1 (proj2 (calculate_number_score_cases 10 sample_all_features
                           [("total_appearances", 1%Q)] 7))); [done|].
    apply Exists_cons. right. apply Exists_cons. by left.
  - apply (proj2 (proj2 (calculate_number_score_cases 10 sample_all_features
                           Learn.default_weights 7))); [done|].
    apply (bool_decide_unpack _). vm_compute. exact I.
Defined.

(** X26. With non-negative weights, as the learner produces them, every
    part score counts at most its weight: on a non-empty history the
    per-number score is at most the sum of all weights, so at most 1 for
    normalised weights. *)
Theorem calculate_number_score_le_weights (data_len : nat)
    (features : PredictAdaptiveMore.all_features)
    (weights : Learn.weight_dict) (number : Z) :
  data_len <> 0%nat ->
  Forall (fun name => is_Some (Learn.dict_get name weights))
         (Learn.keys Learn.default_weights) ->
  Forall (fun v => 0 <= v)%Q (Learn.values weights) ->
  exists score,
    PredictAdaptiveMore.calculate_number_score data_len features weights number
    = Ok score
    /\ (score <= Py.sum (Learn.values weights))%Q.
Proof.
  intros Hlen Hall Hpos. eexists.
  split; [by apply calculate_number_score_parts|].
  eapply Qle_trans;
    [apply weighted_sum_le; [done|by apply part_scores_le]|].
  apply lookups_sum_le; [|done].
  apply (bool_decide_unpack _). vm_compute. exact I.
Qed.

Lemma calculate_number_score_le_weights_witness :
  exists score,
    PredictAdaptiveMore.calculate_number_score 10 sample_all_features
      Learn.default_weights 7 = Ok score
    /\ (score <= 1)%Q.
Proof.
  destruct (calculate_number_score_le_weights 10 sample_all_features
              Learn.default_weights 7) as (score & Hrun & Hle).
  - done.
  - apply (bool_decide_unpack _). vm_compute. exact I.
  - unfold Learn.values. cbn [Learn.default_weights fmap list_fmap snd].
    repeat (apply Forall_cons; split; [by vm_compute|]). constructor.
  - exists score. split; [exact Hrun|].
    eapply Qle_trans; [exact Hle|]. by vm_compute.
Defined.

Lemma sum_le_length (l : list Q) :
  Forall (fun v => v <= 1)%Q l ->
  (Py.sum l <= inject_Z (Z.of_nat (length l)))%Q.
Proof.
  induction 1 as [|x l Hx _ IH]; [by vm_compute|].
  rewrite sum_cons. simpl length. rewrite Nat2Z.inj_succ.
  unfold Z.succ. rewrite inject_Z_plus.
  change (inject_Z 1) with 1%Q. lra.
Qed.

(** X27. When the weights are non-negative and sum to 1 and the history is
    not empty, the confidence of a six-number combination, computed from
    the per-number scores and from its own combination score, is at most
    92 points: 60 for the per-number part and 32 for the combination. *)
Theorem confidence_at_most_92 (data_len : nat)
    (features : PredictAdaptiveMore.all_features)
    (weights : Learn.weight_dict) (score : Z -> Q) (numbers : list Z) :
  data_len <> 0%nat ->
  Forall (fun v => 0 <= v)%Q (Learn.values weights) ->
  (Py.sum (Learn.values weights) == 1)%Q ->
  (forall number,
     PredictAdaptiveMore.calculate_number_score data_len features weights
       number = Ok (score number)) ->
  length numbers = 6%nat ->
  exists confidence,
    PredictAdaptive.calculate_confidence_score score numbers
      (PredictAdaptive.calculate_combination_score numbers) = Some confidence
    /\ (confidence <= 92)%Q.
Proof.
  intros Hlen Hpos Hsum Hscore Hsix.
  assert (Forall (fun name => is_Some (Learn.dict_get name weights))
            (Learn.keys Learn.default_weights)) as Hall.
  { apply Forall_forall. intros name Hname.
    destruct (Learn.dict_get name weights) eqn:Hget; [by eexists|].
    exfalso.
    assert (PredictAdaptiveMore.calculate_number_score data_len features
              weights 0 = Raise KeyError) as Hkey.
    { apply calculate_number_score_KeyError; [done|].
      apply Exists_exists. by exists name. }
    rewrite Hscore in Hkey. discriminate Hkey. }
  assert (Forall (fun v => v <= 1)%Q (score <$> numbers)) as Hle.
  { apply Forall_forall. intros v Hv.
    apply list_elem_of_fmap in Hv as (number & -> & _).
    pose proof (calculate_number_score_parts data_len features weights number
                  Hlen Hall) as Hparts.
    rewrite Hscore in Hparts. injection Hparts as ->.
    rewrite <- Hsum.
    eapply Qle_trans;
      [apply weighted_sum_le; [done|by apply part_scores_le]|].
    apply lookups_sum_le; [|done].
    apply (bool_decide_unpack _). vm_compute. exact I. }
  apply sum_le_length in Hle. rewrite length_fmap, Hsix in Hle.
  change (inject_Z (Z.of_nat 6)) with 6%Q in Hle.
  pose proof (combination_score_le numbers) as Hcombo.
  unfold PredictAdaptive.calculate_confidence_score.
  rewrite np_mean_six by (by rewrite length_fmap).
  eexists. split; [reflexivity|].
  generalize dependent (Py.sum (score <$> numbers)).
  generalize dependent (PredictAdaptive.calculate_combination_score numbers).
  intros combo Hcombo total Htotal. unfold Qdiv.
  change (/ 6)%Q with (1 # 6)%Q. lra.
Qed.

Lemma confidence_at_most_92_witness :
  exists confidence,
    PredictAdaptive.calculate_confidence_score
      (fun number =>
         weighted_sum Learn.default_weights
           (part_scores 10 sample_all_features number))
      [6; 11; 20; 27; 36; 47]
      (PredictAdaptive.calculate_combination_score [6; 11; 20; 27; 36; 47])
    = Some confidence
    /\ (confidence <= 92)%Q.
Proof.
  apply (confidence_at_most_92 10 sample_all_features Learn.default_weights).
  - done.
  - unfold Learn.values. cbn [Learn.default_weights fmap list_fmap snd].
    repeat (apply Forall_cons; split; [by vm_compute|]). constructor.
  - by vm_compute.
  - intros number. apply calculate_number_score_parts; [done|].
    apply (bool_decide_unpack _). vm_compute. exact I.
  - done.
Defined.

(** ** The manual adjustment script *)

Lemma load_weights_keys (file : LearnMore.stored_file) (k : string) :
  k ∈ Learn.keys Learn.default_weights ->
  k ∈ Learn.keys (LearnMore.load_weights file).
Proof.
  intros Hk. destruct file as [| |loaded]; [done..|].
  unfold LearnMore.load_weights, LearnMore.fill_defaults.
  apply dict_get_is_Some in Hk as [v Hv].
  destruct (Learn.dict_get k loaded) as [w|] eqn:Hl.
  - apply (dict_get_Some_keys _ _ w). by rewrite fill_lookup, Hl.
  - apply (dict_get_Some_keys _ _ v). by rewrite fill_lookup, Hl.
Qed.

Lemma dict_set_nonneg (d : list (string * Q)) (k : string) (v : Q) :
  Forall (fun x => 0 <= x)%Q (Learn.values d) -> (0 <= v)%Q ->
  Forall (fun x => 0 <= x)%Q (Learn.values (Learn.dict_set k v d)).
Proof.
  intros Hd Hv. unfold Learn.values in *.
  induction d as [|[k' v'] d IH]; simpl.
  - by repeat constructor.
  - simpl in Hd. apply Forall_cons in Hd as [Hv' Hd].
    destruct (String.eqb k k'); simpl; constructor; auto.
Qed.

Lemma dict_get_values {V} (d : list (string * V)) (k : string) (v : V) :
  Learn.dict_get k d = Some v -> v ∈ Learn.values d.
Proof.
  unfold Learn.values. induction d as [|[k' v'] d IH]; simpl; [done|].
  destruct (String.eqb k k').
  - intros [= ->]. by left.
  - intros Hget. right. by apply IH.
Qed.

(** One assignment of the script keeps the features, and the non-negative
    weights non-negative when the new value is. *)
Lemma adjust_step (f : Q -> Q) (name : string) (weights : Learn.weight_dict) :
  name ∈ Learn.keys weights ->
  exists old_weight,
    Learn.dict_get name weights = Some old_weight
    /\ Learn.keys (Learn.dict_set name (f old_weight) weights)
       = Learn.keys weights
    /\ (Forall (fun x => 0 <= x)%Q (Learn.values weights) ->
        (0 <= old_weight)%Q
        /\ ((0 <= f old_weight)%Q ->
            Forall (fun x => 0 <= x)%Q
              (Learn.values (Learn.dict_set name (f old_weight) weights)))).
Proof.
  intros Hin. destruct (dict_get_is_Some _ _ Hin) as [old Hold].
  exists old. split; [done|]. split; [by apply keys_dict_set_present|].
  intros Hpos. split.
  - apply dict_get_values in Hold.
    by apply (proj1 (Forall_forall _ _) Hpos).
  - intros Hf. by apply dict_set_nonneg.
Qed.

Lemma main_adjusts (file : LearnMore.stored_file) :
  exists weights,
    RunLearning.main file = Learn.normalize weights
    /\ Learn.keys weights = Learn.keys (LearnMore.load_weights file)
    /\ (Forall (fun x => 0 <= x)%Q (Learn.values (LearnMore.load_weights file)) ->
        Forall (fun x => 0 <= x)%Q (Learn.values weights)
        /\ exists v, v ∈ Learn.values weights /\ (1 # 50 <= v)%Q).
Proof.
  unfold RunLearning.main.
  set (w0 := LearnMore.load_weights file).
  assert (forall k, k ∈ Learn.keys Learn.default_weights -> k ∈ Learn.keys w0)
    as Hkeys by (intros k; apply load_weights_keys).
  assert (forall k : string,
            bool_decide (k ∈ Learn.keys Learn.default_weights) = true ->
            k ∈ Learn.keys w0) as Hk0.
  { intros k Hk. apply Hkeys. by apply bool_decide_eq_true in Hk. }
  clear Hkeys.
  destruct (adjust_step (fun old => Qmax (1 # 100) (old - (5 # 1000)))
              "total_appearances" w0) as (o1 & H1 & K1 & P1); [by apply Hk0|].
  set (w1 := Learn.dict_set "total_appearances" _ w0) in *.
  destruct (adjust_step (fun old => Qmax (1 # 100) (old - (5 # 1000)))
              "recent_appearances" w1) as (o2 & H2 & K2 & P2);
    [rewrite K1; by apply Hk0|].
  set (w2 := Learn.dict_set "recent_appearances" _ w1) in *.
  destruct (adjust_step (fun old => Qmax (1 # 100) (old - (5 # 1000)))
              "adjacent_correlation" w2) as (o3 & H3 & K3 & P3);
    [rewrite K2, K1; by apply Hk0|].
  set (w3 := Learn.dict_set "adjacent_correlation" _ w2) in *.
  destruct (adjust_step (fun old => Qmax (1 # 100) (old - (5 # 1000)))
              "hot_cold" w3) as (o4 & H4 & K4 & P4);
    [rewrite K3, K2, K1; by apply Hk0|].
  set (w4 := Learn.dict_set "hot_cold" _ w3) in *.
  destruct (adjust_step (fun old => Qmax (1 # 100) (old - (1 # 100)))
              "distribution" w4) as (o5 & H5 & K5 & P5);
    [rewrite K4, K3, K2, K1; by apply Hk0|].
  set (w5 := Learn.dict_set "distribution" _ w4) in *.
  destruct (adjust_step (fun old => Qmax (1 # 100) (old - (1 # 100)))
              "periodicity" w5) as (o6 & H6 & K6 & P6);
    [rewrite K5, K4, K3, K2, K1; by apply Hk0|].
  set (w6 := Learn.dict_set "periodicity" _ w5) in *.
  destruct (adjust_step (fun old => Qmin (5 # 10) (old + (2 # 100)))
              "missing_intervals" w6) as (o7 & H7 & K7 & P7);
    [rewrite K6, K5, K4, K3, K2, K1; by apply Hk0|].
  set (w7 := Learn.dict_set "missing_intervals" _ w6) in *.
  exists w7. split; [|split].
  - unfold RunLearning.lower at 1. rewrite H1. cbn [bind]. fold w1.
    unfold RunLearning.lower at 1. rewrite H2. cbn [bind]. fold w2.
    unfold RunLearning.lower at 1. rewrite H3. cbn [bind]. fold w3.
    unfold RunLearning.lower at 1. rewrite H4. cbn [bind]. fold w4.
    unfold RunLearning.lower at 1. rewrite H5. cbn [bind]. fold w5.
    unfold RunLearning.lower at 1. rewrite H6. cbn [bind]. fold w6.
    unfold RunLearning.lift. rewrite H7. cbn [bind]. reflexivity.
  - by rewrite K7, K6, K5, K4, K3, K2, K1.
  - intros Hpos.
    assert (forall x d, (0 <= Qmax (1 # 100) (x - d))%Q) as Hmax.
    { intros x d. eapply Qle_trans; [|apply Q.le_max_l]. by vm_compute. }
    destruct (P1 Hpos) as [_ Q1]. specialize (Q1 (Hmax _ _)).
    destruct (P2 Q1) as [_ Q2]. specialize (Q2 (Hmax _ _)).
    destruct (P3 Q2) as [_ Q3]. specialize (Q3 (Hmax _ _)).
    destruct (P4 Q3) as [_ Q4]. specialize (Q4 (Hmax _ _)).
    destruct (P5 Q4) as [_ Q5]. specialize (Q5 (Hmax _ _)).
    destruct (P6 Q5) as [_ Q6]. specialize (Q6 (Hmax _ _)).
    destruct (P7 Q6) as [Ho7 Q7].
    assert (1 # 50 <= Qmin (5 # 10) (o7 + (2 # 100)))%Q as Hv.
    { apply Q.min_glb; [by vm_compute|lra]. }
    split.
    + apply Q7. eapply Qle_trans; [|exact Hv]. by vm_compute.
    + eexists. split; [|exact Hv].
      apply (dict_get_values _ "missing_intervals"). apply dict_get_set_eq.
Qed.

(** X28. The adjustment script never fails on a missing feature: loading
    fills in the ten default features, so whatever the weights file holds
    the script either writes weights or stops on a zero total. When the
    loaded weights are non-negative it writes weights for the same features
    in the same order, each in [0, 1], that sum to 1. *)
Theorem run_learning_main_normalized (file : LearnMore.stored_file) :
  ((exists weights, RunLearning.main file = Ok weights)
   \/ RunLearning.main file = Raise ZeroDivisionError)
  /\ (Forall (fun x => 0 <= x)%Q (Learn.values (LearnMore.load_weights file)) ->
      exists weights,
        RunLearning.main file = Ok weights
        /\ Learn.keys weights = Learn.keys (LearnMore.load_weights file)
        /\ (Py.sum (Learn.values weights) == 1)%Q
        /\ Forall (fun x => 0 <= x <= 1)%Q (Learn.values weights)).
Proof.
  destruct (main_adjusts file) as (w & -> & Hkeys & Hpos). split.
  - unfold Learn.normalize. destruct w; [left; by eexists|].
    destruct (Qeq_bool _ 0); [by right|left; by eexists].
  - intros Hnonneg. destruct (Hpos Hnonneg) as (Hw & v & Hv & Hle).
    pose proof (sum_elem_le _ _ Hw Hv) as Htotal.
    set (total := Py.sum (Learn.values w)) in *.
    assert (0 < total)%Q as Htpos by lra.
    unfold Learn.normalize. fold total.
    destruct w as [|kv w']; [by apply elem_of_nil in Hv|].
    destruct (Qeq_bool total 0) eqn:Hz.
    { apply Qeq_bool_iff in Hz. lra. }
    set (w := kv :: w') in *.
    eexists. split; [reflexivity|]. split; [by rewrite keys_fmap_snd|].
    assert (Learn.values ((fun kv => (kv.1, (kv.2 / total)%Q)) <$> w)
            = (fun x => (x / total)%Q) <$> Learn.values w) as Hvals.
    { unfold Learn.values. rewrite <- !list_fmap_compose.
      apply list_fmap_ext. by intros _ [k x] _. }
    rewrite Hvals. split.
    + rewrite sum_div. fold total. field. lra.
    + apply Forall_forall. intros x Hx.
      apply list_elem_of_fmap in Hx as (y & -> & Hy).
      pose proof (proj1 (Forall_forall _ _) Hw y Hy) as Hy0. simpl in Hy0.
      pose proof (sum_elem_le _ _ Hw Hy) as Hyt. fold total in Hyt.
      split.
      * apply Qle_shift_div_l; [done|]. lra.
      * apply Qle_shift_div_r; [done|]. lra.
Qed.

Lemma run_learning_main_normalized_witness :
  exists weights,
    RunLearning.main LearnMore.FileMissing = Ok weights
    /\ (Py.sum (Learn.values weights) == 1)%Q.
Proof.
  destruct (proj2 (run_learning_main_normalized LearnMore.FileMissing))
    as (w & Hrun & _ & Hsum & _).
  - unfold Learn.values.
    cbn [LearnMore.load_weights Learn.default_weights fmap list_fmap snd].
    repeat (apply Forall_cons; split; [by vm_compute|]). constructor.
  - by exists w.
Defined.

(** ** Adjacent numbers *)

Lemma pairs_at_distance_snoc (k : Z) (pairs : list (Z * Z)) (pc : Z * Z) :
  pairs_at_distance k (pairs ++ [pc])
  = pairs_at_distance k pairs + (if Z.abs (pc.2 - pc.1) =? k then 1 else 0).
Proof.
  unfold pairs_at_distance. rewrite List.filter_app, length_app. simpl.
  destruct (Z.abs (pc.2 - pc.1) =? k); simpl; lia.
Qed.

Lemma pairs_at_distance_nonneg (k : Z) (pairs : list (Z * Z)) :
  0 <= pairs_at_distance k pairs.
Proof. unfold pairs_at_distance. lia. Qed.

Lemma pairs_at_distance_total (pairs : list (Z * Z)) :
  pairs_at_distance 1 pairs + pairs_at_distance 2 pairs
  <= Z.of_nat (length pairs).
Proof.
  induction pairs as [|pc pairs IH] using rev_ind; [done|].
  rewrite !pairs_at_distance_snoc, length_app. simpl.
  destruct (Z.eqb_spec (Z.abs (pc.2 - pc.1)) 1),
    (Z.eqb_spec (Z.abs (pc.2 - pc.1)) 2); lia.
Qed.

Lemma pair_step_inv (seen : list (Z * Z))
    (st : FeaturesAdjacent.adjacent_state) (pc : Z * Z) :
  adjacent_inv seen st ->
  adjacent_inv (seen ++ [pc]) (FeaturesAdjacent.pair_step st pc.1 pc.2).
Proof.
  intros [Hc Ht]. unfold FeaturesAdjacent.pair_step.
  set (diff := Z.abs (pc.2 - pc.1)).
  split; cbn [FeaturesAdjacent.adjacent_counts
              FeaturesAdjacent.total_adjacent_opportunities];
    [|rewrite Ht, length_app; simpl; lia].
  intros k. rewrite pairs_at_distance_snoc. fold diff.
  pose proof (pairs_at_distance_nonneg k seen) as Hk0.
  destruct ((1 <=? diff) && (diff <=? 2)) eqn:Hd.
  - apply andb_true_iff in Hd as [H1 H2]. apply Z.leb_le in H1, H2.
    destruct (Z.eqb_spec diff k) as [<-|Hne].
    + rewrite lookup_insert_eq, Hc.
      rewrite (decide_True (P := 1 <= diff <= 2
                                 /\ 0 < pairs_at_distance diff seen + 1))
        by lia.
      destruct (decide (1 <= diff <= 2 /\ 0 < pairs_at_distance diff seen))
        as [_|Hno]; simpl; [done|].
      f_equal. lia.
    + rewrite lookup_insert_ne by done. rewrite Hc, Z.add_0_r. done.
  - rewrite Hc. destruct (Z.eqb_spec diff k) as [<-|Hne].
    + apply andb_false_iff in Hd.
      rewrite !decide_False; [done| |];
        intros [? _]; destruct Hd as [Hd|Hd]; apply Z.leb_gt in Hd; lia.
    + by rewrite Z.add_0_r.
Qed.

Lemma pair_steps_inv (pairs seen : list (Z * Z))
    (st : FeaturesAdjacent.adjacent_state) :
  adjacent_inv seen st ->
  adjacent_inv (seen ++ pairs)
    (foldl (fun st pc => FeaturesAdjacent.pair_step st pc.1 pc.2) st pairs).
Proof.
  revert seen st. induction pairs as [|pc pairs IH]; intros seen st Hinv.
  - by rewrite app_nil_r.
  - simpl foldl. replace (seen ++ pc :: pairs) with ((seen ++ [pc]) ++ pairs)
      by (by rewrite <- app_assoc).
    apply IH. by apply pair_step_inv.
Qed.

Lemma draw_step_pairs (st : FeaturesAdjacent.adjacent_state)
    (prev curr : list Z) :
  FeaturesAdjacent.draw_step st prev curr
  = foldl (fun st pc => FeaturesAdjacent.pair_step st pc.1 pc.2) st
      (number_pairs prev curr).
Proof.
  unfold FeaturesAdjacent.draw_step, number_pairs. revert st.
  induction prev as [|p prev IH]; intros st; [done|].
  cbn [foldl mbind list_bind]. rewrite foldl_app, <- IH. f_equal.
  generalize st. clear. induction curr as [|c curr IHc]; intros st; [done|].
  simpl. apply IHc.
Qed.

Lemma adjacent_loop_pairs (data : list Features.row)
    (st : FeaturesAdjacent.adjacent_state) :
  FeaturesAdjacent.adjacent_loop data st
  = foldl (fun st pc => FeaturesAdjacent.pair_step st pc.1 pc.2) st
      (successive_pairs data).
Proof.
  revert st. induction data as [|prev rest IH]; intros st; [done|].
  destruct rest as [|curr rest']; [done|].
  change (FeaturesAdjacent.adjacent_loop (prev :: curr :: rest') st)
    with (FeaturesAdjacent.adjacent_loop (curr :: rest')
            (FeaturesAdjacent.draw_step st (Features.numbers_of prev)
               (Features.numbers_of curr))).
  change (successive_pairs (prev :: curr :: rest'))
    with (number_pairs (Features.numbers_of prev) (Features.numbers_of curr)
          ++ successive_pairs (curr :: rest')).
  by rewrite IH, foldl_app, draw_step_pairs.
Qed.

Lemma length_successive_pairs (data : list Features.row) :
  Z.of_nat (length (successive_pairs data))
  = 36 * Z.of_nat (length data - 1).
Proof.
  induction data as [|prev rest IH]; [done|].
  destruct rest as [|curr rest']; [done|].
  change (successive_pairs (prev :: curr :: rest'))
    with (number_pairs (Features.numbers_of prev) (Features.numbers_of curr)
          ++ successive_pairs (curr :: rest')).
  rewrite length_app, Nat2Z.inj_add, IH.
  change (length (number_pairs _ _)) with 36%nat. simpl length. lia.
Qed.

Lemma rates_nonzero (items : list (Z * Z)) (total : Z) :
  total <> 0 ->
  FeaturesAdjacent.rates items total
  = Ok (list_to_map
          (prod_map id (fun v => (inject_Z v / inject_Z total)%Q) <$> items)).
Proof.
  intros Hne. induction items as [|[k v] items IH]; [done|].
  cbn [FeaturesAdjacent.rates foldr fst snd].
  rewrite truediv_nonzero by done. cbn [bind].
  change (foldr _ _ items) with (FeaturesAdjacent.rates items total).
  rewrite IH. reflexivity.
Qed.

(** X29. [get_adjacent_correlation] never raises. Its dictionary has an
    entry for the distance [k] exactly when [k] is 1 or 2 and some number
    of a draw and some number of the next draw lie at distance [k]; the
    entry is the number of such pairs, over all successive draws, divided
    by 36 times the number of steps. So with fewer than two draws the
    dictionary is empty, no division taking place; every entry lies in
    (0, 1], and the two rates together are at most 1. *)
Theorem get_adjacent_correlation_rates (data : list Features.row) :
  exists correlation,
    FeaturesAdjacent.get_adjacent_correlation data = Ok correlation
    /\ (forall k,
          correlation !! k
          = if decide (1 <= k <= 2
                       /\ 0 < pairs_at_distance k (successive_pairs data))
            then Some (inject_Z (pairs_at_distance k (successive_pairs data))
                       / inject_Z (36 * Z.of_nat (length data - 1)))%Q
            else None)
    /\ ((length data <= 1)%nat -> correlation = ∅)
    /\ (forall k v, correlation !! k = Some v -> (0 < v <= 1)%Q)
    /\ (default 0 (correlation !! 1%Z) + default 0 (correlation !! 2%Z)
        <= 1)%Q.
Proof.
  set (init := {| FeaturesAdjacent.adjacent_counts := ∅;
                  FeaturesAdjacent.total_adjacent_opportunities := 0 |}).
  assert (adjacent_inv [] init) as Hinit.
  { split; [|done]. intros k. cbn [FeaturesAdjacent.adjacent_counts init].
    rewrite lookup_empty, decide_False; [done|].
    intros [_ Hpos]. by vm_compute in Hpos. }
  pose proof (pair_steps_inv (successive_pairs data) [] init Hinit)
    as [Hc Ht].
  rewrite <- adjacent_loop_pairs in Hc, Ht. rewrite app_nil_l in Hc, Ht.
  rewrite length_successive_pairs in Ht.
  unfold FeaturesAdjacent.get_adjacent_correlation. fold init.
  set (st := FeaturesAdjacent.adjacent_loop data init) in *.
  set (counts := FeaturesAdjacent.adjacent_counts st) in *.
  set (total := FeaturesAdjacent.total_adjacent_opportunities st) in *.
  set (pairs := successive_pairs data) in *.
  pose proof (pairs_at_distance_total pairs) as Hsum.
  assert (Z.of_nat (length pairs) = total) as Hlen
    by (unfold pairs; rewrite length_successive_pairs; done).
  rewrite Hlen in Hsum. rewrite <- Ht.
  assert (forall k, 0 <= pairs_at_distance k pairs) as Hnn
    by (intros k; apply pairs_at_distance_nonneg).
  assert (forall k, 1 <= k <= 2 -> pairs_at_distance k pairs <= total)
    as Hle.
  { intros k Hk. pose proof (Hnn 1). pose proof (Hnn 2).
    assert (k = 1 \/ k = 2) as [-> | ->] by lia; lia. }
  destruct (decide (total = 0)) as [Hz|Hnz].
  - assert (counts = ∅) as Hempty.
    { apply map_eq. intros k. rewrite lookup_empty, Hc.
      apply decide_False. intros [Hk Hpos]. specialize (Hle k Hk). lia. }
    rewrite Hempty, map_to_list_empty. exists ∅.
    split; [done|]. split.
    { intros k. rewrite lookup_empty. symmetry. apply decide_False.
      intros [Hk Hpos]. specialize (Hle k Hk). lia. }
    split; [done|]. split; [by intros k v ?|].
    rewrite lookup_empty. by vm_compute.
  - rewrite rates_nonzero by done.
    rewrite list_to_map_fmap, list_to_map_to_list.
    eexists. split; [reflexivity|].
    assert (0 < inject_Z total)%Q as Htq.
    { change 0%Q with (inject_Z 0). rewrite <- Zlt_Qlt. lia. }
    assert (forall k,
              ((fun c => (inject_Z c / inject_Z total)%Q) <$> counts) !! k
              = if decide (1 <= k <= 2 /\ 0 < pairs_at_distance k pairs)
                then Some (inject_Z (pairs_at_distance k pairs)
                           / inject_Z total)%Q
                else None) as Hval.
    { intros k. rewrite lookup_fmap, Hc. by destruct (decide _). }
    split; [exact Hval|]. split.
    { intros Hshort. exfalso. apply Hnz. rewrite Ht.
      replace (length data - 1)%nat with 0%nat by lia. done. }
    assert (forall k, 1 <= k <= 2 -> 0 < pairs_at_distance k pairs ->
              (0 < inject_Z (pairs_at_distance k pairs) / inject_Z total
               <= 1)%Q) as Hbound.
    { intros k Hk Hpos. specialize (Hle k Hk).
      assert (inject_Z 0 < inject_Z (pairs_at_distance k pairs))%Q as Hc0
        by (rewrite <- Zlt_Qlt; lia).
      assert (inject_Z (pairs_at_distance k pairs) <= inject_Z total)%Q
        as Hct by (rewrite <- Zle_Qle; lia).
      change (inject_Z 0) with 0%Q in Hc0. split.
      - apply Qlt_shift_div_l; [done|]. lra.
      - apply Qle_shift_div_r; [done|]. lra. }
    split.
    + intros k v Hv. rewrite Hval in Hv.
      destruct (decide _) as [[Hk Hpos]|]; [|done].
      injection Hv as <-. by apply Hbound.
    + rewrite !Hval.
      assert (inject_Z (pairs_at_distance 1 pairs)
              + inject_Z (pairs_at_distance 2 pairs) <= inject_Z total)%Q
        as Hq by (rewrite <- inject_Z_plus, <- Zle_Qle; exact Hsum).
      pose proof (Hnn 1) as Hn1. pose proof (Hnn 2) as Hn2.
      assert (0 <= inject_Z (pairs_at_distance 1 pairs) / inject_Z total)%Q
        as Hd1.
      { apply Qle_shift_div_l; [done|].
        assert (inject_Z 0 <= inject_Z (pairs_at_distance 1 pairs))%Q
          by (rewrite <- Zle_Qle; lia).
        change (inject_Z 0) with 0%Q in *. lra. }
      assert (0 <= inject_Z (pairs_at_distance 2 pairs) / inject_Z total)%Q
        as Hd2.
      { apply Qle_shift_div_l; [done|].
        assert (inject_Z 0 <= inject_Z (pairs_at_distance 2 pairs))%Q
          by (rewrite <- Zle_Qle; lia).
        change (inject_Z 0) with 0%Q in *. lra. }
      assert (inject_Z (pairs_at_distance 1 pairs) / inject_Z total
              + inject_Z (pairs_at_distance 2 pairs) / inject_Z total
              <= 1)%Q as Hboth.
      { assert ((inject_Z (pairs_at_distance 1 pairs) / inject_Z total
                 + inject_Z (pairs_at_distance 2 pairs) / inject_Z total
                 == (inject_Z (pairs_at_distance 1 pairs)
                     + inject_Z (pairs_at_distance 2 pairs))
                    / inject_Z total)%Q) as -> by (field; lra).
        apply Qle_shift_div_r; [done|]. lra. }
      destruct (decide (1 <= 1 <= 2 /\ _)), (decide (1 <= 2 <= 2 /\ _));
        cbn [default from_option id]; lra.
Qed.

Lemma get_adjacent_correlation_rates_witness :
  exists correlation,
    FeaturesAdjacent.get_adjacent_correlation three_draws = Ok correlation
    /\ correlation !! 1%Z = Some (5 # 72)%Q
    /\ correlation !! 3%Z = None.
Proof.
  destruct (get_adjacent_correlation_rates three_draws)
    as (corr & Hrun & Hval & _).
  exists corr. split; [exact Hrun|]. rewrite !Hval. split.
  - rewrite decide_True by (split; [lia|by vm_compute]). by vm_compute.
  - apply decide_False. intros [? _]. lia.
Defined.

(** ** Moving average *)

Lemma window_sum (num : Z) (data : list Features.row) (i : nat) :
  foldr Z.add 0 (take 5 (drop i (FeaturesTrend.appearances num data)))
  = draws_with num (take 5 (drop i data)).
Proof.
  unfold draws_with, FeaturesTrend.appearances.
  by rewrite fmap_take, fmap_drop.
Qed.

Lemma scored_lookup {A} (f : Z -> A) (num : Z) :
  1 <= num <= 49 ->
  (list_to_map ((fun n => (n, f n)) <$> Py.range 1 50) : gmap Z A) !! num
  = Some (f num).
Proof.
  intros Hnum. apply elem_of_list_to_map.
  - rewrite <- list_fmap_compose.
    assert ((fst ∘ (fun n : Z => (n, f n))) <$> Py.range 1 50 = Py.range 1 50)
      as ->.
    { rewrite <- (list_fmap_id (Py.range 1 50)) at 2.
      by apply list_fmap_ext. }
    apply NoDup_seqZ.
  - apply list_elem_of_fmap. exists num. split; [done|].
    unfold Py.range. apply elem_of_seqZ. lia.
Qed.

(** X30. The moving-average entry of a number in 1..49: with fewer than
    five draws it is trend 0, direction stable. With five draws or more the
    current trend is a fifth of the number of the last five draws holding
    the number, and the direction is never stable: it is up exactly when
    there are at least nine draws and the last five draws hold the number
    more often than the five draws ending four draws earlier, and down
    otherwise, in particular on a tie and for every number when the history
    has five to eight draws. *)
Theorem get_moving_average_trend_direction (data : list Features.row)
    (num : Z) :
  1 <= num <= 49 ->
  exists t,
    FeaturesTrend.get_moving_average_trend data !! num = Some t
    /\ ((length data < 5)%nat ->
        t = {| FeaturesTrend.current_trend := 0;
               FeaturesTrend.trend_direction := PredictAdaptiveMore.stable |})
    /\ ((5 <= length data)%nat ->
        FeaturesTrend.current_trend t
        = (inject_Z (draws_with num (drop (length data - 5) data)) / 5)%Q
        /\ FeaturesTrend.trend_direction t <> PredictAdaptiveMore.stable
        /\ (FeaturesTrend.trend_direction t = PredictAdaptiveMore.up
            <-> (9 <= length data)%nat
                /\ draws_with num (take 5 (drop (length data - 9) data))
                   < draws_with num (drop (length data - 5) data))).
Proof.
  intros Hnum. unfold FeaturesTrend.get_moving_average_trend.
  rewrite (scored_lookup
             (fun n => FeaturesTrend.trend_of 5
                         (FeaturesTrend.appearances n data)) num Hnum).
  eexists. split; [reflexivity|].
  unfold FeaturesTrend.trend_of.
  assert (length (FeaturesTrend.appearances num data) = length data) as Hlen
    by (unfold FeaturesTrend.appearances; by rewrite length_fmap).
  rewrite Hlen.
  destruct (Nat.leb_spec 5 (length data)) as [Hge|Hlt].
  - split; [lia|]. intros _.
    set (a := FeaturesTrend.appearances num data).
    set (x := draws_with num (drop (length data - 5) data)).
    set (y := draws_with num (take 5 (drop (length data - 9) data))).
    assert (FeaturesTrend.rolling_mean 5 a (length data - 1)
            = Some (inject_Z x / 5)%Q) as Hlast.
    { unfold FeaturesTrend.rolling_mean.
      destruct (Nat.ltb_spec (length data - 1 + 1) 5) as [|_]; [lia|].
      replace (length data - 1 + 1 - 5)%nat with (length data - 5)%nat by lia.
      unfold a. rewrite window_sum.
      rewrite take_ge by (rewrite length_drop; lia). done. }
    assert (FeaturesTrend.rolling_mean 5 a (length data - 5)
            = if (length data <? 9)%nat then None
              else Some (inject_Z y / 5)%Q) as Hreference.
    { unfold FeaturesTrend.rolling_mean.
      destruct (Nat.ltb_spec (length data - 5 + 1) 5) as [Hshort|Hlong];
        destruct (Nat.ltb_spec (length data) 9) as [|]; try lia; [done|].
      replace (length data - 5 + 1 - 5)%nat with (length data - 9)%nat by lia.
      unfold a. by rewrite window_sum. }
    cbv zeta. rewrite Hlast, Hreference.
    cbn [default from_option id FeaturesTrend.current_trend].
    split; [reflexivity|].
    destruct (Nat.ltb_spec (length data) 9) as [Hshort|Hlong];
      cbn [FeaturesTrend.trend_direction].
    + split; [done|]. split; [done|]. intros [? _]. lia.
    + assert ((inject_Z y / 5 < inject_Z x / 5)%Q <-> y < x) as Hcmp.
      { rewrite Zlt_Qlt. unfold Qdiv. change (/ 5)%Q with (1 # 5)%Q.
        split; intros ?; lra. }
      destruct (Qlt_le_dec (inject_Z y / 5) (inject_Z x / 5)) as [Hup|Hdown].
      * split; [done|]. split; [|done]. intros _. split; [lia|].
        by apply Hcmp.
      * split; [done|]. split; [done|]. intros [_ Hxy].
        apply Hcmp in Hxy. apply Qle_not_lt in Hdown. done.
  - split; [done|]. lia.
Qed.

Lemma get_moving_average_trend_direction_witness :
  exists t,
    FeaturesTrend.get_moving_average_trend three_draws !! 7 = Some t
    /\ t = {| FeaturesTrend.current_trend := 0;
              FeaturesTrend.trend_direction := PredictAdaptiveMore.stable |}.
Proof.
  destruct (get_moving_average_trend_direction three_draws 7)
    as (t & Hget & Hshort & _); [lia|].
  exists t. split; [exact Hget|]. apply Hshort. simpl. lia.
Defined.
